(** * Subscription engine of the OPC UA server (freeopcua)

    A shallow embedding of
      - src/server/internal_subscription.cpp          (InternalSubscription)
      - src/server/subscription_service_internal.cpp  (SubscriptionServiceInternal)
    with the properties of the subscription engine stated over it.

    Conventions.
      - [uint32_t] values are [Z] with the wrap-around of the C++ operators
        written out ([incr32], [decr32]); [int32_t] likewise ([to_int32]).
      - [std::map] is [gmap], [std::vector] and [std::list] are [list].
      - A member function that mutates [*this] takes the object and returns
        the new object next to its result.
      - The address space (an abstract interface of the server) is a type
        class; its state is threaded through the calls that use it.
      - The deadline timer of a subscription is a small state
        ([TimerState]): which handler, if any, the io_service still owes
        the subscription. *)

From stdpp Require Import gmap strings list sorting.

Open Scope Z_scope.

(** ** Machine integers *)

Definition UINT32_MODULUS : Z := 4294967296.
Definition UINT32_MAX : Z := 4294967295.
Definition INT32_MAX : Z := 2147483647.

Definition is_u32 (z : Z) : Prop := 0 <= z < UINT32_MODULUS.

(** Conversion to [uint32_t]. *)
Definition wrap32 (z : Z) : Z := z mod UINT32_MODULUS.

(** [++x] and [--x] on a [uint32_t]. *)
Definition incr32 (z : Z) : Z := wrap32 (z + 1).
Definition decr32 (z : Z) : Z := wrap32 (z - 1).

(** Conversion to [int] (32 bits, two's complement), as in [(int)v.size()]. *)
Definition to_int32 (z : Z) : Z :=
  let w := wrap32 z in
  if w <? 2147483648 then w else w - UINT32_MODULUS.

(** Conversion to [uint8_t], as in pushing an [int32_t] on a byte vector. *)
Definition to_uint8 (z : Z) : Z := z mod 256.

(** [std::vector::empty]. *)
Definition vec_empty {A : Type} (v : list A) : bool :=
  match v with
  | [] => true
  | _ :: _ => false
  end.

(** ** Protocol types

    The structures of the OPC UA protocol are declared in headers of the
    library; only the fields the two source files touch are kept. *)

Inductive StatusCode : Type :=
| Good
| BadSubscriptionIdInvalid
| BadMonitoredItemIdInvalid
| BadNodeAttributesInvalid
| BadMessageNotAvailable.

Inductive NodeId : Type :=
| NumericNodeId (identifier : Z) (ns : Z)
| StringNodeId (identifier : string) (ns : Z).

#[global] Instance NodeId_eq_dec : EqDecision NodeId.
Proof. solve_decision. Defined.

Definition NodeId_encode (n : NodeId) : (Z * Z) + (string * Z) :=
  match n with
  | NumericNodeId i ns => inl (i, ns)
  | StringNodeId s ns => inr (s, ns)
  end.

Definition NodeId_decode (x : (Z * Z) + (string * Z)) : NodeId :=
  match x with
  | inl (i, ns) => NumericNodeId i ns
  | inr (s, ns) => StringNodeId s ns
  end.

#[global] Instance NodeId_countable : Countable NodeId.
Proof.
  apply (inj_countable' NodeId_encode NodeId_decode).
  intros []; reflexivity.
Defined.

(** [AttributeID] is an enumeration over the attribute numbers of the
    protocol; [EVENT_NOTIFIER] is attribute 12. *)
Definition AttributeID : Type := Z.
Definition EVENT_NOTIFIER : AttributeID := 12.
Definition VALUE : AttributeID := 13.

(** Modelled from the spec: [ByteString] is declared in a header that is
    not under src; its [Data] is a vector of bytes (the spec has the
    generated event id as an opaque 8-byte string), each a [Z] below
    256. *)
Record ByteString : Type := mkByteString { bs_Data : list Z }.

Record QualifiedName : Type := mkQualifiedName {
  qn_Name : string;
  qn_NamespaceIndex : Z
}.

#[global] Instance QualifiedName_eq_dec : EqDecision QualifiedName.
Proof. solve_decision. Defined.

(** The value container of the protocol: the alternatives the engine
    builds (implicit conversions in [fields.push_back (...)]). *)
Inductive VariantValue : Type :=
| VNull
| VInt (z : Z)
| VText (s : string)
| VByteString (b : ByteString)
| VNodeId (n : NodeId)
| VDateTime (t : Z).

Record DataValue : Type := mkDataValue { dv_Value : VariantValue }.

Record AttributeValueID : Type := mkAttributeValueID {
  Node : NodeId;
  Attribute : AttributeID
}.

Record SimpleAttributeOperand : Type := mkSimpleAttributeOperand {
  BrowsePath : list QualifiedName;
  sao_Attribute : AttributeID
}.

Record EventFilter : Type := mkEventFilter {
  SelectClauses : list SimpleAttributeOperand
}.

Record MonitoringFilter : Type := mkMonitoringFilter {
  mf_Event : EventFilter
}.

Inductive MonitoringMode : Type := Disabled | Sampling | Reporting.

Record MonitoringParameters : Type := mkMonitoringParameters {
  mp_ClientHandle : Z;
  QueueSize : Z;
  mp_Filter : MonitoringFilter
}.

Record MonitoredItemRequest : Type := mkMonitoredItemRequest {
  ItemToMonitor : AttributeValueID;
  req_Mode : MonitoringMode;
  req_Parameters : MonitoringParameters
}.

Record CreateMonitoredItemsResult : Type := mkCreateMonitoredItemsResult {
  Status : StatusCode;
  MonitoredItemID : Z;
  RevisedSamplingInterval : Z;
  RevizedQueueSize : Z;
  res_Filter : MonitoringFilter
}.

(** An event: the built-in fields, and the two [GetValue] lookups of the
    class (by attribute and by browse path). *)
Record Event : Type := mkEvent {
  EventId : ByteString;
  EventType : NodeId;
  SourceNode : NodeId;
  SourceName : string;
  ev_Message : string;
  Severity : Z;
  LocalTime : Z;
  ReceiveTime : Z;
  ev_Time : Z;
  GetValueAttr : AttributeID -> VariantValue;
  GetValuePath : list QualifiedName -> VariantValue
}.

(** One entry of a data-change notification ([MonitoredItems]). *)
Record MonitoredItems : Type := mkMonitoredItems {
  mi_ClientHandle : Z;
  mi_Value : DataValue
}.

Record EventFieldList : Type := mkEventFieldList {
  efl_ClientHandle : Z;
  EventFields : list VariantValue
}.

(** [NotificationData]: a tagged union over the notification kinds. *)
Inductive NotificationData : Type :=
| DataChangeNotification (Notification : list MonitoredItems)
| EventNotificationList (Events : list EventFieldList).

Record NotificationMessage : Type := mkNotificationMessage {
  SequenceID : Z;
  PublishTime : Z;
  msg_Data : list NotificationData
}.

Record PublishResult : Type := mkPublishResult {
  SubscriptionID : Z;
  AvailableSequenceNumber : list Z;
  MoreNotifications : bool;
  Message : NotificationMessage;
  Statuses : list StatusCode
}.

Record SubscriptionAcknowledgement : Type := mkSubscriptionAcknowledgement {
  ack_SubscriptionId : Z;
  SequenceNumber : Z
}.

Record PublishRequest : Type := mkPublishRequest {
  SessionAuthenticationToken : NodeId;
  SubscriptionAcknowledgements : list SubscriptionAcknowledgement
}.

(** [SubscriptionData]; the subscription file reads the members as [ID]
    and [RevizedMaxKeepAliveCount]. *)
Record SubscriptionData : Type := mkSubscriptionData {
  ID : Z;
  RevisedPublishingInterval : Z;
  RevisedLifetimeCount : Z;
  RevizedMaxKeepAliveCount : Z
}.

Record CreateSubscriptionRequest : Type := mkCreateSubscriptionRequest {
  csr_SessionAuthenticationToken : NodeId;
  RequestedPublishingInterval : Z;
  RequestedLifetimeCount : Z;
  RequestedMaxKeepAliveCount : Z
}.

Record MonitoredItemsParameters : Type := mkMonitoredItemsParameters {
  mip_SubscriptionId : Z;
  ItemsToCreate : list MonitoredItemRequest
}.

Record DeleteMonitoredItemsParameters : Type := mkDeleteMonitoredItemsParameters {
  dmp_SubscriptionId : Z;
  MonitoredItemIds : list Z
}.

(** ** The address space

    The engine consumes three operations of the address space, an abstract
    interface of the server.  [AddDataChangeCallback] returns the handle of
    the registration, 0 when it refuses.  The callback it is given is the
    closure [DataChangeCallback id] of the subscription: the address space
    invoking it is the operation [OpDataChangeCallback] below. *)

Class AddressSpaceOps (A : Type) : Type := {
  AddDataChangeCallback : A -> NodeId -> AttributeID -> Z * A;
  DeleteDataChangeCallback : A -> Z -> A;
  Read : A -> list AttributeValueID -> list DataValue
}.

(** ** State of a subscription *)

Record DataMonitoredItems : Type := mkDataMonitoredItems {
  dm_Parameters : CreateMonitoredItemsResult;
  dm_Mode : MonitoringMode;
  dm_ClientHandle : Z;
  CallbackHandle : Z
}.

(** The deadline timer, as the subscription uses it: at most one wait is
    outstanding.  [TimerWaiting]: the handler will be invoked without
    error; [TimerAborted]: the wait was cancelled and the handler will be
    invoked with an error; [TimerNoWait]: no handler is owed. *)
Inductive TimerState : Type := TimerNoWait | TimerWaiting | TimerAborted.

(** Modelled from the spec: the members are declared in
    internal_subscription.h, which is not under src; the names are the
    ones the member functions use, and the three counters are 32-bit
    unsigned as in the data model of the spec.  [Service] and
    [AddressSpace] are references to the service and to the address
    space: both are threaded through the member functions instead.
    [Debug] only switches logging and is left out. *)
Record InternalSubscription : Type := mkInternalSubscription {
  Data : SubscriptionData;
  CurrentSession : NodeId;
  Callback : bool;   (* whether the std::function holds a target *)
  Timer : TimerState;
  LifeTimeCount : Z;
  NotificationSequence : Z;
  KeepAliveCount : Z;
  Startup : bool;
  LastMonitoredItemID : Z;
  TimerStopped : bool;
  MonitoredItemsMap : gmap Z DataMonitoredItems;
  MonitoredEvents : gmap NodeId Z;
  MonitoredItemsTriggered : list MonitoredItems;
  EventTriggered : list EventFieldList;
  NotAcknowledgedResults : list PublishResult
}.

Definition set_Timer (t : TimerState) (stopped : bool) (s : InternalSubscription)
  : InternalSubscription :=
  mkInternalSubscription (Data s) (CurrentSession s) (Callback s) t
    (LifeTimeCount s) (NotificationSequence s) (KeepAliveCount s) (Startup s)
    (LastMonitoredItemID s) stopped (MonitoredItemsMap s) (MonitoredEvents s)
    (MonitoredItemsTriggered s) (EventTriggered s) (NotAcknowledgedResults s).

Definition set_KeepAliveCount (k : Z) (s : InternalSubscription) : InternalSubscription :=
  mkInternalSubscription (Data s) (CurrentSession s) (Callback s) (Timer s)
    (LifeTimeCount s) (NotificationSequence s) k (Startup s)
    (LastMonitoredItemID s) (TimerStopped s) (MonitoredItemsMap s) (MonitoredEvents s)
    (MonitoredItemsTriggered s) (EventTriggered s) (NotAcknowledgedResults s).

Definition set_LastMonitoredItemID (i : Z) (s : InternalSubscription) : InternalSubscription :=
  mkInternalSubscription (Data s) (CurrentSession s) (Callback s) (Timer s)
    (LifeTimeCount s) (NotificationSequence s) (KeepAliveCount s) (Startup s)
    i (TimerStopped s) (MonitoredItemsMap s) (MonitoredEvents s)
    (MonitoredItemsTriggered s) (EventTriggered s) (NotAcknowledgedResults s).

Definition set_MonitoredItemsMap (m : gmap Z DataMonitoredItems) (s : InternalSubscription)
  : InternalSubscription :=
  mkInternalSubscription (Data s) (CurrentSession s) (Callback s) (Timer s)
    (LifeTimeCount s) (NotificationSequence s) (KeepAliveCount s) (Startup s)
    (LastMonitoredItemID s) (TimerStopped s) m (MonitoredEvents s)
    (MonitoredItemsTriggered s) (EventTriggered s) (NotAcknowledgedResults s).

Definition set_MonitoredEvents (m : gmap NodeId Z) (s : InternalSubscription)
  : InternalSubscription :=
  mkInternalSubscription (Data s) (CurrentSession s) (Callback s) (Timer s)
    (LifeTimeCount s) (NotificationSequence s) (KeepAliveCount s) (Startup s)
    (LastMonitoredItemID s) (TimerStopped s) (MonitoredItemsMap s) m
    (MonitoredItemsTriggered s) (EventTriggered s) (NotAcknowledgedResults s).

Definition set_MonitoredItemsTriggered (q : list MonitoredItems) (s : InternalSubscription)
  : InternalSubscription :=
  mkInternalSubscription (Data s) (CurrentSession s) (Callback s) (Timer s)
    (LifeTimeCount s) (NotificationSequence s) (KeepAliveCount s) (Startup s)
    (LastMonitoredItemID s) (TimerStopped s) (MonitoredItemsMap s) (MonitoredEvents s)
    q (EventTriggered s) (NotAcknowledgedResults s).

Definition set_EventTriggered (q : list EventFieldList) (s : InternalSubscription)
  : InternalSubscription :=
  mkInternalSubscription (Data s) (CurrentSession s) (Callback s) (Timer s)
    (LifeTimeCount s) (NotificationSequence s) (KeepAliveCount s) (Startup s)
    (LastMonitoredItemID s) (TimerStopped s) (MonitoredItemsMap s) (MonitoredEvents s)
    (MonitoredItemsTriggered s) q (NotAcknowledgedResults s).

Definition set_NotAcknowledgedResults (l : list PublishResult) (s : InternalSubscription)
  : InternalSubscription :=
  mkInternalSubscription (Data s) (CurrentSession s) (Callback s) (Timer s)
    (LifeTimeCount s) (NotificationSequence s) (KeepAliveCount s) (Startup s)
    (LastMonitoredItemID s) (TimerStopped s) (MonitoredItemsMap s) (MonitoredEvents s)
    (MonitoredItemsTriggered s) (EventTriggered s) l.

(** ** State of the service *)

(** Modelled from the spec: the members are declared in
    subscription_service_internal.h, which is not under src; the credit of
    a session and the subscription ids are 32-bit unsigned. *)
Record SubscriptionServiceInternal : Type := mkSubscriptionServiceInternal {
  SubscriptionsMap : gmap Z InternalSubscription;
  PublishRequestQueues : gmap NodeId Z;
  LastSubscriptionId : Z
}.

Definition set_SubscriptionsMap (m : gmap Z InternalSubscription)
  (svc : SubscriptionServiceInternal) : SubscriptionServiceInternal :=
  mkSubscriptionServiceInternal m (PublishRequestQueues svc) (LastSubscriptionId svc).

Definition set_PublishRequestQueues (q : gmap NodeId Z)
  (svc : SubscriptionServiceInternal) : SubscriptionServiceInternal :=
  mkSubscriptionServiceInternal (SubscriptionsMap svc) q (LastSubscriptionId svc).

(** The service as its constructor leaves it.
    Modelled from the spec: the initialiser of [LastSubscriptionId] is in
    subscription_service_internal.h, which is not under src; subscription
    ids are a monotonically increasing counter, counted here from 0 (the
    first id handed out is 1). *)
Definition SubscriptionServiceInternal_new : SubscriptionServiceInternal :=
  mkSubscriptionServiceInternal ∅ ∅ 0.

(** ** SubscriptionServiceInternal::PopPublishRequest *)

Definition PopPublishRequest (svc : SubscriptionServiceInternal) (node : NodeId)
  : bool * SubscriptionServiceInternal :=
  match PublishRequestQueues svc !! node with
  | None => (false, svc)
  | Some credit =>
      if credit =? 0 then (false, svc)
      else (true, set_PublishRequestQueues
                    (<[node := decr32 credit]> (PublishRequestQueues svc)) svc)
  end.

(** ** InternalSubscription: timer loop and emission *)

(** The constructor: members from the arguments, the timer armed
    ([Timer.async_wait]).
    Modelled from the spec: the default member initialisers are in
    internal_subscription.h, which is not under src.  The spec gives
    [notification_sequence] starting at 1, [startup] forcing the first
    tick to emit, [keep_alive_count] counted from 0 and [timer_stopped]
    latching later; it does not give the start of the monitored-item
    counter, taken as 0 (no property below depends on it). *)
Definition InternalSubscription_new (data : SubscriptionData)
  (SessionAuthenticationToken : NodeId) (callback : bool) : InternalSubscription :=
  {| Data := data;
     CurrentSession := SessionAuthenticationToken;
     Callback := callback;
     Timer := TimerWaiting;
     LifeTimeCount := RevisedLifetimeCount data;
     NotificationSequence := 1;
     KeepAliveCount := 0;
     Startup := true;
     LastMonitoredItemID := 0;
     TimerStopped := false;
     MonitoredItemsMap := ∅;
     MonitoredEvents := ∅;
     MonitoredItemsTriggered := [];
     EventTriggered := [];
     NotAcknowledgedResults := [] |}.

(** Modelled from the spec: [InternalSubscription::Start] is called by
    [CreateSubscription] and is not defined under src; it arms the
    periodic timer at the publishing interval. *)
Definition Start (s : InternalSubscription) : InternalSubscription :=
  set_Timer TimerWaiting (TimerStopped s) s.

(** [Timer.cancel ()]: an outstanding wait completes with an error. *)
Definition Timer_cancel (t : TimerState) : TimerState :=
  match t with
  | TimerWaiting => TimerAborted
  | TimerAborted => TimerAborted
  | TimerNoWait => TimerNoWait
  end.

Definition Stop (s : InternalSubscription) : InternalSubscription :=
  if negb (TimerStopped s) then set_Timer (Timer_cancel (Timer s)) (TimerStopped s) s
  else s.

Definition HasExpired (s : InternalSubscription) : bool :=
  KeepAliveCount s >? LifeTimeCount s.

Definition HasPublishResult (s : InternalSubscription) : bool * InternalSubscription :=
  if Startup s || negb (vec_empty (MonitoredItemsTriggered s))
     || negb (vec_empty (EventTriggered s))
  then (true, s)
  else if KeepAliveCount s >? RevizedMaxKeepAliveCount (Data s)
  then (true, s)
  else (false, set_KeepAliveCount (incr32 (KeepAliveCount s)) s).

Definition GetNotificationData (s : InternalSubscription)
  : NotificationData * InternalSubscription :=
  (DataChangeNotification (MonitoredItemsTriggered s),
   set_MonitoredItemsTriggered [] s).

(** [PopPublishResult], with [now] the value of [CurrentDateTime ()]. *)
Definition PopPublishResult (now : Z) (s : InternalSubscription)
  : list PublishResult * InternalSubscription :=
  (* if ( ! MonitoredItemsTriggered.empty() ) *)
  let '(data1, statuses1, s1) :=
    if negb (vec_empty (MonitoredItemsTriggered s)) then
      let '(data, s') := GetNotificationData s in ([data], [Good], s')
    else ([], [], s) in
  (* if ( ! EventTriggered.empty() ) *)
  let '(data2, statuses2, s2) :=
    if negb (vec_empty (EventTriggered s1)) then
      (data1 ++ [EventNotificationList (EventTriggered s1)],
       statuses1 ++ [Good],
       set_EventTriggered [] s1)
    else (data1, statuses1, s1) in
  let result :=
    {| SubscriptionID := ID (Data s2);
       AvailableSequenceNumber := map (fun res => SequenceID (Message res))
                                      (NotAcknowledgedResults s2);
       MoreNotifications := false;
       Message := {| SequenceID := NotificationSequence s2;
                     PublishTime := now;
                     msg_Data := data2 |};
       Statuses := statuses2 |} in
  ([result],
   {| Data := Data s2;
      CurrentSession := CurrentSession s2;
      Callback := Callback s2;
      Timer := Timer s2;
      LifeTimeCount := LifeTimeCount s2;
      NotificationSequence := incr32 (NotificationSequence s2);
      KeepAliveCount := 0;
      Startup := false;
      LastMonitoredItemID := LastMonitoredItemID s2;
      TimerStopped := TimerStopped s2;
      MonitoredItemsMap := MonitoredItemsMap s2;
      MonitoredEvents := MonitoredEvents s2;
      MonitoredItemsTriggered := MonitoredItemsTriggered s2;
      EventTriggered := EventTriggered s2;
      NotAcknowledgedResults := NotAcknowledgedResults s2 ++ [result] |}).

(** [PublishResults], the handler of the timer.  [error] is the error code
    the io_service passes.  The subscription reaches the service through
    its [Service] reference: the service is threaded.  The third component
    is the call of the user callback, when one is made.  On the first
    branch the handler returns with no wait outstanding; otherwise it
    re-arms the timer. *)
Definition PublishResults (error : bool) (now : Z)
  (s : InternalSubscription) (svc : SubscriptionServiceInternal)
  : InternalSubscription * SubscriptionServiceInternal
    * list PublishResult * list PublishResult :=
  if error || HasExpired s then
    (set_Timer TimerNoWait true s, svc, [], [])
  else
    let '(has, s1) := HasPublishResult s in
    let '(s3, svc3, results, called) :=
      if has then
        let '(ok, svc1) := PopPublishRequest svc (CurrentSession s1) in
        if ok then
          let '(results, s2) := PopPublishResult now s1 in
          match results with
          | r :: _ => (s2, svc1, results, if Callback s2 then [r] else [])
          | [] => (s2, svc1, results, [])
          end
        else (s1, svc1, [], [])
      else (s1, svc, [], []) in
    (set_Timer TimerWaiting false s3, svc3, results, called).

Definition NewAcknowlegment (s : InternalSubscription)
  (ack : SubscriptionAcknowledgement) : InternalSubscription :=
  set_NotAcknowledgedResults
    (filter (fun res => SequenceNumber ack ≠ SequenceID (Message res))
            (NotAcknowledgedResults s)) s.

(** ** InternalSubscription: events *)

(** One select clause of the filter against the event. *)
Definition GetEventField (event : Event) (sattr : SimpleAttributeOperand) : VariantValue :=
  match BrowsePath sattr with
  | [] => GetValueAttr event (sao_Attribute sattr)
  | name :: _ =>
      if decide (name = mkQualifiedName "EventID" 0) then VByteString (EventId event)
      else if decide (name = mkQualifiedName "EventType" 0) then VNodeId (EventType event)
      else if decide (name = mkQualifiedName "SourceNode" 0) then VNodeId (SourceNode event)
      else if decide (name = mkQualifiedName "SourceName" 0) then VText (SourceName event)
      else if decide (name = mkQualifiedName "Message" 0) then VText (ev_Message event)
      else if decide (name = mkQualifiedName "Severity" 0) then VInt (Severity event)
      else if decide (name = mkQualifiedName "LocalTime" 0) then VDateTime (LocalTime event)
      else if decide (name = mkQualifiedName "ReceiveTime" 0) then VDateTime (ReceiveTime event)
      else if decide (name = mkQualifiedName "Time" 0) then VDateTime (ev_Time event)
      else GetValuePath event (BrowsePath sattr)
  end.

Definition GetEventFields (filter : EventFilter) (event : Event) : list VariantValue :=
  map (GetEventField event) (SelectClauses filter).

Definition EnqueueEvent (s : InternalSubscription) (monitoreditemid : Z) (event : Event)
  : bool * InternalSubscription :=
  match MonitoredItemsMap s !! monitoreditemid with
  | None => (false, s)
  | Some item =>
      let fieldlist :=
        {| efl_ClientHandle := dm_ClientHandle item;
           EventFields := GetEventFields (mf_Event (res_Filter (dm_Parameters item))) event |} in
      (true, set_EventTriggered (EventTriggered s ++ [fieldlist]) s)
  end.

(** [InternalSubscription::TriggerEvent]. *)
Definition Sub_TriggerEvent (s : InternalSubscription) (node : NodeId) (event : Event)
  : InternalSubscription :=
  match MonitoredEvents s !! node with
  | None => s
  | Some id => snd (EnqueueEvent s id event)
  end.

(** The callback registered with the address space. *)
Definition DataChangeCallback (s : InternalSubscription) (m_id : Z) (value : DataValue)
  : InternalSubscription :=
  match MonitoredItemsMap s !! m_id with
  | None => s
  | Some item =>
      set_MonitoredItemsTriggered
        (MonitoredItemsTriggered s
           ++ [{| mi_ClientHandle := dm_ClientHandle item; mi_Value := value |}]) s
  end.

(** The inner loop of [DeleteMonitoredItemsIds]: erase one entry of
    [MonitoredEvents] whose value is [handle], the first the iteration
    meets.  The order of [NodeId] keys is declared in a header of the
    library; the iteration order of the model stands for it.  Ids are
    handed out once, so at most one entry matches until the counter
    wraps. *)
Definition erase_monitored_event (handle : Z) (m : gmap NodeId Z) : gmap NodeId Z :=
  match List.find (fun p : NodeId * Z => bool_decide (p.2 = handle)) (map_to_list m) with
  | Some p => delete p.1 m
  | None => m
  end.

(** A default-constructed [CreateMonitoredItemsResult]. *)
Definition CreateMonitoredItemsResult_default : CreateMonitoredItemsResult :=
  {| Status := Good;
     MonitoredItemID := 0;
     RevisedSamplingInterval := 0;
     RevizedQueueSize := 0;
     res_Filter := mkMonitoringFilter (mkEventFilter []) |}.

Definition set_Status (st : StatusCode) (r : CreateMonitoredItemsResult)
  : CreateMonitoredItemsResult :=
  mkCreateMonitoredItemsResult st (MonitoredItemID r) (RevisedSamplingInterval r)
    (RevizedQueueSize r) (res_Filter r).

Definition set_MonitoredItemID (i : Z) (r : CreateMonitoredItemsResult)
  : CreateMonitoredItemsResult :=
  mkCreateMonitoredItemsResult (Status r) i (RevisedSamplingInterval r)
    (RevizedQueueSize r) (res_Filter r).

Section WithAddressSpace.

Context {A : Type} `{!AddressSpaceOps A}.

(** [TriggerDataChangeEvent]: reads the attribute and enqueues [vals[0]].
    Indexing an empty vector is undefined behaviour: [None]. *)
Definition TriggerDataChangeEvent (s : InternalSubscription) (a : A)
  (monitoreditems : DataMonitoredItems) (attrval : AttributeValueID)
  : option InternalSubscription :=
  let vals := Read a [attrval] in
  match vals with
  | [] => None
  | v :: _ =>
      Some (set_MonitoredItemsTriggered
              (MonitoredItemsTriggered s
                 ++ [{| mi_ClientHandle := dm_ClientHandle monitoreditems;
                        mi_Value := v |}]) s)
  end.

(** The tail of [CreateMonitoredItem], from [result.Status = Good] on. *)
Definition CreateMonitoredItem_register (s : InternalSubscription) (a : A)
  (request : MonitoredItemRequest) (result : CreateMonitoredItemsResult)
  (callbackHandle : Z)
  : option (CreateMonitoredItemsResult * InternalSubscription * A) :=
  let result :=
    {| Status := Good;
       MonitoredItemID := MonitoredItemID result;
       RevisedSamplingInterval := RevisedPublishingInterval (Data s);
       RevizedQueueSize := QueueSize (req_Parameters request);
       res_Filter := mp_Filter (req_Parameters request) |} in
  let mdata :=
    {| dm_Parameters := result;
       dm_Mode := req_Mode request;
       dm_ClientHandle := mp_ClientHandle (req_Parameters request);
       CallbackHandle := callbackHandle |} in
  let s1 := set_MonitoredItemsMap
              (<[MonitoredItemID result := mdata]> (MonitoredItemsMap s)) s in
  match TriggerDataChangeEvent s1 a mdata (ItemToMonitor request) with
  | None => None
  | Some s2 => Some (result, s2, a)
  end.

Definition CreateMonitoredItem (s : InternalSubscription) (a : A)
  (request : MonitoredItemRequest)
  : option (CreateMonitoredItemsResult * InternalSubscription * A) :=
  (* result.MonitoredItemID = ++LastMonitoredItemID *)
  let s1 := set_LastMonitoredItemID (incr32 (LastMonitoredItemID s)) s in
  let result := set_MonitoredItemID (LastMonitoredItemID s1)
                  CreateMonitoredItemsResult_default in
  if decide (Attribute (ItemToMonitor request) = EVENT_NOTIFIER) then
    let s2 := set_MonitoredEvents
                (<[Node (ItemToMonitor request) := MonitoredItemID result]>
                   (MonitoredEvents s1)) s1 in
    CreateMonitoredItem_register s2 a request result 0
  else
    let '(callbackHandle, a1) :=
      AddDataChangeCallback a (Node (ItemToMonitor request))
                              (Attribute (ItemToMonitor request)) in
    if callbackHandle =? 0 then
      (* --LastMonitoredItemID; revert increment *)
      Some (set_Status BadNodeAttributesInvalid result,
            set_LastMonitoredItemID (decr32 (LastMonitoredItemID s1)) s1,
            a1)
    else
      CreateMonitoredItem_register s1 a1 request result callbackHandle.

(** One round of the loop of [DeleteMonitoredItemsIds]. *)
Definition DeleteMonitoredItemsId (s : InternalSubscription) (a : A) (handle : Z)
  : StatusCode * InternalSubscription * A :=
  let s1 := set_MonitoredEvents (erase_monitored_event handle (MonitoredEvents s)) s in
  match MonitoredItemsMap s1 !! handle with
  | None => (BadMonitoredItemIdInvalid, s1, a)
  | Some item =>
      let a1 := if negb (CallbackHandle item =? 0)
                then DeleteDataChangeCallback a (CallbackHandle item) else a in
      (Good, set_MonitoredItemsMap (delete handle (MonitoredItemsMap s1)) s1, a1)
  end.

Fixpoint DeleteMonitoredItemsIds (s : InternalSubscription) (a : A)
  (monitoreditemsids : list Z) : list StatusCode * InternalSubscription * A :=
  match monitoreditemsids with
  | [] => ([], s, a)
  | handle :: rest =>
      let '(st, s1, a1) := DeleteMonitoredItemsId s a handle in
      let '(results, s2, a2) := DeleteMonitoredItemsIds s1 a1 rest in
      (st :: results, s2, a2)
  end.

End WithAddressSpace.

(** ** SubscriptionServiceInternal *)

(** The process-wide pseudo-random generator behind [rand ()]: the stream
    of the values it will return. *)
Definition RandState : Type := nat -> Z.

Definition rand (st : RandState) : Z * RandState :=
  (st 0%nat, fun n => st (S n)).

(** The loop of [GenerateEventId]: [n] rounds are left, [str] is
    [str.Data].  [%] truncates towards zero ([Z.rem]); the [int32_t] is
    converted to a byte when it is pushed. *)
Fixpoint GenerateEventId_loop (n : nat) (str : list Z) (st : RandState)
  : list Z * RandState :=
  match n with
  | O => (str, st)
  | S n' =>
      let '(r, st') := rand st in
      let val := Z.rem r INT32_MAX in
      GenerateEventId_loop n' (str ++ [to_uint8 val]) st'
  end.

Definition GenerateEventId (st : RandState) : ByteString * RandState :=
  let '(data, st') := GenerateEventId_loop 8 [] st in
  (mkByteString data, st').

Definition set_EventId (id : ByteString) (e : Event) : Event :=
  mkEvent id (EventType e) (SourceNode e) (SourceName e) (ev_Message e)
    (Severity e) (LocalTime e) (ReceiveTime e) (ev_Time e)
    (GetValueAttr e) (GetValuePath e).

(** [CreateSubscription]; [callback] tells whether the callback handed in
    holds a target. *)
Definition CreateSubscription (svc : SubscriptionServiceInternal)
  (request : CreateSubscriptionRequest) (callback : bool)
  : SubscriptionData * SubscriptionServiceInternal :=
  let id := incr32 (LastSubscriptionId svc) in
  let data :=
    {| ID := id;
       RevisedPublishingInterval := RequestedPublishingInterval request;
       RevisedLifetimeCount := RequestedLifetimeCount request;
       RevizedMaxKeepAliveCount := RequestedMaxKeepAliveCount request |} in
  let sub := Start (InternalSubscription_new data
                      (csr_SessionAuthenticationToken request) callback) in
  (data,
   {| SubscriptionsMap := <[id := sub]> (SubscriptionsMap svc);
      PublishRequestQueues := PublishRequestQueues svc;
      LastSubscriptionId := id |}).

(** The number of rounds of [for (int j = 0; j < (int) v.size (); j++)]. *)
Definition int_loop_rounds (size : nat) : nat :=
  Z.to_nat (to_int32 (Z.of_nat size)).

(** The acknowledgement loop of [Publish]. *)
Definition route_acknowledgement (subs : gmap Z InternalSubscription)
  (ack : SubscriptionAcknowledgement) : gmap Z InternalSubscription :=
  match subs !! ack_SubscriptionId ack with
  | Some sub => <[ack_SubscriptionId ack := NewAcknowlegment sub ack]> subs
  | None => subs
  end.

(** [Publish].  [PublishRequestQueues[token]] inserts a zero for a token
    the map does not hold. *)
Definition Publish (svc : SubscriptionServiceInternal) (request : PublishRequest)
  : SubscriptionServiceInternal :=
  let token := SessionAuthenticationToken request in
  let queues0 :=
    match PublishRequestQueues svc !! token with
    | Some _ => PublishRequestQueues svc
    | None => <[token := 0]> (PublishRequestQueues svc)
    end in
  let credit := default 0 (queues0 !! token) in
  let queues1 :=
    if credit <? 100 then <[token := wrap32 (credit + 1)]> queues0 else queues0 in
  {| SubscriptionsMap :=
       foldl route_acknowledgement (SubscriptionsMap svc)
             (SubscriptionAcknowledgements request);
     PublishRequestQueues := queues1;
     LastSubscriptionId := LastSubscriptionId svc |}.

(** [TriggerEvent] of the service. *)
Definition TriggerEvent (svc : SubscriptionServiceInternal) (st : RandState)
  (node : NodeId) (event : Event) : SubscriptionServiceInternal * RandState :=
  let '(event1, st1) :=
    if vec_empty (bs_Data (EventId event)) then
      let '(id, st') := GenerateEventId st in (set_EventId id event, st')
    else (event, st) in
  (set_SubscriptionsMap
     ((fun sub => Sub_TriggerEvent sub node event1) <$> SubscriptionsMap svc) svc,
   st1).

Section ServiceWithAddressSpace.

Context {A : Type} `{!AddressSpaceOps A}.

(** The second loop of [CreateMonitoredItems], over the requests. *)
Fixpoint CreateMonitoredItems_loop (sub : InternalSubscription) (a : A)
  (items : list MonitoredItemRequest)
  : option (list CreateMonitoredItemsResult * InternalSubscription * A) :=
  match items with
  | [] => Some ([], sub, a)
  | req :: rest =>
      match CreateMonitoredItem sub a req with
      | None => None
      | Some (result, sub1, a1) =>
          match CreateMonitoredItems_loop sub1 a1 rest with
          | None => None
          | Some (data, sub2, a2) => Some (result :: data, sub2, a2)
          end
      end
  end.

Definition CreateMonitoredItems (svc : SubscriptionServiceInternal) (a : A)
  (params : MonitoredItemsParameters)
  : option (list CreateMonitoredItemsResult * SubscriptionServiceInternal * A) :=
  match SubscriptionsMap svc !! mip_SubscriptionId params with
  | None =>
      Some (replicate (int_loop_rounds (length (ItemsToCreate params)))
                      (set_Status BadSubscriptionIdInvalid CreateMonitoredItemsResult_default),
            svc, a)
  | Some sub =>
      match CreateMonitoredItems_loop sub a (ItemsToCreate params) with
      | None => None
      | Some (data, sub', a') =>
          Some (data,
                set_SubscriptionsMap
                  (<[mip_SubscriptionId params := sub']> (SubscriptionsMap svc)) svc,
                a')
      end
  end.

Definition DeleteMonitoredItems (svc : SubscriptionServiceInternal) (a : A)
  (params : DeleteMonitoredItemsParameters)
  : list StatusCode * SubscriptionServiceInternal * A :=
  match SubscriptionsMap svc !! dmp_SubscriptionId params with
  | None =>
      (replicate (int_loop_rounds (length (MonitoredItemIds params)))
                 BadSubscriptionIdInvalid,
       svc, a)
  | Some sub =>
      let '(results, sub', a') := DeleteMonitoredItemsIds sub a (MonitoredItemIds params) in
      (results,
       set_SubscriptionsMap
         (<[dmp_SubscriptionId params := sub']> (SubscriptionsMap svc)) svc,
       a')
  end.

End ServiceWithAddressSpace.

(** ** The engine as a transition system

    The operations that reach the subscriptions of a service: the requests
    of the clients, the handler of a timer invoked by the io_service, the
    address space invoking a registered callback or changing under other
    writers, and [Stop].  A state is the service with the address space it
    refers to.  Subscriptions are followed from [CreateSubscription] on;
    creating further subscriptions and destroying them ([DeleteSubscriptions],
    the destructor) are not among the operations of a run. *)

(** A result popped by the subscription stored under [em_SubscriptionId];
    [em_Called] tells whether the user callback was invoked with it. *)
Record Emission : Type := mkEmission {
  em_SubscriptionId : Z;
  em_Result : PublishResult;
  em_Called : bool
}.

(** The io_service invoking the wait handler of the subscription [subid],
    if it owes one: with an error when the wait was cancelled. *)
Definition TimerHandler (svc : SubscriptionServiceInternal) (subid : Z) (now : Z)
  : SubscriptionServiceInternal * list Emission :=
  match SubscriptionsMap svc !! subid with
  | None => (svc, [])
  | Some sub =>
      match Timer sub with
      | TimerNoWait => (svc, [])
      | t =>
          let error := match t with TimerAborted => true | _ => false end in
          let '(sub', svc', results, called) := PublishResults error now sub svc in
          (set_SubscriptionsMap (<[subid := sub']> (SubscriptionsMap svc')) svc',
           map (fun r => mkEmission subid r (negb (vec_empty called))) results)
      end
  end.

(** An operation on one subscription of the service. *)
Definition on_subscription (svc : SubscriptionServiceInternal) (subid : Z)
  (f : InternalSubscription -> InternalSubscription) : SubscriptionServiceInternal :=
  match SubscriptionsMap svc !! subid with
  | None => svc
  | Some sub => set_SubscriptionsMap (<[subid := f sub]> (SubscriptionsMap svc)) svc
  end.

Section Engine.

Context {A : Type} `{!AddressSpaceOps A}.

Inductive Op : Type :=
| OpPublish (request : PublishRequest)
| OpCreateMonitoredItems (params : MonitoredItemsParameters)
| OpDeleteMonitoredItems (params : DeleteMonitoredItemsParameters)
| OpTriggerEvent (st : RandState) (node : NodeId) (event : Event)
| OpTimer (subid : Z) (now : Z)
| OpDataChangeCallback (subid : Z) (m_id : Z) (value : DataValue)
| OpStop (subid : Z)
| OpAddressSpace (a' : A).

(** One operation; [None] when it runs into undefined behaviour. *)
Definition step (op : Op) (svc : SubscriptionServiceInternal) (a : A)
  : option (SubscriptionServiceInternal * A * list Emission) :=
  match op with
  | OpPublish request => Some (Publish svc request, a, [])
  | OpCreateMonitoredItems params =>
      match CreateMonitoredItems svc a params with
      | None => None
      | Some (_, svc', a') => Some (svc', a', [])
      end
  | OpDeleteMonitoredItems params =>
      let '(_, svc', a') := DeleteMonitoredItems svc a params in Some (svc', a', [])
  | OpTriggerEvent st node event =>
      Some (fst (TriggerEvent svc st node event), a, [])
  | OpTimer subid now =>
      let '(svc', out) := TimerHandler svc subid now in Some (svc', a, out)
  | OpDataChangeCallback subid m_id value =>
      Some (on_subscription svc subid (fun sub => DataChangeCallback sub m_id value), a, [])
  | OpStop subid => Some (on_subscription svc subid Stop, a, [])
  | OpAddressSpace a' => Some (svc, a', [])
  end.

(** A sequence of operations: the emissions, up to the end or to the first
    operation with undefined behaviour, and the final state if the end was
    reached. *)
Fixpoint run (ops : list Op) (svc : SubscriptionServiceInternal) (a : A)
  : list Emission * option (SubscriptionServiceInternal * A) :=
  match ops with
  | [] => ([], Some (svc, a))
  | op :: rest =>
      match step op svc a with
      | None => ([], None)
      | Some (svc', a', out) =>
          let '(trace, final) := run rest svc' a' in (out ++ trace, final)
      end
  end.

End Engine.

(** The sequence ids of the results the subscription [subid] popped, in
    the order of emission. *)
Definition emitted_ids (subid : Z) (trace : list Emission) : list Z :=
  map (fun e => SequenceID (Message (em_Result e)))
      (filter (fun e => em_SubscriptionId e = subid) trace).

(** The operations of the credit counters alone. *)
Inductive CreditOp : Type :=
| CallPublish (request : PublishRequest)
| CallPopPublishRequest (node : NodeId).

Definition credit_step (svc : SubscriptionServiceInternal) (op : CreditOp)
  : SubscriptionServiceInternal :=
  match op with
  | CallPublish request => Publish svc request
  | CallPopPublishRequest node => snd (PopPublishRequest svc node)
  end.

Definition credit_run (ops : list CreditOp) (svc : SubscriptionServiceInternal)
  : SubscriptionServiceInternal :=
  foldl credit_step svc ops.

(** Invariant 3 of the data model. *)
Definition credits_bounded (svc : SubscriptionServiceInternal) : Prop :=
  forall (node : NodeId) (credit : Z),
    PublishRequestQueues svc !! node = Some credit -> 0 <= credit <= 100.

(** ** Destruction of monitored items and subscriptions *)

(** The keys of a [std::map] over integer ids in the order its iteration
    visits them: ascending. *)
Definition keys_in_order {V : Type} (m : gmap Z V) : list Z :=
  merge_sort Z.le (map fst (map_to_list m)).

Section Destruction.

Context {A : Type} `{!AddressSpaceOps A}.

(** [DeleteAllMonitoredItems]: collects the keys of [MonitoredItemsMap]
    and hands them to [DeleteMonitoredItemsIds]. *)
Definition DeleteAllMonitoredItems (s : InternalSubscription) (a : A)
  : InternalSubscription * A :=
  let handles := keys_in_order (MonitoredItemsMap s) in
  let '(_, s', a') := DeleteMonitoredItemsIds s a handles in (s', a').

(** The destructor: [DeleteAllMonitoredItems (); Stop ();]. *)
Definition InternalSubscription_destroy (s : InternalSubscription) (a : A)
  : InternalSubscription * A :=
  let '(s1, a1) := DeleteAllMonitoredItems s a in (Stop s1, a1).

(** One round of the loop of [DeleteSubscriptions].  The registry holds
    the only [shared_ptr] to the subscription: [erase] runs its
    destructor, whose trace is what it does to the address space. *)
Definition DeleteSubscription (svc : SubscriptionServiceInternal) (a : A) (subid : Z)
  : StatusCode * SubscriptionServiceInternal * A :=
  match SubscriptionsMap svc !! subid with
  | None => (BadSubscriptionIdInvalid, svc, a)
  | Some sub =>
      let sub1 := Stop sub in
      let '(_, a1) := InternalSubscription_destroy sub1 a in
      (Good, set_SubscriptionsMap (delete subid (SubscriptionsMap svc)) svc, a1)
  end.

Fixpoint DeleteSubscriptions (svc : SubscriptionServiceInternal) (a : A)
  (subscriptions : list Z) : list StatusCode * SubscriptionServiceInternal * A :=
  match subscriptions with
  | [] => ([], svc, a)
  | subid :: rest =>
      let '(st, svc1, a1) := DeleteSubscription svc a subid in
      let '(result, svc2, a2) := DeleteSubscriptions svc1 a1 rest in
      (st :: result, svc2, a2)
  end.

(** [DeleteAllSubscriptions]: the ids of the registry, then
    [DeleteSubscriptions]. *)
Definition DeleteAllSubscriptions (svc : SubscriptionServiceInternal) (a : A)
  : SubscriptionServiceInternal * A :=
  let ids := keys_in_order (SubscriptionsMap svc) in
  let '(_, svc', a') := DeleteSubscriptions svc a ids in (svc', a').

End Destruction.

(** ** Quantities the properties are stated with *)

(** The members only the timer handler and [Stop] write: the timer, the
    latch and the sequence counter. *)
Definition control (s : InternalSubscription) : TimerState * bool * Z :=
  (Timer s, TimerStopped s, NotificationSequence s).

(** The sequence ids of [k] consecutive emissions from the counter [n]. *)
Fixpoint ids_from (n : Z) (k : nat) : list Z :=
  match k with
  | O => []
  | S k' => n :: ids_from (incr32 n) k'
  end.

(** [TimerStopped] is only set on the branch that leaves no wait behind. *)
Definition latch_consistent (s : InternalSubscription) : Prop :=
  TimerStopped s = true -> Timer s = TimerNoWait.

(** What a callback for the item [c.1] with value [c.2] enqueues. *)
Definition callback_entry (items : gmap Z DataMonitoredItems) (c : Z * DataValue)
  : option MonitoredItems :=
  (fun item => mkMonitoredItems (dm_ClientHandle item) c.2) <$> items !! c.1.

(** The handle [DeleteMonitoredItemsIds] passes to the address space for
    the item [id]: the callback handle of the item, unless it is 0. *)
Definition registered_handle (items : gmap Z DataMonitoredItems) (id : Z) : option Z :=
  item ← items !! id;
  if CallbackHandle item =? 0 then None else Some (CallbackHandle item).

(** Whether the [i]-th id of [ids] names an entry of [m] that no earlier id
    of the list has named. *)
Definition first_mention {V : Type} (m : gmap Z V) (ids : list Z) (i : nat) (id : Z)
  : Prop :=
  is_Some (m !! id) /\ id ∉ take i ids.

#[global] Instance first_mention_dec {V : Type} (m : gmap Z V) ids i id :
  Decision (first_mention m ids i id).
Proof. unfold first_mention. apply _. Defined.

(** The entry [CreateMonitoredItem] stores for a request it accepts under
    the subscription [s], with the callback handle [h]. *)
Definition stored_item (s : InternalSubscription) (request : MonitoredItemRequest)
  (h : Z) : DataMonitoredItems :=
  {| dm_Parameters :=
       {| Status := Good;
          MonitoredItemID := incr32 (LastMonitoredItemID s);
          RevisedSamplingInterval := RevisedPublishingInterval (Data s);
          RevizedQueueSize := QueueSize (req_Parameters request);
          res_Filter := mp_Filter (req_Parameters request) |};
     dm_Mode := req_Mode request;
     dm_ClientHandle := mp_ClientHandle (req_Parameters request);
     CallbackHandle := h |}.

(** Whether one of the acknowledgements names the subscription [subid] and
    the sequence id of [res]. *)
Definition acknowledged (acks : list SubscriptionAcknowledgement) (subid : Z)
  (res : PublishResult) : Prop :=
  Exists (fun ack => ack_SubscriptionId ack = subid
                     /\ SequenceNumber ack = SequenceID (Message res)) acks.

#[global] Instance acknowledged_dec acks subid res : Decision (acknowledged acks subid res).
Proof. unfold acknowledged. apply _. Defined.

(** The subscription once the acknowledged results are removed. *)
Definition without_acknowledged (acks : list SubscriptionAcknowledgement) (subid : Z)
  (sub : InternalSubscription) : InternalSubscription :=
  set_NotAcknowledgedResults
    (filter (fun res => ¬ acknowledged acks subid res) (NotAcknowledgedResults sub)) sub.

(** The sequence ids of the results a subscription still holds. *)
Definition unacknowledged_ids (s : InternalSubscription) : list Z :=
  map (fun res => SequenceID (Message res)) (NotAcknowledgedResults s).

(** The change an operation other than its timer handler may make to a
    subscription, as far as expiry and acknowledgement are concerned: the
    parameters and the keep-alive counter stay, results may only leave the
    not-acknowledged list. *)
Definition quiet (sub sub' : InternalSubscription) : Prop :=
  Data sub' = Data sub
  /\ LifeTimeCount sub' = LifeTimeCount sub
  /\ KeepAliveCount sub' = KeepAliveCount sub
  /\ NotAcknowledgedResults sub' `sublist_of` NotAcknowledgedResults sub.

(** The change one run of the timer handler may make to the keep-alive
    counter. *)
Definition keep_alive_step (sub sub' : InternalSubscription) : Prop :=
  KeepAliveCount sub' = 0
  \/ KeepAliveCount sub' = KeepAliveCount sub
  \/ (KeepAliveCount sub <= RevizedMaxKeepAliveCount (Data sub)
      /\ KeepAliveCount sub' = incr32 (KeepAliveCount sub)).

(** [k] consecutive runs of the timer handler without error, with nothing
    else happening in between: the subscription, the service and the
    results emitted. *)
Fixpoint ticks (k : nat) (now : Z) (s : InternalSubscription)
  (svc : SubscriptionServiceInternal)
  : InternalSubscription * SubscriptionServiceInternal * list PublishResult :=
  match k with
  | O => (s, svc, [])
  | S k' =>
      let '(s1, svc1, results1) := ticks k' now s svc in
      let '(s2, svc2, results2, _) := PublishResults false now s1 svc1 in
      (s2, svc2, results1 ++ results2)
  end.

(** A subscription that waits for its timer with nothing to send. *)
Definition idle (s : InternalSubscription) : Prop :=
  Startup s = false /\ MonitoredItemsTriggered s = [] /\ EventTriggered s = []
  /\ Timer s = TimerWaiting /\ TimerStopped s = false.

(** ** Concrete inputs

    The address space used to run the engine on concrete inputs hands out
    the handle it is configured with and answers every read with the
    configured values; then the requests, subscriptions and runs the
    properties are tried on. *)
Record StubSpace : Type := mkStubSpace {
  stub_handle : Z;
  stub_values : list DataValue
}.

#[global] Instance StubSpace_ops : AddressSpaceOps StubSpace := {
  AddDataChangeCallback a _ _ := (stub_handle a, a);
  DeleteDataChangeCallback a _ := a;
  Read a _ := stub_values a
}.

Definition session1 : NodeId := NumericNodeId 7 0.

Definition value42 : DataValue := mkDataValue (VInt 42).

Definition data1 : SubscriptionData :=
  {| ID := 1; RevisedPublishingInterval := 100;
     RevisedLifetimeCount := 10; RevizedMaxKeepAliveCount := 3 |}.

(** A subscription past its first emission, with one data change pending. *)
Definition sub_pending : InternalSubscription :=
  {| Data := data1;
     CurrentSession := session1;
     Callback := true;
     Timer := TimerWaiting;
     LifeTimeCount := 10;
     NotificationSequence := 2;
     KeepAliveCount := 0;
     Startup := false;
     LastMonitoredItemID := 0;
     TimerStopped := false;
     MonitoredItemsMap := ∅;
     MonitoredEvents := ∅;
     MonitoredItemsTriggered := [mkMonitoredItems 5 value42];
     EventTriggered := [];
     NotAcknowledgedResults := [] |}.

(** A request to delete 2^31 monitored items. *)
Definition huge_delete_request : DeleteMonitoredItemsParameters :=
  {| dmp_SubscriptionId := 1;
     MonitoredItemIds := replicate (Z.to_nat 2147483648) 0 |}.

(** The node the events of the examples are raised on. *)
Definition nodeN : NodeId := StringNodeId "N" 2.

(** A filter with one select clause, for the event id. *)
Definition select_event_id : MonitoringFilter :=
  mkMonitoringFilter
    (mkEventFilter [mkSimpleAttributeOperand [mkQualifiedName "EventID" 0] VALUE]).

(** A subscription with one event item, on [nodeN]. *)
Definition sub_with_event_item (id : Z) (clienthandle : Z) : InternalSubscription :=
  {| Data := mkSubscriptionData id 100 10 3;
     CurrentSession := session1;
     Callback := true;
     Timer := TimerWaiting;
     LifeTimeCount := 10;
     NotificationSequence := 1;
     KeepAliveCount := 0;
     Startup := true;
     LastMonitoredItemID := 1;
     TimerStopped := false;
     MonitoredItemsMap :=
       {[ 1 := mkDataMonitoredItems
                 (mkCreateMonitoredItemsResult Good 1 100 1 select_event_id)
                 Reporting clienthandle 0 ]};
     MonitoredEvents := {[ nodeN := 1 ]};
     MonitoredItemsTriggered := [];
     EventTriggered := [];
     NotAcknowledgedResults := [] |}.

(** A service with two such subscriptions. *)
Definition service_two_subscriptions : SubscriptionServiceInternal :=
  {| SubscriptionsMap :=
       <[1 := sub_with_event_item 1 11]> (<[2 := sub_with_event_item 2 22]> ∅);
     PublishRequestQueues := ∅;
     LastSubscriptionId := 2 |}.

(** An event without identifier. *)
Definition event_without_id : Event :=
  {| EventId := mkByteString [];
     EventType := NumericNodeId 2041 0;
     SourceNode := nodeN;
     SourceName := "N";
     ev_Message := "m";
     Severity := 1;
     LocalTime := 0;
     ReceiveTime := 0;
     ev_Time := 0;
     GetValueAttr := fun _ => VNull;
     GetValuePath := fun _ => VNull |}.

(** What [rand ()] returns on its successive calls in the examples. *)
Definition rand_stream : RandState := fun n => 1000 + 77 * Z.of_nat n.

(** An address space that accepts callbacks and reads 42 everywhere. *)
Definition stub_space : StubSpace := mkStubSpace 1 [value42].

(** A subscription request with lifetime count 0 and keep-alive count 5. *)
Definition short_lived_request : CreateSubscriptionRequest :=
  {| csr_SessionAuthenticationToken := session1;
     RequestedPublishingInterval := 100;
     RequestedLifetimeCount := 0;
     RequestedMaxKeepAliveCount := 5 |}.

Definition publish1 : PublishRequest := mkPublishRequest session1 [].

(** The first tick emits, the second counts, the third finds the
    subscription expired. *)
Definition ops_until_expiry : list (@Op StubSpace) :=
  [OpPublish publish1; OpTimer 1 0; OpTimer 1 100; OpTimer 1 200].

(** What a client and the io_service may still try afterwards. *)
Definition ops_after_expiry : list (@Op StubSpace) :=
  [OpPublish publish1;
   OpCreateMonitoredItems
     (mkMonitoredItemsParameters 1
        [mkMonitoredItemRequest (mkAttributeValueID nodeN VALUE) Reporting
           (mkMonitoringParameters 5 1 (mkMonitoringFilter (mkEventFilter [])))]);
   OpTimer 1 300; OpStop 1; OpTimer 1 400].

(** Lifetime count 10, keep-alive count 0: without data, a tick counts
    and the next one emits a keep-alive. *)
Definition every_other_tick_request : CreateSubscriptionRequest :=
  {| csr_SessionAuthenticationToken := session1;
     RequestedPublishingInterval := 100;
     RequestedLifetimeCount := 10;
     RequestedMaxKeepAliveCount := 0 |}.

(** A service with that subscription alone, just created. *)
Definition fresh_service : SubscriptionServiceInternal :=
  (CreateSubscription SubscriptionServiceInternal_new every_other_tick_request true).2.

(** A publish request and two ticks. *)
Definition cycle : list (@Op StubSpace) :=
  [OpPublish publish1; OpTimer 1 0; OpTimer 1 0].

(** 2^32 cycles: the first one, and 2^32 - 1 more. *)
Definition later_cycles : list (@Op StubSpace) :=
  concat (replicate (Z.to_nat 4294967295) cycle).

Definition wraparound_ops : list (@Op StubSpace) := cycle ++ later_cycles.

(** The sequence ids the subscription emits along these cycles. *)
Definition wraparound_ids : list Z :=
  emitted_ids 1 (run wraparound_ops fresh_service stub_space).1.

(** The keep-alive result with sequence id [n] when [l] is not yet
    acknowledged. *)
Definition keep_alive_result (n : Z) (l : list PublishResult) : PublishResult :=
  {| SubscriptionID := 1;
     AvailableSequenceNumber := map (fun res => SequenceID (Message res)) l;
     MoreNotifications := false;
     Message := {| SequenceID := n; PublishTime := 0; msg_Data := [] |};
     Statuses := [] |}.

(** The service between two cycles. *)
Definition cycling_service (n : Z) (l : list PublishResult) : SubscriptionServiceInternal :=
  {| SubscriptionsMap :=
       {[ 1 := {| Data := mkSubscriptionData 1 100 10 0;
                  CurrentSession := session1;
                  Callback := true;
                  Timer := TimerWaiting;
                  LifeTimeCount := 10;
                  NotificationSequence := n;
                  KeepAliveCount := 1;
                  Startup := false;
                  LastMonitoredItemID := 0;
                  TimerStopped := false;
                  MonitoredItemsMap := ∅;
                  MonitoredEvents := ∅;
                  MonitoredItemsTriggered := [];
                  EventTriggered := [];
                  NotAcknowledgedResults := l |} ]};
     PublishRequestQueues := {[ session1 := 0 ]};
     LastSubscriptionId := 1 |}.

(** Two emissions on the concrete address space: the first tick and the
    initial value of a new monitored item. *)
Definition ops_two_emissions : list (@Op StubSpace) :=
  [OpPublish publish1; OpPublish publish1; OpTimer 1 0;
   OpCreateMonitoredItems
     (mkMonitoredItemsParameters 1
        [mkMonitoredItemRequest (mkAttributeValueID nodeN VALUE) Reporting
           (mkMonitoringParameters 5 1 (mkMonitoringFilter (mkEventFilter [])))]);
   OpTimer 1 100].

(** A request to monitor the value of [nodeN], with client handle 5. *)
Definition data_request : MonitoredItemRequest :=
  mkMonitoredItemRequest (mkAttributeValueID nodeN VALUE) Reporting
    (mkMonitoringParameters 5 1 (mkMonitoringFilter (mkEventFilter []))).

(** A request to monitor the events of [nodeN], with client handle 6. *)
Definition event_request : MonitoredItemRequest :=
  mkMonitoredItemRequest (mkAttributeValueID nodeN EVENT_NOTIFIER) Reporting
    (mkMonitoringParameters 6 1 select_event_id).

(** A request to create 2^31 monitored items. *)
Definition huge_create_request : MonitoredItemsParameters :=
  {| mip_SubscriptionId := 1;
     ItemsToCreate := replicate (Z.to_nat 2147483648) data_request |}.

(** An address space that numbers the registrations from [next_handle]
    on (so it refuses one when the number is 0), records the handles it is
    asked to drop, and reads the configured values. *)
Record CountingSpace : Type := mkCountingSpace {
  next_handle : Z;
  dropped_handles : list Z;
  counting_values : list DataValue
}.

#[global] Instance CountingSpace_ops : AddressSpaceOps CountingSpace := {
  AddDataChangeCallback a _ _ :=
    (next_handle a,
     mkCountingSpace (next_handle a + 1) (dropped_handles a) (counting_values a));
  DeleteDataChangeCallback a h :=
    mkCountingSpace (next_handle a) (dropped_handles a ++ [h]) (counting_values a);
  Read a _ := counting_values a
}.

Definition counting_space : CountingSpace := mkCountingSpace 0 [] [value42].

(** The subscription [sub_pending] with an empty queue. *)
Definition sub_idle : InternalSubscription := set_MonitoredItemsTriggered [] sub_pending.

(** A service that holds [sub_idle] and two publish requests of its
    session. *)
Definition service_idle : SubscriptionServiceInternal :=
  {| SubscriptionsMap := {[ 1 := sub_idle ]};
     PublishRequestQueues := {[ session1 := 2 ]};
     LastSubscriptionId := 1 |}.

(** An event with an identifier of its own. *)
Definition event_with_id : Event := set_EventId (mkByteString [1; 2; 3]) event_without_id.

(** ** Arithmetic of the counters *)

Lemma incr32_small (k : Z) : 0 <= k < UINT32_MAX -> incr32 k = k + 1.
Proof.
  unfold incr32, wrap32, UINT32_MAX, UINT32_MODULUS. intros Hk.
  apply Z.mod_small. lia.
Qed.

Lemma incr32_max : incr32 UINT32_MAX = 0.
Proof. reflexivity. Qed.

Lemma incr32_neq (k : Z) : incr32 k ≠ k.
Proof.
  unfold incr32, wrap32, UINT32_MODULUS. intros Heq.
  pose proof (Z.mod_pos_bound (k + 1) 4294967296 ltac:(lia)) as Hb.
  rewrite Heq in Hb.
  destruct (decide (k = 4294967295)) as [->|Hne]; [discriminate Heq|].
  rewrite Z.mod_small in Heq; lia.
Qed.

Lemma decr32_incr32 (k : Z) : is_u32 k -> decr32 (incr32 k) = k.
Proof.
  unfold is_u32, decr32, incr32, wrap32, UINT32_MODULUS. intros Hk.
  destruct (decide (k = 4294967295)) as [->|Hne]; [reflexivity|].
  rewrite (Z.mod_small (k + 1)) by lia.
  replace (k + 1 - 1) with k by lia.
  apply Z.mod_small. lia.
Qed.

Lemma wrap32_range (z : Z) : is_u32 (wrap32 z).
Proof. unfold is_u32, wrap32, UINT32_MODULUS. apply Z.mod_pos_bound. lia. Qed.

(** ** Keep-alive counting *)

Lemma PopPublishResult_counters (now : Z) (s : InternalSubscription) :
  KeepAliveCount (snd (PopPublishResult now s)) = 0
  /\ Startup (snd (PopPublishResult now s)) = false
  /\ NotificationSequence (snd (PopPublishResult now s)) = incr32 (NotificationSequence s).
Proof.
  unfold PopPublishResult, GetNotificationData.
  destruct (vec_empty (MonitoredItemsTriggered s)); simpl;
    destruct (vec_empty (EventTriggered s)); simpl; auto.
Qed.

(** C3.  [HasPublishResult] returns true exactly when [Startup] is set, or
    the data-change queue or the event queue is non-empty, or
    [KeepAliveCount] exceeds [RevizedMaxKeepAliveCount]; it applies [++]
    to [KeepAliveCount] (a [uint32_t]: plus one, modulo 2^32) when it
    returns false and leaves the subscription as it is when it returns
    true, so the counter changes if and only if the answer is false; and
    every [PopPublishResult] resets [KeepAliveCount] to 0.  On a tick
    without error or expiry the counter therefore ends at 0 after an
    emission, one higher after a tick with nothing to send, and unchanged
    when the publish request is missing. *)
Theorem keep_alive_counting (now : Z) (s : InternalSubscription)
  (svc : SubscriptionServiceInternal) :
  fst (HasPublishResult s)
    = (Startup s || negb (vec_empty (MonitoredItemsTriggered s))
       || negb (vec_empty (EventTriggered s))
       || (KeepAliveCount s >? RevizedMaxKeepAliveCount (Data s)))
  /\ snd (HasPublishResult s)
     = (if fst (HasPublishResult s) then s
        else set_KeepAliveCount (incr32 (KeepAliveCount s)) s)
  /\ (KeepAliveCount (snd (HasPublishResult s)) ≠ KeepAliveCount s
      <-> fst (HasPublishResult s) = false)
  /\ (0 <= KeepAliveCount s < UINT32_MAX ->
      KeepAliveCount (snd (HasPublishResult s))
      = if fst (HasPublishResult s) then KeepAliveCount s else KeepAliveCount s + 1)
  /\ KeepAliveCount (snd (PopPublishResult now s)) = 0
  /\ KeepAliveCount (PublishResults false now s svc).1.1.1
     = (if HasExpired s then KeepAliveCount s
        else if fst (HasPublishResult s) then
          if fst (PopPublishRequest svc (CurrentSession s)) then 0
          else KeepAliveCount s
        else incr32 (KeepAliveCount s)).
Proof.
  assert (Hsnd : snd (HasPublishResult s)
     = (if fst (HasPublishResult s) then s
        else set_KeepAliveCount (incr32 (KeepAliveCount s)) s)).
  { unfold HasPublishResult.
    destruct (Startup s || _ || _); [reflexivity|].
    destruct (KeepAliveCount s >? _); reflexivity. }
  split; [|split; [exact Hsnd|split; [|split; [|split]]]].
  - unfold HasPublishResult.
    destruct (Startup s || _ || _); [reflexivity|].
    destruct (KeepAliveCount s >? _); reflexivity.
  - rewrite Hsnd. destruct (fst (HasPublishResult s)); simpl.
    + split; [congruence | discriminate].
    + split; [reflexivity | intros _; apply incr32_neq].
  - intros Hk. rewrite Hsnd. destruct (fst (HasPublishResult s)); simpl; [reflexivity|].
    by apply incr32_small.
  - apply PopPublishResult_counters.
  - unfold PublishResults. simpl.
    destruct (HasExpired s); [reflexivity|].
    destruct (HasPublishResult s) as [has s1] eqn:Hhas. simpl in Hsnd. simpl.
    destruct has.
    + subst s1.
      destruct (PopPublishRequest svc (CurrentSession s)) as [ok svc1] eqn:Hpop. simpl.
      destruct ok; [|reflexivity].
      pose proof (PopPublishResult_counters now s) as (Hk & _).
      destruct (PopPublishResult now s) as [results s2]. simpl in Hk.
      destruct results; simpl; exact Hk.
    + subst s1. reflexivity.
Qed.

(** The theorem at a subscription with nothing to send: the tick counts. *)
Lemma keep_alive_counting_witness :
  KeepAliveCount (snd (HasPublishResult (set_MonitoredItemsTriggered [] sub_pending))) = 1.
Proof.
  destruct (keep_alive_counting 0 (set_MonitoredItemsTriggered [] sub_pending)
              SubscriptionServiceInternal_new) as (_ & _ & _ & H & _).
  rewrite H; [reflexivity | simpl; unfold UINT32_MAX; lia].
Defined.

(** ** The not-acknowledged results *)

(** C6.  The result of an emission lists in [AvailableSequenceNumber]
    exactly the sequence ids of the entries [NotAcknowledgedResults] held
    before, in their order, and a copy of the result is then appended to
    the list.  [NewAcknowlegment] leaves no entry whose sequence id is the
    acknowledged one, keeps every other entry (the list is the old one
    filtered, order kept), and changes nothing else of the subscription. *)
Theorem not_acknowledged_bookkeeping (now : Z) (s : InternalSubscription)
  (ack : SubscriptionAcknowledgement) :
  (exists result : PublishResult,
      fst (PopPublishResult now s) = [result]
      /\ AvailableSequenceNumber result
         = map (fun res => SequenceID (Message res)) (NotAcknowledgedResults s)
      /\ NotAcknowledgedResults (snd (PopPublishResult now s))
         = NotAcknowledgedResults s ++ [result])
  /\ Forall (fun res => SequenceID (Message res) ≠ SequenceNumber ack)
            (NotAcknowledgedResults (NewAcknowlegment s ack))
  /\ (forall res : PublishResult,
         res ∈ NotAcknowledgedResults (NewAcknowlegment s ack)
         <-> res ∈ NotAcknowledgedResults s
             /\ SequenceID (Message res) ≠ SequenceNumber ack)
  /\ NotAcknowledgedResults (NewAcknowlegment s ack)
     = filter (fun res => SequenceID (Message res) ≠ SequenceNumber ack)
              (NotAcknowledgedResults s)
  /\ set_NotAcknowledgedResults (NotAcknowledgedResults s) (NewAcknowlegment s ack)
     = set_NotAcknowledgedResults (NotAcknowledgedResults s) s.
Proof.
  split; [|split; [|split; [|split]]].
  - unfold PopPublishResult, GetNotificationData.
    destruct (vec_empty (MonitoredItemsTriggered s)); simpl;
      destruct (vec_empty (EventTriggered s)); simpl;
      eexists; (split; [reflexivity|split; reflexivity]).
  - unfold NewAcknowlegment. simpl.
    apply Forall_forall. intros res Hin.
    apply list_elem_of_filter in Hin as [Hne _]. congruence.
  - intros res. unfold NewAcknowlegment. simpl.
    rewrite list_elem_of_filter. split; intros [H1 H2]; split; auto.
  - unfold NewAcknowlegment. simpl.
    apply list_filter_iff. intros res. split; congruence.
  - reflexivity.
Qed.

Section MonitoredItemProperties.

Context {A : Type} `{!AddressSpaceOps A}.

Lemma TriggerDataChangeEvent_None (s : InternalSubscription) (a : A)
  (m : DataMonitoredItems) (attrval : AttributeValueID) :
  TriggerDataChangeEvent s a m attrval = None <-> Read a [attrval] = [].
Proof.
  unfold TriggerDataChangeEvent. destruct (Read a [attrval]); split; congruence.
Qed.

Lemma CreateMonitoredItem_register_None (s : InternalSubscription) (a : A)
  (request : MonitoredItemRequest) (result : CreateMonitoredItemsResult) (h : Z) :
  CreateMonitoredItem_register s a request result h = None
  <-> Read a [ItemToMonitor request] = [].
Proof.
  unfold CreateMonitoredItem_register.
  match goal with
  | |- context [TriggerDataChangeEvent ?s1 a ?m ?v] =>
      pose proof (TriggerDataChangeEvent_None s1 a m v) as Hnone;
      destruct (TriggerDataChangeEvent s1 a m v)
  end.
  - split; [discriminate|]. intros Hr. apply Hnone in Hr. discriminate.
  - split; [intros _; by apply Hnone | reflexivity].
Qed.

(** C7.  A request for an attribute other than the event notifier that
    the address space answers with handle 0 returns
    [BadNodeAttributesInvalid] and leaves the subscription as it was: the
    counter [LastMonitoredItemID] is back at its value (after [++] and
    [--] on the [uint32_t]), no entry is added to [MonitoredItemsMap] and
    nothing is enqueued; no read is made. *)
Theorem create_monitored_item_rollback (s : InternalSubscription) (a : A)
  (request : MonitoredItemRequest) :
  Attribute (ItemToMonitor request) ≠ EVENT_NOTIFIER ->
  fst (AddDataChangeCallback a (Node (ItemToMonitor request))
                               (Attribute (ItemToMonitor request))) = 0 ->
  is_u32 (LastMonitoredItemID s) ->
  exists result : CreateMonitoredItemsResult,
    CreateMonitoredItem s a request
    = Some (result, s,
            snd (AddDataChangeCallback a (Node (ItemToMonitor request))
                                         (Attribute (ItemToMonitor request))))
    /\ Status result = BadNodeAttributesInvalid
    /\ LastMonitoredItemID s = decr32 (incr32 (LastMonitoredItemID s)).
Proof.
  intros Hattr Hhandle Hu32. unfold CreateMonitoredItem.
  destruct (decide (Attribute (ItemToMonitor request) = EVENT_NOTIFIER)) as [|_];
    [contradiction|].
  destruct (AddDataChangeCallback a _ _) as [h a1]. simpl in Hhandle. subst h.
  simpl. eexists. split.
  { f_equal. f_equal. f_equal.
    unfold set_LastMonitoredItemID. simpl.
    rewrite decr32_incr32 by assumption. by destruct s. }
  split; [reflexivity|]. by rewrite decr32_incr32.
Qed.

(** C10.  [CreateMonitoredItem] reads [vals[0]] of the vector the address
    space returns for the one attribute, without a test for emptiness: on
    every path that reaches the read (an event item, or a data item whose
    registration returned a non-zero handle) the call has a defined result
    if and only if that vector is not empty.  The path that returns
    [BadNodeAttributesInvalid] makes no read. *)
Theorem create_monitored_item_defined (s : InternalSubscription) (a : A)
  (request : MonitoredItemRequest) :
  let node := Node (ItemToMonitor request) in
  let attr := Attribute (ItemToMonitor request) in
  let reaches_read :=
    attr = EVENT_NOTIFIER \/ fst (AddDataChangeCallback a node attr) ≠ 0 in
  let a_read :=
    if decide (attr = EVENT_NOTIFIER) then a
    else snd (AddDataChangeCallback a node attr) in
  (CreateMonitoredItem s a request = None
   <-> reaches_read /\ Read a_read [ItemToMonitor request] = [])
  /\ (is_Some (CreateMonitoredItem s a request)
      <-> ¬ reaches_read \/ Read a_read [ItemToMonitor request] ≠ [])
  /\ (forall (s' : InternalSubscription) (m : DataMonitoredItems),
         TriggerDataChangeEvent s' a_read m (ItemToMonitor request) = None
         <-> Read a_read [ItemToMonitor request] = []).
Proof.
  intros node attr reaches_read a_read.
  assert (Hnone : CreateMonitoredItem s a request = None
   <-> reaches_read /\ Read a_read [ItemToMonitor request] = []).
  { subst reaches_read a_read node attr. unfold CreateMonitoredItem.
    destruct (decide (Attribute (ItemToMonitor request) = EVENT_NOTIFIER)) as [He|Hne].
    - rewrite CreateMonitoredItem_register_None. tauto.
    - destruct (AddDataChangeCallback a _ _) as [h a1]. simpl.
      destruct (Z.eqb_spec h 0) as [->|Hh].
      + split; [discriminate|]. intros [[?|?] _]; contradiction.
      + rewrite CreateMonitoredItem_register_None. tauto. }
  split; [exact Hnone|split].
  - rewrite <- not_eq_None_Some, Hnone.
    destruct (Read a_read [ItemToMonitor request]) as [|v vals].
    + split; [|intros [?|?]; tauto].
      intros Hn. left. intros Hr. apply Hn. by split.
    + split; [intros _; right; discriminate|].
      intros _ [_ ?]. discriminate.
  - intros s' m. apply TriggerDataChangeEvent_None.
Qed.

End MonitoredItemProperties.

(** The rollback on the concrete address space that refuses callbacks. *)
Lemma create_monitored_item_rollback_witness :
  exists result : CreateMonitoredItemsResult,
    CreateMonitoredItem sub_pending (mkStubSpace 0 [])
      (mkMonitoredItemRequest (mkAttributeValueID session1 VALUE) Reporting
         (mkMonitoringParameters 5 1 (mkMonitoringFilter (mkEventFilter []))))
    = Some (result, sub_pending, mkStubSpace 0 [])
    /\ Status result = BadNodeAttributesInvalid
    /\ LastMonitoredItemID sub_pending = decr32 (incr32 (LastMonitoredItemID sub_pending)).
Proof.
  refine (create_monitored_item_rollback sub_pending (mkStubSpace 0 [])
            (mkMonitoredItemRequest (mkAttributeValueID session1 VALUE) Reporting
               (mkMonitoringParameters 5 1 (mkMonitoringFilter (mkEventFilter []))))
            _ _ _).
  - simpl. unfold VALUE, EVENT_NOTIFIER. lia.
  - reflexivity.
  - unfold is_u32, UINT32_MODULUS. simpl. lia.
Defined.

(** ** Publish-request credit *)

Lemma Publish_credit (svc : SubscriptionServiceInternal) (request : PublishRequest) :
  let token := SessionAuthenticationToken request in
  let credit := default 0 (PublishRequestQueues svc !! token) in
  PublishRequestQueues (Publish svc request) !! token
  = Some (if credit <? 100 then wrap32 (credit + 1) else credit)
  /\ forall other : NodeId, other ≠ token ->
       PublishRequestQueues (Publish svc request) !! other
       = PublishRequestQueues svc !! other.
Proof.
  intros token credit. subst credit. unfold Publish. fold token. simpl.
  destruct (PublishRequestQueues svc !! token) as [c|] eqn:Hq; simpl.
  - rewrite Hq. simpl. destruct (c <? 100).
    + split; [by rewrite lookup_insert_eq|].
      intros other Hne. by rewrite lookup_insert_ne.
    + split; [assumption | reflexivity].
  - rewrite lookup_insert_eq. simpl.
    split; [by rewrite lookup_insert_eq|].
    intros other Hne. by rewrite !lookup_insert_ne.
Qed.

Lemma Publish_bounded (svc : SubscriptionServiceInternal) (request : PublishRequest) :
  credits_bounded svc -> credits_bounded (Publish svc request).
Proof.
  intros Hb node credit Hlook.
  destruct (Publish_credit svc request) as [Htok Hother].
  destruct (decide (node = SessionAuthenticationToken request)) as [->|Hne].
  - rewrite Htok in Hlook. injection Hlook as <-.
    destruct (PublishRequestQueues svc !! SessionAuthenticationToken request)
      as [c|] eqn:Hq; simpl.
    + specialize (Hb _ _ Hq).
      destruct (Z.ltb_spec c 100); [|lia].
      unfold wrap32, UINT32_MODULUS. rewrite Z.mod_small; lia.
    + vm_compute. split; discriminate.
  - rewrite Hother in Hlook by assumption. by apply (Hb node).
Qed.

Lemma PopPublishRequest_bounded (svc : SubscriptionServiceInternal) (node : NodeId) :
  credits_bounded svc -> credits_bounded (snd (PopPublishRequest svc node)).
Proof.
  intros Hb. unfold PopPublishRequest.
  destruct (PublishRequestQueues svc !! node) as [c|] eqn:Hq; [|exact Hb].
  destruct (Z.eqb_spec c 0) as [|Hc]; [exact Hb|].
  intros other credit. simpl.
  destruct (decide (other = node)) as [->|Hne].
  - rewrite lookup_insert_eq. intros [= <-].
    specialize (Hb _ _ Hq).
    unfold decr32, wrap32, UINT32_MODULUS. rewrite Z.mod_small; lia.
  - rewrite lookup_insert_ne by congruence. apply Hb.
Qed.

Lemma credit_run_bounded (ops : list CreditOp) (svc : SubscriptionServiceInternal) :
  credits_bounded svc -> credits_bounded (credit_run ops svc).
Proof.
  revert svc. induction ops as [|op ops IH]; intros svc Hb; [exact Hb|].
  simpl. apply IH. destruct op; simpl.
  - by apply Publish_bounded.
  - by apply PopPublishRequest_bounded.
Qed.

(** C2.  The credit of every session stays between 0 and 100 along every
    sequence of [Publish] and [PopPublishRequest] calls.  [Publish] adds
    one to the credit of its session when it is below 100 (counting from 0
    for a session the map does not hold) and leaves it at 100 otherwise,
    without touching other sessions; [PopPublishRequest] returns true and
    takes one off when the credit is strictly positive, and returns false
    without any change for an unknown session or a credit of 0. *)
Theorem credit_counter_bounds (svc : SubscriptionServiceInternal)
  (ops : list CreditOp) :
  credits_bounded svc ->
  credits_bounded (credit_run ops svc)
  /\ (forall request : PublishRequest,
        let token := SessionAuthenticationToken request in
        let credit := default 0 (PublishRequestQueues svc !! token) in
        PublishRequestQueues (Publish svc request) !! token
        = Some (if credit <? 100 then credit + 1 else credit)
        /\ forall other : NodeId, other ≠ token ->
             PublishRequestQueues (Publish svc request) !! other
             = PublishRequestQueues svc !! other)
  /\ (forall node : NodeId,
        PopPublishRequest svc node
        = match PublishRequestQueues svc !! node with
          | Some credit =>
              if 0 <? credit
              then (true, set_PublishRequestQueues
                            (<[node := credit - 1]> (PublishRequestQueues svc)) svc)
              else (false, svc)
          | None => (false, svc)
          end).
Proof.
  intros Hb. split; [by apply credit_run_bounded|split].
  - intros request token credit.
    destruct (Publish_credit svc request) as [Htok Hother].
    split; [|exact Hother].
    fold token in Htok. fold credit in Htok. rewrite Htok. f_equal.
    destruct (Z.ltb_spec credit 100); [|reflexivity].
    assert (0 <= credit).
    { subst credit. destruct (PublishRequestQueues svc !! token) as [c|] eqn:Hq; simpl;
        [apply (Hb _ _ Hq) | lia]. }
    unfold wrap32, UINT32_MODULUS. rewrite Z.mod_small; lia.
  - intros node. unfold PopPublishRequest.
    destruct (PublishRequestQueues svc !! node) as [c|] eqn:Hq; [|reflexivity].
    specialize (Hb _ _ Hq).
    destruct (Z.eqb_spec c 0) as [->|Hc]; [reflexivity|].
    destruct (Z.ltb_spec 0 c); [|lia].
    unfold decr32, wrap32, UINT32_MODULUS. rewrite Z.mod_small; [reflexivity | lia].
Qed.

Lemma credits_bounded_new : credits_bounded SubscriptionServiceInternal_new.
Proof. intros node credit. simpl. by rewrite lookup_empty. Qed.

(** The bound from the service as its constructor leaves it, after two
    publish requests and three attempts to consume one. *)
Lemma credit_counter_bounds_witness :
  credits_bounded
    (credit_run [CallPublish (mkPublishRequest session1 []);
                 CallPublish (mkPublishRequest session1 []);
                 CallPopPublishRequest session1;
                 CallPopPublishRequest session1;
                 CallPopPublishRequest session1]
       SubscriptionServiceInternal_new).
Proof.
  exact (proj1 (credit_counter_bounds SubscriptionServiceInternal_new
                  [CallPublish (mkPublishRequest session1 []);
                   CallPublish (mkPublishRequest session1 []);
                   CallPopPublishRequest session1;
                   CallPopPublishRequest session1;
                   CallPopPublishRequest session1]
                  credits_bounded_new)).
Defined.

(** ** Batches of monitored items *)

Lemma int_loop_rounds_small (n : nat) :
  Z.of_nat n <= INT32_MAX -> int_loop_rounds n = n.
Proof.
  unfold int_loop_rounds, to_int32, wrap32, INT32_MAX, UINT32_MODULUS. intros Hn.
  rewrite Z.mod_small by lia.
  destruct (Z.ltb_spec (Z.of_nat n) 2147483648); lia.
Qed.

Section BatchProperties.

Context {A : Type} `{!AddressSpaceOps A}.

Lemma CreateMonitoredItems_loop_length (items : list MonitoredItemRequest) :
  forall (sub : InternalSubscription) (a : A) data sub' a',
    CreateMonitoredItems_loop sub a items = Some (data, sub', a') ->
    length data = length items.
Proof.
  induction items as [|req rest IH]; intros sub a data sub' a'; simpl.
  - intros [= <- _ _]. reflexivity.
  - destruct (CreateMonitoredItem sub a req) as [[[result sub1] a1]|]; [|discriminate].
    destruct (CreateMonitoredItems_loop sub1 a1 rest) as [[[data0 sub2] a2]|] eqn:Hrest;
      [|discriminate].
    intros [= <- _ _]. simpl. f_equal. by eapply IH.
Qed.

Lemma DeleteMonitoredItemsIds_length (ids : list Z) :
  forall (sub : InternalSubscription) (a : A),
    length (DeleteMonitoredItemsIds sub a ids).1.1 = length ids.
Proof.
  induction ids as [|handle rest IH]; intros sub a; simpl; [reflexivity|].
  destruct (DeleteMonitoredItemsId sub a handle) as [[st s1] a1].
  specialize (IH s1 a1).
  destruct (DeleteMonitoredItemsIds s1 a1 rest) as [[results s2] a2].
  simpl in *. by f_equal.
Qed.

Lemma CreateMonitoredItem_returns (s : InternalSubscription) (a : A)
  (request : MonitoredItemRequest) :
  (forall (a' : A) (attrval : AttributeValueID), Read a' [attrval] ≠ []) ->
  is_Some (CreateMonitoredItem s a request).
Proof.
  intros Hread. unfold CreateMonitoredItem.
  destruct (decide (Attribute (ItemToMonitor request) = EVENT_NOTIFIER)) as [|_].
  - match goal with
    | |- is_Some ?c => destruct c eqn:Hc; [by eexists|]
    end.
    apply CreateMonitoredItem_register_None in Hc. by apply Hread in Hc.
  - destruct (AddDataChangeCallback a _ _) as [h a1].
    destruct (h =? 0); [by eexists|].
    match goal with
    | |- is_Some ?c => destruct c eqn:Hc; [by eexists|]
    end.
    apply CreateMonitoredItem_register_None in Hc. by apply Hread in Hc.
Qed.

Lemma CreateMonitoredItems_loop_returns (items : list MonitoredItemRequest) :
  (forall (a' : A) (attrval : AttributeValueID), Read a' [attrval] ≠ []) ->
  forall (sub : InternalSubscription) (a : A),
    is_Some (CreateMonitoredItems_loop sub a items).
Proof.
  intros Hread. induction items as [|req rest IH]; intros sub a; simpl; [by eexists|].
  destruct (CreateMonitoredItem_returns sub a req Hread) as [[[result sub1] a1] ->].
  destruct (IH sub1 a1) as [[[data sub2] a2] ->]. by eexists.
Qed.

(** Requests of fewer than 2^31 entries (the error loops count in [int]).
    For a subscription id that is not in the registry
    [CreateMonitoredItems] returns one result of status
    [BadSubscriptionIdInvalid] per item of the request and
    [DeleteMonitoredItems] one [BadSubscriptionIdInvalid] per id, and the
    service is left as it was.  For a subscription of the registry, of
    any size of request, [DeleteMonitoredItems] returns one status per id,
    and [CreateMonitoredItems] one result per item: whenever it returns,
    and it does return on an address space whose reads of one attribute
    are never empty, so an item that fails neither shortens the vector nor
    ends the loop. *)
Lemma batch_results_match_request (svc : SubscriptionServiceInternal) (a : A)
  (cparams : MonitoredItemsParameters) (dparams : DeleteMonitoredItemsParameters) :
  (SubscriptionsMap svc !! mip_SubscriptionId cparams = None ->
   Z.of_nat (length (ItemsToCreate cparams)) <= INT32_MAX ->
   exists data : list CreateMonitoredItemsResult,
     CreateMonitoredItems svc a cparams = Some (data, svc, a)
     /\ length data = length (ItemsToCreate cparams)
     /\ Forall (fun res => Status res = BadSubscriptionIdInvalid) data)
  /\ (SubscriptionsMap svc !! dmp_SubscriptionId dparams = None ->
      Z.of_nat (length (MonitoredItemIds dparams)) <= INT32_MAX ->
      DeleteMonitoredItems svc a dparams
      = (replicate (length (MonitoredItemIds dparams)) BadSubscriptionIdInvalid, svc, a))
  /\ (is_Some (SubscriptionsMap svc !! mip_SubscriptionId cparams) ->
      forall data svc' a',
        CreateMonitoredItems svc a cparams = Some (data, svc', a') ->
        length data = length (ItemsToCreate cparams))
  /\ (is_Some (SubscriptionsMap svc !! mip_SubscriptionId cparams) ->
      (forall (a' : A) (attrval : AttributeValueID), Read a' [attrval] ≠ []) ->
      exists data svc' a',
        CreateMonitoredItems svc a cparams = Some (data, svc', a')
        /\ length data = length (ItemsToCreate cparams))
  /\ (is_Some (SubscriptionsMap svc !! dmp_SubscriptionId dparams) ->
      length (DeleteMonitoredItems svc a dparams).1.1
      = length (MonitoredItemIds dparams)).
Proof.
  split; [|split; [|split; [|split]]].
  - intros Hnone Hlen. unfold CreateMonitoredItems. rewrite Hnone.
    rewrite int_loop_rounds_small by assumption.
    eexists. split; [reflexivity|]. split; [apply length_replicate|].
    apply Forall_replicate. reflexivity.
  - intros Hnone Hlen. unfold DeleteMonitoredItems. rewrite Hnone.
    by rewrite int_loop_rounds_small.
  - intros [sub Hsub] data svc' a'. unfold CreateMonitoredItems. rewrite Hsub.
    destruct (CreateMonitoredItems_loop sub a (ItemsToCreate cparams))
      as [[[data0 sub'] a0]|] eqn:Hloop; [|discriminate].
    intros [= <- _ _]. by eapply CreateMonitoredItems_loop_length.
  - intros [sub Hsub] Hread. unfold CreateMonitoredItems. rewrite Hsub.
    destruct (CreateMonitoredItems_loop_returns (ItemsToCreate cparams) Hread sub a)
      as [[[data sub'] a'] Hloop].
    rewrite Hloop. eexists _, _, _. split; [reflexivity|].
    by eapply CreateMonitoredItems_loop_length.
  - intros [sub Hsub]. unfold DeleteMonitoredItems. rewrite Hsub.
    pose proof (DeleteMonitoredItemsIds_length (MonitoredItemIds dparams) sub a) as Hlen.
    destruct (DeleteMonitoredItemsIds sub a (MonitoredItemIds dparams)) as [[results s2] a2].
    exact Hlen.
Qed.

End BatchProperties.

(** Three ids for a subscription the service as constructed does not hold. *)
Lemma batch_results_three_ids :
  DeleteMonitoredItems SubscriptionServiceInternal_new (mkStubSpace 0 [])
    (mkDeleteMonitoredItemsParameters 1 [4; 5; 6])
  = ([BadSubscriptionIdInvalid; BadSubscriptionIdInvalid; BadSubscriptionIdInvalid],
     SubscriptionServiceInternal_new, mkStubSpace 0 []).
Proof.
  refine (proj1 (proj2 (batch_results_match_request SubscriptionServiceInternal_new
                          (mkStubSpace 0 []) (mkMonitoredItemsParameters 1 [])
                          (mkDeleteMonitoredItemsParameters 1 [4; 5; 6]))) _ _).
  - reflexivity.
  - simpl. unfold INT32_MAX. lia.
Defined.

(** C8.  At a request of 2^31 entries for a subscription id that is not
    in the registry, [(int) size ()] is negative and the loop
    [for (int j = 0; j < (int) size (); j++)] makes no round: both
    [DeleteMonitoredItems] and [CreateMonitoredItems] return an empty
    vector for the 2147483648 entries of the request, where the comment
    on both branches reads "return errors for all items" and the loop over
    the items of a known subscription handles every size. *)
Theorem batch_results_empty_at_int_overflow :
  SubscriptionsMap SubscriptionServiceInternal_new
    !! dmp_SubscriptionId huge_delete_request = None
  /\ Z.of_nat (length (MonitoredItemIds huge_delete_request)) = 2147483648
  /\ DeleteMonitoredItems SubscriptionServiceInternal_new (mkStubSpace 0 [])
       huge_delete_request
     = ([], SubscriptionServiceInternal_new, mkStubSpace 0 [])
  /\ SubscriptionsMap SubscriptionServiceInternal_new
       !! mip_SubscriptionId huge_create_request = None
  /\ Z.of_nat (length (ItemsToCreate huge_create_request)) = 2147483648
  /\ CreateMonitoredItems SubscriptionServiceInternal_new (mkStubSpace 0 [])
       huge_create_request
     = Some ([], SubscriptionServiceInternal_new, mkStubSpace 0 []).
Proof.
  split; [reflexivity|]. split.
  { unfold huge_delete_request. cbn [MonitoredItemIds].
    rewrite length_replicate. lia. }
  split.
  { unfold DeleteMonitoredItems, huge_delete_request.
    cbn [dmp_SubscriptionId MonitoredItemIds SubscriptionsMap
         SubscriptionServiceInternal_new].
    rewrite lookup_empty, length_replicate.
    unfold int_loop_rounds. rewrite Z2Nat.id by lia.
    change (to_int32 2147483648) with (-2147483648).
    reflexivity. }
  split; [reflexivity|]. split.
  { unfold huge_create_request. cbn [ItemsToCreate].
    rewrite length_replicate. lia. }
  unfold CreateMonitoredItems, huge_create_request.
  cbn [mip_SubscriptionId ItemsToCreate SubscriptionsMap
       SubscriptionServiceInternal_new].
  rewrite lookup_empty, length_replicate.
  unfold int_loop_rounds. rewrite Z2Nat.id by lia.
  change (to_int32 2147483648) with (-2147483648).
  reflexivity.
Qed.

(** ** Event identifiers *)

Lemma GenerateEventId_loop_spec (n : nat) :
  forall (str : list Z) (st : RandState),
    GenerateEventId_loop n str st
    = (str ++ map (fun i => to_uint8 (Z.rem (st i) INT32_MAX)) (seq 0 n),
       fun k => st (n + k)%nat).
Proof.
  induction n as [|n IH]; intros str st; simpl.
  - by rewrite app_nil_r.
  - rewrite IH. rewrite <- app_assoc. simpl.
    rewrite <- seq_shift, map_map. reflexivity.
Qed.

Lemma to_uint8_range (z : Z) : 0 <= to_uint8 z < 256.
Proof. unfold to_uint8. apply Z.mod_pos_bound. lia. Qed.

Lemma GetEventFields_event_id (filter : EventFilter) (event : Event) :
  length (GetEventFields filter event) = length (SelectClauses filter)
  /\ forall (i : nat) (clause : SimpleAttributeOperand),
       SelectClauses filter !! i = Some clause ->
       head (BrowsePath clause) = Some (mkQualifiedName "EventID" 0) ->
       GetEventFields filter event !! i = Some (VByteString (EventId event)).
Proof.
  unfold GetEventFields. induction (SelectClauses filter) as [|c l [IHlen IHid]].
  - split; [reflexivity | intros i clause [=]].
  - split; [simpl; by rewrite IHlen|].
    intros [|i] clause Hc Hhead; simpl in Hc.
    + injection Hc as ->. simpl. f_equal. unfold GetEventField.
      destruct (BrowsePath clause) as [|name rest]; [discriminate Hhead|].
      injection Hhead as ->. by rewrite decide_True.
    + exact (IHid i clause Hc Hhead).
Qed.

Lemma Sub_TriggerEvent_delivers (s : InternalSubscription) (node : NodeId)
  (event : Event) (m_id : Z) (item : DataMonitoredItems) :
  MonitoredEvents s !! node = Some m_id ->
  MonitoredItemsMap s !! m_id = Some item ->
  Sub_TriggerEvent s node event
  = set_EventTriggered
      (EventTriggered s
         ++ [{| efl_ClientHandle := dm_ClientHandle item;
                EventFields :=
                  GetEventFields (mf_Event (res_Filter (dm_Parameters item))) event |}])
      s.
Proof.
  intros Hev Hitem. unfold Sub_TriggerEvent, EnqueueEvent. by rewrite Hev, Hitem.
Qed.

(** C9.  For an event whose [EventId] is empty the service generates an
    identifier before the loop over the subscriptions: 8 entries, the
    [i]-th the byte of the 32-bit value [rand () % INT32_MAX] of the
    [i]-th draw of the process-wide generator.  Every subscription is
    handed the event carrying this one identifier.  One that holds an
    event item on the node is afterwards the subscription it was with one
    field list appended to its event queue: the list carries the client
    handle of the item and one field per select clause of the item's
    filter, and the field of every clause that selects "EventID" is the
    generated identifier, the same in every subscription. *)
Theorem event_id_generated_once (svc : SubscriptionServiceInternal)
  (st : RandState) (node : NodeId) (event : Event) :
  bs_Data (EventId event) = [] ->
  let id := fst (GenerateEventId st) in
  let event' := set_EventId id event in
  bs_Data id = map (fun i => to_uint8 (Z.rem (st i) INT32_MAX)) (seq 0 8)
  /\ length (bs_Data id) = 8%nat
  /\ Forall (fun b => 0 <= b < 256) (bs_Data id)
  /\ (forall i : nat, 0 <= st i <= INT32_MAX -> 0 <= Z.rem (st i) INT32_MAX < INT32_MAX)
  /\ (forall (subid : Z) (sub : InternalSubscription),
        SubscriptionsMap svc !! subid = Some sub ->
        SubscriptionsMap (fst (TriggerEvent svc st node event)) !! subid
        = Some (Sub_TriggerEvent sub node event')
        /\ forall (m_id : Z) (item : DataMonitoredItems) (attr : AttributeID),
             MonitoredEvents sub !! node = Some m_id ->
             MonitoredItemsMap sub !! m_id = Some item ->
             EventTriggered (Sub_TriggerEvent sub node event')
             = EventTriggered sub
                 ++ [{| efl_ClientHandle := dm_ClientHandle item;
                        EventFields :=
                          GetEventFields (mf_Event (res_Filter (dm_Parameters item)))
                                         event' |}]
             /\ GetEventField event'
                  (mkSimpleAttributeOperand [mkQualifiedName "EventID" 0] attr)
                = VByteString id
             /\ exists fields : list VariantValue,
                  SubscriptionsMap (fst (TriggerEvent svc st node event)) !! subid
                  = Some (set_EventTriggered
                            (EventTriggered sub
                               ++ [{| efl_ClientHandle := dm_ClientHandle item;
                                      EventFields := fields |}])
                            sub)
                  /\ length fields
                     = length (SelectClauses (mf_Event (res_Filter (dm_Parameters item))))
                  /\ forall (i : nat) (clause : SimpleAttributeOperand),
                       SelectClauses (mf_Event (res_Filter (dm_Parameters item))) !! i
                       = Some clause ->
                       head (BrowsePath clause) = Some (mkQualifiedName "EventID" 0) ->
                       fields !! i = Some (VByteString id)).
Proof.
  intros Hempty id event'.
  assert (Hid : bs_Data id = map (fun i => to_uint8 (Z.rem (st i) INT32_MAX)) (seq 0 8)).
  { subst id. unfold GenerateEventId. by rewrite GenerateEventId_loop_spec. }
  split; [exact Hid|]. split; [by rewrite Hid|]. split; [|split].
  - rewrite Hid. apply Forall_forall. intros b Hin.
    apply list_elem_of_fmap in Hin as (i & -> & _). apply to_uint8_range.
  - intros i Hi. unfold INT32_MAX in *.
    pose proof (Z.rem_bound_pos (st i) 2147483647 ltac:(lia) ltac:(lia)). lia.
  - intros subid sub Hsub.
    assert (Hlook : SubscriptionsMap (fst (TriggerEvent svc st node event)) !! subid
                    = Some (Sub_TriggerEvent sub node event')).
    { unfold TriggerEvent. rewrite Hempty. cbn [vec_empty].
      subst event' id. destruct (GenerateEventId st) as [id st']. simpl.
      by rewrite lookup_fmap, Hsub. }
    split; [exact Hlook|].
    intros m_id item attr Hev Hitem.
    pose proof (Sub_TriggerEvent_delivers sub node event' m_id item Hev Hitem) as Hdel.
    split; [by rewrite Hdel|]. split; [reflexivity|].
    exists (GetEventFields (mf_Event (res_Filter (dm_Parameters item))) event').
    split; [by rewrite Hlook, Hdel|].
    apply (GetEventFields_event_id (mf_Event (res_Filter (dm_Parameters item))) event').
Qed.

(** Two subscriptions with an event item on the node, client handles 11
    and 22, and a filter that selects the event id: each queues one field
    list with its own handle and the one generated identifier. *)
Lemma event_id_generated_once_witness :
  SubscriptionsMap
    (fst (TriggerEvent service_two_subscriptions rand_stream nodeN event_without_id)) !! 1
  = Some (set_EventTriggered
            [mkEventFieldList 11
               [VByteString (mkByteString [232; 53; 130; 207; 28; 105; 182; 3])]]
            (sub_with_event_item 1 11))
  /\ SubscriptionsMap
       (fst (TriggerEvent service_two_subscriptions rand_stream nodeN event_without_id)) !! 2
     = Some (set_EventTriggered
               [mkEventFieldList 22
                  [VByteString (mkByteString [232; 53; 130; 207; 28; 105; 182; 3])]]
               (sub_with_event_item 2 22)).
Proof.
  destruct (event_id_generated_once service_two_subscriptions rand_stream nodeN
              event_without_id eq_refl) as (_ & _ & _ & _ & H).
  split.
  - destruct (H 1 (sub_with_event_item 1 11) eq_refl) as [_ Hitem].
    destruct (Hitem 1 (mkDataMonitoredItems
                         (mkCreateMonitoredItemsResult Good 1 100 1 select_event_id)
                         Reporting 11 0) VALUE eq_refl eq_refl)
      as (_ & _ & fields & Hlook & Hlen & Hid).
    specialize (Hid 0%nat _ eq_refl eq_refl).
    destruct fields as [|f [|f' fields]]; [discriminate Hlen | | discriminate Hlen].
    injection Hid as ->. exact Hlook.
  - destruct (H 2 (sub_with_event_item 2 22) eq_refl) as [_ Hitem].
    destruct (Hitem 1 (mkDataMonitoredItems
                         (mkCreateMonitoredItemsResult Good 1 100 1 select_event_id)
                         Reporting 22 0) VALUE eq_refl eq_refl)
      as (_ & _ & fields & Hlook & Hlen & Hid).
    specialize (Hid 0%nat _ eq_refl eq_refl).
    destruct fields as [|f [|f' fields]]; [discriminate Hlen | | discriminate Hlen].
    injection Hid as ->. exact Hlook.
Defined.

Example event_id_bytes :
  bs_Data (fst (GenerateEventId rand_stream)) = [232; 53; 130; 207; 28; 105; 182; 3].
Proof. reflexivity. Qed.

(** ** What the passive operations leave alone

    The timer, the latch [TimerStopped] and the sequence counter are only
    written by the timer handler and by [Stop]. *)

Lemma NewAcknowlegment_control (s : InternalSubscription) (ack : SubscriptionAcknowledgement) :
  control (NewAcknowlegment s ack) = control s.
Proof. reflexivity. Qed.

Lemma Sub_TriggerEvent_control (s : InternalSubscription) (node : NodeId) (event : Event) :
  control (Sub_TriggerEvent s node event) = control s.
Proof.
  unfold Sub_TriggerEvent, EnqueueEvent.
  destruct (MonitoredEvents s !! node) as [id|]; [|reflexivity].
  destruct (MonitoredItemsMap s !! id); reflexivity.
Qed.

Lemma DataChangeCallback_control (s : InternalSubscription) (m_id : Z) (value : DataValue) :
  control (DataChangeCallback s m_id value) = control s.
Proof.
  unfold DataChangeCallback. destruct (MonitoredItemsMap s !! m_id); reflexivity.
Qed.

Lemma route_acknowledgements_lookup (acks : list SubscriptionAcknowledgement) :
  forall (subs : gmap Z InternalSubscription) (subid : Z) (sub : InternalSubscription),
    subs !! subid = Some sub ->
    exists sub', foldl route_acknowledgement subs acks !! subid = Some sub'
                 /\ control sub' = control sub.
Proof.
  induction acks as [|ack acks IH]; intros subs subid sub Hsub; simpl.
  - by exists sub.
  - unfold route_acknowledgement at 2.
    destruct (subs !! ack_SubscriptionId ack) as [target|] eqn:Htarget; [|by apply IH].
    destruct (decide (ack_SubscriptionId ack = subid)) as [Heq|Hne].
    + subst subid. rewrite Hsub in Htarget. injection Htarget as <-.
      destruct (IH (<[ack_SubscriptionId ack := NewAcknowlegment sub ack]> subs)
                   (ack_SubscriptionId ack) (NewAcknowlegment sub ack))
        as (sub' & Hlook & Hctl); [by rewrite lookup_insert_eq|].
      exists sub'. split; [exact Hlook|]. by rewrite Hctl.
    + apply IH. by rewrite lookup_insert_ne.
Qed.

Lemma PublishResults_service (error : bool) (now : Z) (s : InternalSubscription)
  (svc : SubscriptionServiceInternal) :
  SubscriptionsMap (PublishResults error now s svc).1.1.2 = SubscriptionsMap svc.
Proof.
  unfold PublishResults.
  destruct (error || HasExpired s); [reflexivity|].
  destruct (HasPublishResult s) as [has s1]. destruct has; [|reflexivity].
  unfold PopPublishRequest.
  destruct (PublishRequestQueues svc !! CurrentSession s1) as [c|]; [|reflexivity].
  destruct (c =? 0); [reflexivity|].
  destruct (PopPublishResult now s1) as [results s2].
  destruct results; reflexivity.
Qed.

Lemma TimerHandler_other (svc : SubscriptionServiceInternal) (subid' subid now : Z) :
  subid' ≠ subid ->
  SubscriptionsMap (TimerHandler svc subid' now).1 !! subid = SubscriptionsMap svc !! subid
  /\ filter (fun e => em_SubscriptionId e = subid) (TimerHandler svc subid' now).2 = [].
Proof.
  intros Hne. unfold TimerHandler.
  destruct (SubscriptionsMap svc !! subid') as [sub|]; [|by split].
  assert (Hgen : forall error,
    SubscriptionsMap
      (let '(sub', svc', results, called) := PublishResults error now sub svc in
       (set_SubscriptionsMap (<[subid' := sub']> (SubscriptionsMap svc')) svc',
        map (fun r => mkEmission subid' r (negb (vec_empty called))) results)).1 !! subid
    = SubscriptionsMap svc !! subid
    /\ filter (fun e => em_SubscriptionId e = subid)
         (let '(sub', svc', results, called) := PublishResults error now sub svc in
          (set_SubscriptionsMap (<[subid' := sub']> (SubscriptionsMap svc')) svc',
           map (fun r => mkEmission subid' r (negb (vec_empty called))) results)).2 = []).
  { intros error. pose proof (PublishResults_service error now sub svc) as Hsvc.
    destruct (PublishResults error now sub svc) as [[[sub' svc'] results] called].
    simpl in *. split.
    - by rewrite lookup_insert_ne, Hsvc.
    - induction results as [|r results IH]; [reflexivity|].
      simpl. rewrite filter_cons_False by (simpl; congruence). exact IH. }
  destruct (Timer sub); [by split | apply Hgen | apply Hgen].
Qed.

Lemma on_subscription_lookup (svc : SubscriptionServiceInternal) (subid' subid : Z)
  (f : InternalSubscription -> InternalSubscription) (sub : InternalSubscription) :
  SubscriptionsMap svc !! subid = Some sub ->
  SubscriptionsMap (on_subscription svc subid' f) !! subid
  = Some (if decide (subid' = subid) then f sub else sub).
Proof.
  intros Hsub. unfold on_subscription.
  destruct (decide (subid' = subid)) as [->|Hne].
  - rewrite Hsub. simpl. by rewrite lookup_insert_eq.
  - destruct (SubscriptionsMap svc !! subid'); [|exact Hsub].
    simpl. by rewrite lookup_insert_ne.
Qed.

Section PassiveOperations.

Context {A : Type} `{!AddressSpaceOps A}.

Lemma CreateMonitoredItem_control (s : InternalSubscription) (a : A)
  (request : MonitoredItemRequest) result s' a' :
  CreateMonitoredItem s a request = Some (result, s', a') -> control s' = control s.
Proof.
  assert (Hreg : forall s0 a0 r h result s' a',
             CreateMonitoredItem_register s0 a0 request r h = Some (result, s', a') ->
             control s' = control s0).
  { intros s0 a0 r h result0 s0' a0'. unfold CreateMonitoredItem_register.
    match goal with
    | |- context [TriggerDataChangeEvent ?s1 a0 ?m ?v] =>
        destruct (TriggerDataChangeEvent s1 a0 m v) as [s2|] eqn:Htrig
    end; [|discriminate].
    intros [= _ <- _]. unfold TriggerDataChangeEvent in Htrig.
    destruct (Read a0 [ItemToMonitor request]); [discriminate|].
    injection Htrig as <-. reflexivity. }
  unfold CreateMonitoredItem.
  destruct (decide (Attribute (ItemToMonitor request) = EVENT_NOTIFIER)).
  - intros Hr. apply Hreg in Hr. exact Hr.
  - destruct (AddDataChangeCallback a _ _) as [h a1].
    destruct (h =? 0).
    + intros [= _ <- _]. reflexivity.
    + intros Hr. apply Hreg in Hr. exact Hr.
Qed.

Lemma CreateMonitoredItems_loop_control (items : list MonitoredItemRequest) :
  forall (s : InternalSubscription) (a : A) data s' a',
    CreateMonitoredItems_loop s a items = Some (data, s', a') -> control s' = control s.
Proof.
  induction items as [|req rest IH]; intros s a data s' a'; simpl.
  - by intros [= _ <- _].
  - destruct (CreateMonitoredItem s a req) as [[[result s1] a1]|] eqn:Hone; [|discriminate].
    destruct (CreateMonitoredItems_loop s1 a1 rest) as [[[data0 s2] a2]|] eqn:Hrest;
      [|discriminate].
    intros [= _ <- _]. apply IH in Hrest. apply CreateMonitoredItem_control in Hone.
    congruence.
Qed.

Lemma DeleteMonitoredItemsIds_control (ids : list Z) :
  forall (s : InternalSubscription) (a : A),
    control (DeleteMonitoredItemsIds s a ids).1.2 = control s.
Proof.
  induction ids as [|handle rest IH]; intros s a; simpl; [reflexivity|].
  assert (Hone : control (DeleteMonitoredItemsId s a handle).1.2 = control s).
  { unfold DeleteMonitoredItemsId. simpl.
    destruct (MonitoredItemsMap s !! handle); reflexivity. }
  destruct (DeleteMonitoredItemsId s a handle) as [[st s1] a1].
  specialize (IH s1 a1).
  destruct (DeleteMonitoredItemsIds s1 a1 rest) as [[results s2] a2].
  simpl in *. congruence.
Qed.

(** An operation other than the timer handler of [subid] emits nothing
    for [subid] and leaves its timer, latch and sequence counter alone,
    [Stop] apart. *)
Lemma step_passive (op : Op) (svc : SubscriptionServiceInternal) (a : A)
  svc' a' out (subid : Z) (sub : InternalSubscription) :
  step op svc a = Some (svc', a', out) ->
  (forall now, op ≠ OpTimer subid now) ->
  SubscriptionsMap svc !! subid = Some sub ->
  filter (fun e => em_SubscriptionId e = subid) out = []
  /\ exists sub', SubscriptionsMap svc' !! subid = Some sub'
                  /\ (control sub' = control sub \/ sub' = Stop sub).
Proof.
  intros Hstep Hop Hsub. destruct op; simpl in Hstep.
  - injection Hstep as <- <- <-. split; [reflexivity|].
    destruct (route_acknowledgements_lookup (SubscriptionAcknowledgements request)
                _ _ _ Hsub) as (sub' & Hlook & Hctl).
    exists sub'. split; [exact Hlook | by left].
  - unfold CreateMonitoredItems in Hstep.
    destruct (SubscriptionsMap svc !! mip_SubscriptionId params) as [target|] eqn:Htarget.
    + destruct (CreateMonitoredItems_loop target a (ItemsToCreate params))
        as [[[data target'] a1]|] eqn:Hloop; [|discriminate].
      injection Hstep as <- <- <-. split; [reflexivity|].
      apply CreateMonitoredItems_loop_control in Hloop. simpl.
      destruct (decide (mip_SubscriptionId params = subid)) as [Heq|Hne].
      * subst subid. rewrite Hsub in Htarget. injection Htarget as <-.
        exists target'. rewrite lookup_insert_eq. split; [reflexivity | by left].
      * exists sub. rewrite lookup_insert_ne by assumption. split; [exact Hsub | by left].
    + injection Hstep as <- <- <-. split; [reflexivity|]. exists sub. split; [exact Hsub | by left].
  - unfold DeleteMonitoredItems in Hstep.
    destruct (SubscriptionsMap svc !! dmp_SubscriptionId params) as [target|] eqn:Htarget.
    + pose proof (DeleteMonitoredItemsIds_control (MonitoredItemIds params) target a) as Hctl.
      destruct (DeleteMonitoredItemsIds target a (MonitoredItemIds params))
        as [[results target'] a1].
      injection Hstep as <- <- <-. split; [reflexivity|]. simpl in *.
      destruct (decide (dmp_SubscriptionId params = subid)) as [Heq|Hne].
      * subst subid. rewrite Hsub in Htarget. injection Htarget as <-.
        exists target'. rewrite lookup_insert_eq. split; [reflexivity | by left].
      * exists sub. rewrite lookup_insert_ne by assumption. split; [exact Hsub | by left].
    + injection Hstep as <- <- <-. split; [reflexivity|]. exists sub. split; [exact Hsub | by left].
  - injection Hstep as <- <- <-. split; [reflexivity|].
    exists (Sub_TriggerEvent sub node
              (if vec_empty (bs_Data (EventId event))
               then set_EventId (fst (GenerateEventId st)) event else event)).
    split; [|left; apply Sub_TriggerEvent_control].
    unfold TriggerEvent.
    destruct (vec_empty (bs_Data (EventId event)));
      [destruct (GenerateEventId st) as [id st']|]; simpl;
      by rewrite lookup_fmap, Hsub.
  - destruct (decide (subid0 = subid)) as [->|Hne]; [by destruct (Hop now)|].
    destruct (TimerHandler_other svc subid0 subid now Hne) as [Hlook Hout].
    destruct (TimerHandler svc subid0 now) as [svc1 out1].
    injection Hstep as <- <- <-. simpl in *. split; [exact Hout|].
    exists sub. split; [by rewrite Hlook | by left].
  - injection Hstep as <- <- <-. split; [reflexivity|].
    eexists. split; [by apply on_subscription_lookup|].
    left. destruct (decide (subid0 = subid)); [apply DataChangeCallback_control | reflexivity].
  - injection Hstep as <- <- <-. split; [reflexivity|].
    eexists. split; [by apply on_subscription_lookup|].
    destruct (decide (subid0 = subid)); [by right | by left].
  - injection Hstep as <- <- <-. split; [reflexivity|]. exists sub. split; [exact Hsub | by left].
Qed.

End PassiveOperations.

(** ** The timer handler of a subscription *)

Lemma ids_from_closed (k : nat) :
  forall n : Z, is_u32 n ->
    ids_from n k = map (fun i => wrap32 (n + Z.of_nat i)) (seq 0 k).
Proof.
  induction k as [|k IH]; intros n Hn; [reflexivity|].
  cbn [ids_from seq map]. rewrite IH by apply wrap32_range.
  rewrite <- seq_shift, map_map. f_equal.
  - unfold wrap32, is_u32, UINT32_MODULUS in *. rewrite Z.add_0_r, Z.mod_small; lia.
  - apply map_ext. intros i. unfold incr32, wrap32, UINT32_MODULUS.
    rewrite Z.add_mod_idemp_l by lia. f_equal. lia.
Qed.

Lemma HasPublishResult_control (s : InternalSubscription) :
  control (snd (HasPublishResult s)) = control s.
Proof.
  unfold HasPublishResult.
  destruct (Startup s || _ || _); [reflexivity|].
  destruct (KeepAliveCount s >? _); reflexivity.
Qed.

Lemma PopPublishResult_result (now : Z) (s : InternalSubscription) :
  exists r : PublishResult,
    fst (PopPublishResult now s) = [r]
    /\ SequenceID (Message r) = NotificationSequence s
    /\ NotificationSequence (snd (PopPublishResult now s)) = incr32 (NotificationSequence s).
Proof.
  unfold PopPublishResult, GetNotificationData.
  destruct (vec_empty (MonitoredItemsTriggered s)); simpl;
    destruct (vec_empty (EventTriggered s)); simpl;
    eexists; (split; [reflexivity|split; reflexivity]).
Qed.

Lemma PublishResults_stop (error : bool) (now : Z) (s : InternalSubscription)
  (svc : SubscriptionServiceInternal) :
  error = true \/ HasExpired s = true ->
  PublishResults error now s svc = (set_Timer TimerNoWait true s, svc, [], []).
Proof.
  intros Hstop. unfold PublishResults.
  assert (error || HasExpired s = true) as ->; [|reflexivity].
  destruct Hstop as [-> | ->]; [reflexivity | apply orb_true_r].
Qed.

(** What one run of the handler does to the sequence counter and to the
    latch. *)
Lemma PublishResults_sequence (error : bool) (now : Z) (s : InternalSubscription)
  (svc : SubscriptionServiceInternal) :
  let s' := (PublishResults error now s svc).1.1.1 in
  let results := (PublishResults error now s svc).1.2 in
  latch_consistent s'
  /\ ((results = [] /\ NotificationSequence s' = NotificationSequence s)
      \/ (exists r, results = [r]
                    /\ SequenceID (Message r) = NotificationSequence s
                    /\ NotificationSequence s' = incr32 (NotificationSequence s))).
Proof.
  unfold PublishResults, latch_consistent.
  destruct (error || HasExpired s); simpl; [split; [reflexivity | by left]|].
  pose proof (HasPublishResult_control s) as Hctl.
  destruct (HasPublishResult s) as [has s1]. simpl in Hctl.
  assert (Hseq : NotificationSequence s1 = NotificationSequence s)
    by (unfold control in Hctl; congruence).
  destruct has; simpl; [|split; [discriminate | by left]].
  destruct (PopPublishRequest svc (CurrentSession s1)) as [ok svc1].
  destruct ok; simpl; [|split; [discriminate | by left]].
  destruct (PopPublishResult_result now s1) as (r & Hr & Hid & Hnext).
  destruct (PopPublishResult now s1) as [results s2]. simpl in *. subst results.
  simpl. split; [discriminate|]. right. exists r. rewrite <- Hseq. by repeat split.
Qed.

Lemma TimerHandler_self (svc : SubscriptionServiceInternal) (subid now : Z)
  (sub : InternalSubscription) :
  SubscriptionsMap svc !! subid = Some sub ->
  latch_consistent sub ->
  exists sub', SubscriptionsMap (TimerHandler svc subid now).1 !! subid = Some sub'
    /\ latch_consistent sub'
    /\ (TimerStopped sub = true -> sub' = sub /\ (TimerHandler svc subid now).2 = [])
    /\ ((emitted_ids subid (TimerHandler svc subid now).2 = []
         /\ NotificationSequence sub' = NotificationSequence sub)
        \/ (emitted_ids subid (TimerHandler svc subid now).2 = [NotificationSequence sub]
            /\ NotificationSequence sub' = incr32 (NotificationSequence sub))).
Proof.
  intros Hsub Hlatch. unfold TimerHandler. rewrite Hsub.
  assert (Hgen : forall error, Timer sub ≠ TimerNoWait ->
    exists sub',
      SubscriptionsMap
        (let '(sub', svc', results, called) := PublishResults error now sub svc in
         (set_SubscriptionsMap (<[subid := sub']> (SubscriptionsMap svc')) svc',
          map (fun r => mkEmission subid r (negb (vec_empty called))) results)).1
        !! subid = Some sub'
      /\ latch_consistent sub'
      /\ (TimerStopped sub = true -> sub' = sub /\
          (let '(sub', svc', results, called) := PublishResults error now sub svc in
           (set_SubscriptionsMap (<[subid := sub']> (SubscriptionsMap svc')) svc',
            map (fun r => mkEmission subid r (negb (vec_empty called))) results)).2 = [])
      /\ ((emitted_ids subid
             (let '(sub', svc', results, called) := PublishResults error now sub svc in
              (set_SubscriptionsMap (<[subid := sub']> (SubscriptionsMap svc')) svc',
               map (fun r => mkEmission subid r (negb (vec_empty called))) results)).2 = []
           /\ NotificationSequence sub' = NotificationSequence sub)
          \/ (emitted_ids subid
                (let '(sub', svc', results, called) := PublishResults error now sub svc in
                 (set_SubscriptionsMap (<[subid := sub']> (SubscriptionsMap svc')) svc',
                  map (fun r => mkEmission subid r (negb (vec_empty called))) results)).2
              = [NotificationSequence sub]
              /\ NotificationSequence sub' = incr32 (NotificationSequence sub)))).
  { intros error Hwait.
    pose proof (PublishResults_sequence error now sub svc) as [Hl Hseq].
    destruct (PublishResults error now sub svc) as [[[sub' svc'] results] called].
    simpl in *. exists sub'. rewrite lookup_insert_eq.
    split; [reflexivity|]. split; [exact Hl|]. split.
    - intros Hstopped. by destruct (Hwait (Hlatch Hstopped)).
    - destruct Hseq as [[-> Hn] | (r & -> & Hid & Hn)]; [by left|].
      right. split; [|exact Hn]. unfold emitted_ids. simpl.
      rewrite filter_cons_True by reflexivity. simpl. by rewrite Hid. }
  destruct (Timer sub) eqn:Htimer.
  - exists sub. simpl. rewrite Hsub. repeat split; auto.
  - apply Hgen. discriminate.
  - apply Hgen. discriminate.
Qed.

Section Runs.

Context {A : Type} `{!AddressSpaceOps A}.

Lemma emitted_ids_app (subid : Z) (t1 t2 : list Emission) :
  emitted_ids subid (t1 ++ t2) = emitted_ids subid t1 ++ emitted_ids subid t2.
Proof. unfold emitted_ids. by rewrite filter_app, map_app. Qed.

(** One operation, followed on the subscription stored under [subid]. *)
Lemma step_tracked (op : Op) (svc : SubscriptionServiceInternal) (a : A)
  svc' a' out (subid : Z) (sub : InternalSubscription) :
  step op svc a = Some (svc', a', out) ->
  SubscriptionsMap svc !! subid = Some sub ->
  latch_consistent sub ->
  exists sub', SubscriptionsMap svc' !! subid = Some sub'
    /\ latch_consistent sub'
    /\ (TimerStopped sub = true ->
        TimerStopped sub' = true
        /\ filter (fun e => em_SubscriptionId e = subid) out = [])
    /\ ((emitted_ids subid out = []
         /\ NotificationSequence sub' = NotificationSequence sub)
        \/ (emitted_ids subid out = [NotificationSequence sub]
            /\ NotificationSequence sub' = incr32 (NotificationSequence sub))).
Proof.
  intros Hstep Hsub Hlatch.
  assert (Hpassive : (forall now, op ≠ OpTimer subid now) ->
    exists sub', SubscriptionsMap svc' !! subid = Some sub'
    /\ latch_consistent sub'
    /\ (TimerStopped sub = true ->
        TimerStopped sub' = true
        /\ filter (fun e => em_SubscriptionId e = subid) out = [])
    /\ ((emitted_ids subid out = []
         /\ NotificationSequence sub' = NotificationSequence sub)
        \/ (emitted_ids subid out = [NotificationSequence sub]
            /\ NotificationSequence sub' = incr32 (NotificationSequence sub)))).
  { intros Hop.
    destruct (step_passive op svc a svc' a' out subid sub Hstep Hop Hsub)
      as (Hout & sub' & Hlook & Hctl).
    exists sub'. split; [exact Hlook|].
    assert (Hsame : TimerStopped sub' = TimerStopped sub
                    /\ NotificationSequence sub' = NotificationSequence sub
                    /\ latch_consistent sub').
    { destruct Hctl as [Hctl | ->].
      - unfold control in Hctl. injection Hctl as Ht Hs Hn.
        repeat split; auto. unfold latch_consistent. rewrite Ht, Hs. exact Hlatch.
      - unfold Stop, latch_consistent in *.
        destruct (TimerStopped sub) eqn:Hs; simpl.
        + rewrite Hs. repeat split; auto.
        + repeat split. discriminate. }
    destruct Hsame as (Hs & Hn & Hl).
    split; [exact Hl|]. split.
    - intros Hstopped. split; [congruence | exact Hout].
    - left. split; [|exact Hn]. unfold emitted_ids. by rewrite Hout. }
  destruct op; try (apply Hpassive; discriminate).
  destruct (decide (subid0 = subid)) as [->|Hne];
    [|apply Hpassive; congruence].
  simpl in Hstep.
  destruct (TimerHandler_self svc subid now sub Hsub Hlatch)
    as (sub' & Hlook & Hl & Hstopped & Hseq).
  destruct (TimerHandler svc subid now) as [svc1 out1].
  injection Hstep as <- <- <-. simpl in *.
  exists sub'. split; [exact Hlook|]. split; [exact Hl|]. split; [|exact Hseq].
  intros Hs. destruct (Hstopped Hs) as [-> ->]. by split.
Qed.

(** A sequence of operations, followed on the subscription under [subid]:
    the ids it emits count up from its counter, a latched subscription
    emits nothing, and the subscription stays in the registry. *)
Lemma run_tracked (ops : list Op) :
  forall (svc : SubscriptionServiceInternal) (a : A) (subid : Z)
         (sub : InternalSubscription),
    SubscriptionsMap svc !! subid = Some sub ->
    latch_consistent sub ->
    emitted_ids subid (run ops svc a).1
    = ids_from (NotificationSequence sub) (length (emitted_ids subid (run ops svc a).1))
    /\ (TimerStopped sub = true ->
        filter (fun e => em_SubscriptionId e = subid) (run ops svc a).1 = [])
    /\ (forall svc' a', (run ops svc a).2 = Some (svc', a') ->
        exists sub', SubscriptionsMap svc' !! subid = Some sub'
                     /\ latch_consistent sub'
                     /\ (TimerStopped sub = true -> TimerStopped sub' = true)).
Proof.
  induction ops as [|op ops IH]; intros svc a subid sub Hsub Hlatch.
  - simpl. split; [reflexivity|]. split; [reflexivity|].
    intros svc' a' [= <- <-]. by exists sub.
  - simpl. destruct (step op svc a) as [[[svc1 a1] out]|] eqn:Hstep.
    2:{ simpl. split; [reflexivity|]. split; [reflexivity|]. discriminate. }
    destruct (step_tracked op svc a svc1 a1 out subid sub Hstep Hsub Hlatch)
      as (sub1 & Hsub1 & Hlatch1 & Hstopped & Hseq).
    destruct (IH svc1 a1 subid sub1 Hsub1 Hlatch1) as (Hids & Hsilent & Hfinal).
    destruct (run ops svc1 a1) as [trace final]. simpl in *.
    split; [|split].
    + rewrite emitted_ids_app.
      destruct Hseq as [[-> Hn] | [-> Hn]]; simpl.
      * by rewrite <- Hn.
      * f_equal. by rewrite <- Hn.
    + intros Hs. destruct (Hstopped Hs) as [Hs1 Hout].
      by rewrite filter_app, Hout, (Hsilent Hs1).
    + intros svc' a' Hfin. destruct (Hfinal svc' a' Hfin) as (sub' & Hl & Hc & Hs').
      exists sub'. split; [exact Hl|]. split; [exact Hc|].
      intros Hs. apply Hs'. by apply Hstopped.
Qed.

(** C5.  A run of the timer handler with an error, or on a subscription
    that has expired ([KeepAliveCount > LifeTimeCount]), sets
    [TimerStopped], emits nothing, leaves the service as it is and
    returns with no wait outstanding (the timer is not re-armed).  And for
    a subscription as [CreateSubscription] makes it: whenever a sequence
    of operations has led to a state in which its [TimerStopped] is set,
    no sequence of operations from there makes it emit again. *)
Theorem stopped_subscription_is_silent (svc : SubscriptionServiceInternal) (a : A)
  (request : CreateSubscriptionRequest) (callback : bool)
  (s : InternalSubscription) (error : bool) (now : Z) (before after : list Op) :
  error = true \/ HasExpired s = true ->
  (PublishResults error now s svc = (set_Timer TimerNoWait true s, svc, [], [])
   /\ TimerStopped (PublishResults error now s svc).1.1.1 = true
   /\ Timer (PublishResults error now s svc).1.1.1 = TimerNoWait)
  /\ (forall svc1 a1 sub1,
        (run before (CreateSubscription svc request callback).2 a).2 = Some (svc1, a1) ->
        SubscriptionsMap svc1 !! ID (CreateSubscription svc request callback).1 = Some sub1 ->
        TimerStopped sub1 = true ->
        filter (fun e => em_SubscriptionId e = ID (CreateSubscription svc request callback).1)
               (run after svc1 a1).1 = []).
Proof.
  intros Hstop. split.
  - rewrite PublishResults_stop by assumption. by repeat split.
  - intros svc1 a1 sub1 Hrun Hsub1 Hstopped.
    assert (Hfresh : SubscriptionsMap (CreateSubscription svc request callback).2
                       !! ID (CreateSubscription svc request callback).1
                     = Some (Start (InternalSubscription_new
                                      (CreateSubscription svc request callback).1
                                      (csr_SessionAuthenticationToken request) callback))).
    { simpl. by rewrite lookup_insert_eq. }
    destruct (run_tracked before _ a _ _ Hfresh) as (_ & _ & Hfinal); [discriminate|].
    destruct (Hfinal svc1 a1 Hrun) as (sub' & Hsub' & Hlatch & _).
    rewrite Hsub1 in Hsub'. injection Hsub' as <-.
    by destruct (run_tracked after svc1 a1 _ sub1 Hsub1 Hlatch) as (_ & Hsilent & _);
      apply Hsilent.
Qed.

End Runs.

(** ** Runs on the concrete address space *)

Example expiry_run_emits_once :
  emitted_ids 1
    (run ops_until_expiry
       (CreateSubscription SubscriptionServiceInternal_new short_lived_request true).2
       stub_space).1 = [1].
Proof. vm_compute. reflexivity. Qed.

(** The subscription that expired on its third tick stays silent. *)
Lemma stopped_subscription_is_silent_witness :
  exists svc1 a1 sub1,
    (run ops_until_expiry
       (CreateSubscription SubscriptionServiceInternal_new short_lived_request true).2
       stub_space).2 = Some (svc1, a1)
    /\ SubscriptionsMap svc1 !! 1 = Some sub1
    /\ TimerStopped sub1 = true
    /\ filter (fun e => em_SubscriptionId e = 1) (run ops_after_expiry svc1 a1).1 = [].
Proof.
  eexists _, _, _.
  split; [vm_compute; reflexivity|].
  split; [vm_compute; reflexivity|].
  split; [reflexivity|].
  refine (proj2 (stopped_subscription_is_silent SubscriptionServiceInternal_new
                   stub_space short_lived_request true sub_pending true 0
                   ops_until_expiry ops_after_expiry (or_introl eq_refl))
                _ _ _ _ _ _).
  - vm_compute. reflexivity.
  - vm_compute. reflexivity.
  - reflexivity.
Defined.

(** *** A subscription that emits on every second tick *)

Lemma first_cycle :
  run cycle fresh_service stub_space
  = ([mkEmission 1 (keep_alive_result 1 []) true],
     Some (cycling_service 2 [keep_alive_result 1 []], stub_space)).
Proof. vm_compute. reflexivity. Qed.

Lemma next_cycle (n : Z) (l : list PublishResult) :
  run cycle (cycling_service n l) stub_space
  = ([mkEmission 1 (keep_alive_result n l) true],
     Some (cycling_service (incr32 n) (l ++ [keep_alive_result n l]), stub_space)).
Proof. reflexivity. Qed.

Lemma run_app {A : Type} `{!AddressSpaceOps A} (ops1 ops2 : list Op) :
  forall (svc : SubscriptionServiceInternal) (a : A) trace1 svc1 a1,
    run ops1 svc a = (trace1, Some (svc1, a1)) ->
    run (ops1 ++ ops2) svc a
    = (trace1 ++ (run ops2 svc1 a1).1, (run ops2 svc1 a1).2).
Proof.
  induction ops1 as [|op ops1 IH]; intros svc a trace1 svc1 a1; simpl.
  - intros [= <- <- <-]. by destruct (run ops2 svc a).
  - destruct (step op svc a) as [[[svc' a'] out]|]; [|discriminate].
    destruct (run ops1 svc' a') as [trace final] eqn:Hrun.
    intros [= <- ->]. rewrite (IH svc' a' trace svc1 a1 Hrun).
    by rewrite app_assoc.
Qed.

Lemma cycles_emit (k : nat) :
  forall (n : Z) (l : list PublishResult),
    length (emitted_ids 1
              (run (concat (replicate k cycle)) (cycling_service n l) stub_space).1) = k.
Proof.
  induction k as [|k IH]; intros n l; [reflexivity|].
  cbn [replicate concat].
  rewrite (run_app cycle _ _ _ _ _ _ (next_cycle n l)).
  cbn [fst]. rewrite emitted_ids_app, length_app, IH. reflexivity.
Qed.

Lemma first_cycle_ids :
  emitted_ids 1 [mkEmission 1 (keep_alive_result 1 []) true] = [1].
Proof. reflexivity. Qed.

Lemma wraparound_ids_length : length wraparound_ids = S (Z.to_nat 4294967295).
Proof.
  unfold wraparound_ids, wraparound_ops.
  rewrite (run_app cycle later_cycles _ _ _ _ _ first_cycle).
  cbn [fst].
  rewrite emitted_ids_app, length_app.
  unfold later_cycles.
  rewrite cycles_emit, first_cycle_ids.
  apply Nat.add_1_l.
Qed.

Lemma fresh_service_lookup :
  SubscriptionsMap fresh_service !! 1
  = Some (Start (InternalSubscription_new (mkSubscriptionData 1 100 10 0) session1 true)).
Proof. reflexivity. Qed.

Lemma wraparound_ids_closed :
  wraparound_ids
  = map (fun i => wrap32 (1 + Z.of_nat i)) (seq 0 (S (Z.to_nat 4294967295))).
Proof.
  destruct (run_tracked wraparound_ops fresh_service stub_space 1 _ fresh_service_lookup)
    as (Hids & _); [discriminate|].
  fold wraparound_ids in Hids. rewrite wraparound_ids_length in Hids.
  rewrite Hids. apply ids_from_closed.
  unfold is_u32, UINT32_MODULUS. cbn [NotificationSequence Start set_Timer
    InternalSubscription_new]. lia.
Qed.

Lemma wraparound_ids_lookup (i : Z) :
  0 <= i <= 4294967295 ->
  wraparound_ids !! Z.to_nat i = Some (wrap32 (1 + i)).
Proof.
  intros Hi. rewrite wraparound_ids_closed, list_lookup_fmap.
  rewrite lookup_seq_lt by lia.
  cbn [fmap option_fmap option_map]. rewrite Nat.add_0_l, Z2Nat.id by lia.
  reflexivity.
Qed.

(** ** Sequence ids *)

Section SequenceIds.

Context {A : Type} `{!AddressSpaceOps A}.

(** C1, as amended.  Each call of [PopPublishResult], keep-alive or not,
    gives the result the current [NotificationSequence] and applies [++]
    to the counter, a [uint32_t]: plus one, modulo 2^32.  For a
    subscription as [CreateSubscription] makes it and every sequence of
    operations, the [k]-th result it emits (from [k] = 0) has sequence id
    [(1 + k) mod 2^32]; while no more than 2^32 - 1 results have been
    emitted the ids are therefore 1, 2, 3, ... : strictly increasing from
    1 with no gap. *)
Theorem sequence_ids_count_up (svc : SubscriptionServiceInternal) (a : A)
  (request : CreateSubscriptionRequest) (callback : bool) (ops : list Op)
  (now : Z) (s : InternalSubscription) :
  (exists r : PublishResult,
      fst (PopPublishResult now s) = [r]
      /\ SequenceID (Message r) = NotificationSequence s
      /\ NotificationSequence (snd (PopPublishResult now s))
         = incr32 (NotificationSequence s)
      /\ (0 <= NotificationSequence s < UINT32_MAX ->
          NotificationSequence (snd (PopPublishResult now s))
          = NotificationSequence s + 1))
  /\ (let ids := emitted_ids (ID (CreateSubscription svc request callback).1)
                   (run ops (CreateSubscription svc request callback).2 a).1 in
      ids = map (fun i => wrap32 (1 + Z.of_nat i)) (seq 0 (length ids))
      /\ (Z.of_nat (length ids) <= UINT32_MAX ->
          ids = map (fun i => 1 + Z.of_nat i) (seq 0 (length ids)))).
Proof.
  split.
  - destruct (PopPublishResult_result now s) as (r & Hr & Hid & Hnext).
    exists r. repeat split; auto. intros Hrange. rewrite Hnext. by apply incr32_small.
  - intros ids.
    assert (Hclosed : ids = map (fun i => wrap32 (1 + Z.of_nat i)) (seq 0 (length ids))).
    { assert (Hfresh : SubscriptionsMap (CreateSubscription svc request callback).2
                         !! ID (CreateSubscription svc request callback).1
                       = Some (Start (InternalSubscription_new
                                        (CreateSubscription svc request callback).1
                                        (csr_SessionAuthenticationToken request) callback))).
      { simpl. by rewrite lookup_insert_eq. }
      destruct (run_tracked ops _ a _ _ Hfresh) as (Hids & _); [discriminate|].
      fold ids in Hids. rewrite Hids at 1. apply ids_from_closed.
      unfold is_u32, UINT32_MODULUS. simpl. lia. }
    split; [exact Hclosed|].
    intros Hlen. rewrite Hclosed at 1. apply map_ext_in. intros i Hin.
    apply in_seq in Hin. unfold wrap32, UINT32_MODULUS, UINT32_MAX in *.
    apply Z.mod_small. lia.
Qed.

End SequenceIds.

Lemma sequence_ids_count_up_witness :
  emitted_ids 1 (run ops_two_emissions fresh_service stub_space).1 = [1; 2].
Proof.
  refine (eq_trans
            (proj2 (proj2 (sequence_ids_count_up SubscriptionServiceInternal_new
                             stub_space every_other_tick_request true
                             ops_two_emissions 0 sub_pending)) _) _).
  - vm_compute. discriminate.
  - vm_compute. reflexivity.
Defined.

(** C1 fails as stated after 2^32 - 1 emissions: the result that follows
    the one with sequence id 4294967295 has sequence id 0. *)
Lemma sequence_ids_wrap_counterexample :
  wraparound_ids !! Z.to_nat 4294967294 = Some 4294967295
  /\ wraparound_ids !! Z.to_nat 4294967295 = Some 0
  /\ ¬ (forall (i j : nat) (x y : Z),
          (i < j)%nat ->
          wraparound_ids !! i = Some x -> wraparound_ids !! j = Some y -> x < y).
Proof.
  assert (H1 : wraparound_ids !! Z.to_nat 4294967294 = Some 4294967295)
    by (rewrite wraparound_ids_lookup by lia; reflexivity).
  assert (H2 : wraparound_ids !! Z.to_nat 4294967295 = Some 0)
    by (rewrite wraparound_ids_lookup by lia; reflexivity).
  split; [exact H1|]. split; [exact H2|].
  intros Hmono.
  assert (Hlt : (Z.to_nat 4294967294 < Z.to_nat 4294967295)%nat) by lia.
  pose proof (Hmono _ _ _ _ Hlt H1 H2). lia.
Qed.

(** ** Ticks without a publish request *)

Lemma PopPublishRequest_false (svc : SubscriptionServiceInternal) (node : NodeId) :
  fst (PopPublishRequest svc node) = false -> snd (PopPublishRequest svc node) = svc.
Proof.
  unfold PopPublishRequest.
  destruct (PublishRequestQueues svc !! node) as [c|]; [|reflexivity].
  destruct (c =? 0); [reflexivity | discriminate].
Qed.

Lemma HasPublishResult_pending (s : InternalSubscription) :
  Startup s = true \/ MonitoredItemsTriggered s ≠ [] \/ EventTriggered s ≠ [] ->
  HasPublishResult s = (true, s).
Proof.
  intros Hpending. unfold HasPublishResult.
  assert (Startup s || negb (vec_empty (MonitoredItemsTriggered s))
          || negb (vec_empty (EventTriggered s)) = true) as ->; [|reflexivity].
  destruct Hpending as [-> | [Hq | Hq]]; [reflexivity| |].
  - destruct (MonitoredItemsTriggered s); [contradiction|].
    simpl. by rewrite orb_true_r.
  - destruct (EventTriggered s); [contradiction|].
    simpl. by rewrite orb_true_r.
Qed.

(** C4, as amended.  On a tick where a queue holds pending data or
    [Startup] is set, [HasPublishResult] returns true before it reaches
    [++KeepAliveCount] and leaves the subscription as it is.  When
    [PopPublishRequest] then returns false, the tick emits nothing, calls
    no callback, leaves the service as it is and leaves [KeepAliveCount]
    unchanged: the tick is not counted against the lifetime, and
    [HasExpired] answers after it as before. *)
Theorem credit_starved_tick_not_counted (error : bool) (now : Z)
  (s : InternalSubscription) (svc : SubscriptionServiceInternal) :
  Startup s = true \/ MonitoredItemsTriggered s ≠ [] \/ EventTriggered s ≠ [] ->
  fst (PopPublishRequest svc (CurrentSession s)) = false ->
  HasPublishResult s = (true, s)
  /\ KeepAliveCount (PublishResults error now s svc).1.1.1 = KeepAliveCount s
  /\ HasExpired (PublishResults error now s svc).1.1.1 = HasExpired s
  /\ (PublishResults error now s svc).1.2 = []
  /\ (PublishResults error now s svc).2 = []
  /\ (PublishResults error now s svc).1.1.2 = svc
  /\ (PublishResults error now s svc).1.1.1
     = (if error || HasExpired s then set_Timer TimerNoWait true s
        else set_Timer TimerWaiting false s).
Proof.
  intros Hpending Hstarved.
  pose proof (HasPublishResult_pending s Hpending) as Hhas.
  pose proof (PopPublishRequest_false svc (CurrentSession s) Hstarved) as Hsvc.
  split; [exact Hhas|].
  unfold PublishResults. rewrite Hhas.
  destruct (error || HasExpired s); [by repeat split|].
  destruct (PopPublishRequest svc (CurrentSession s)) as [ok svc1].
  simpl in Hstarved, Hsvc. subst ok svc1. by repeat split.
Qed.

(** The tick of a subscription with a data change pending, in a service
    that holds no publish request. *)
Lemma credit_starved_tick_not_counted_witness :
  KeepAliveCount
    (PublishResults false 0 sub_pending SubscriptionServiceInternal_new).1.1.1
  = KeepAliveCount sub_pending.
Proof.
  refine (proj1 (proj2 (credit_starved_tick_not_counted false 0 sub_pending
                          SubscriptionServiceInternal_new _ _))).
  - right. left. discriminate.
  - reflexivity.
Defined.

(** C4 fails as stated: with a data change pending and no publish request,
    [HasPublishResult] returns true and the tick leaves [KeepAliveCount]
    at 0; it is not incremented. *)
Lemma credit_starved_tick_counterexample :
  MonitoredItemsTriggered sub_pending ≠ []
  /\ HasExpired sub_pending = false
  /\ fst (PopPublishRequest SubscriptionServiceInternal_new (CurrentSession sub_pending))
     = false
  /\ HasPublishResult sub_pending = (true, sub_pending)
  /\ KeepAliveCount sub_pending = 0
  /\ KeepAliveCount
       (PublishResults false 0 sub_pending SubscriptionServiceInternal_new).1.1.1 = 0
  /\ KeepAliveCount
       (PublishResults false 0 sub_pending SubscriptionServiceInternal_new).1.1.1
     ≠ incr32 (KeepAliveCount sub_pending).
Proof.
  split; [discriminate|]. repeat split. discriminate.
Qed.

(** * Further properties of the engine *)

(** ** Emission drains the queues *)

Lemma PopPublishResult_drains (now : Z) (s : InternalSubscription) :
  exists r : PublishResult,
    fst (PopPublishResult now s) = [r]
    /\ msg_Data (Message r)
       = (if vec_empty (MonitoredItemsTriggered s) then []
          else [DataChangeNotification (MonitoredItemsTriggered s)])
         ++ (if vec_empty (EventTriggered s) then []
             else [EventNotificationList (EventTriggered s)])
    /\ Statuses r = replicate (length (msg_Data (Message r))) Good
    /\ SubscriptionID r = ID (Data s)
    /\ PublishTime (Message r) = now
    /\ MonitoredItemsTriggered (snd (PopPublishResult now s)) = []
    /\ EventTriggered (snd (PopPublishResult now s)) = []
    /\ MonitoredItemsMap (snd (PopPublishResult now s)) = MonitoredItemsMap s
    /\ MonitoredEvents (snd (PopPublishResult now s)) = MonitoredEvents s
    /\ LastMonitoredItemID (snd (PopPublishResult now s)) = LastMonitoredItemID s.
Proof.
  unfold PopPublishResult, GetNotificationData.
  destruct (MonitoredItemsTriggered s) as [|m ms] eqn:Hm; simpl;
    destruct (EventTriggered s) as [|e es] eqn:He; simpl;
    rewrite ?Hm, ?He; eexists; repeat split; reflexivity.
Qed.

(** X1.  The result [PopPublishResult] returns carries the whole
    data-change queue as one [DataChangeNotification] (when it is not
    empty), followed by the whole event queue as one
    [EventNotificationList] (when it is not empty), each in queue order,
    with one [Good] per notification; a keep-alive carries none.  Both
    queues are empty afterwards, and the monitored items and the id
    counter are left alone. *)
Theorem pop_publish_result_drains (now : Z) (s : InternalSubscription) :
  exists r : PublishResult,
    fst (PopPublishResult now s) = [r]
    /\ msg_Data (Message r)
       = (if vec_empty (MonitoredItemsTriggered s) then []
          else [DataChangeNotification (MonitoredItemsTriggered s)])
         ++ (if vec_empty (EventTriggered s) then []
             else [EventNotificationList (EventTriggered s)])
    /\ Statuses r = replicate (length (msg_Data (Message r))) Good
    /\ SubscriptionID r = ID (Data s)
    /\ PublishTime (Message r) = now
    /\ MonitoredItemsTriggered (snd (PopPublishResult now s)) = []
    /\ EventTriggered (snd (PopPublishResult now s)) = []
    /\ MonitoredItemsMap (snd (PopPublishResult now s)) = MonitoredItemsMap s
    /\ MonitoredEvents (snd (PopPublishResult now s)) = MonitoredEvents s
    /\ LastMonitoredItemID (snd (PopPublishResult now s)) = LastMonitoredItemID s.
Proof. apply PopPublishResult_drains. Qed.

(** ** Data changes are reported in the order they arrive *)

Lemma DataChangeCallback_frame (s : InternalSubscription) (m_id : Z) (value : DataValue) :
  DataChangeCallback s m_id value
  = set_MonitoredItemsTriggered
      (MonitoredItemsTriggered s
         ++ option_list (callback_entry (MonitoredItemsMap s) (m_id, value))) s.
Proof.
  unfold DataChangeCallback, callback_entry. simpl.
  destruct (MonitoredItemsMap s !! m_id); simpl; [reflexivity|].
  rewrite app_nil_r. by destruct s.
Qed.

(** X2.  A series of [DataChangeCallback] calls appends to the data-change
    queue, in the order of the calls, one entry per call whose item is in
    [MonitoredItemsMap], carrying the client handle of the item and the
    value of the call; a call for an unknown item adds nothing; nothing
    else of the subscription changes.  The next emission reports the
    queue in that order. *)
Theorem data_changes_reported_in_order (now : Z) (s : InternalSubscription)
  (calls : list (Z * DataValue)) :
  let s' := foldl (fun s0 c => DataChangeCallback s0 c.1 c.2) s calls in
  let queue := MonitoredItemsTriggered s
               ++ omap (callback_entry (MonitoredItemsMap s)) calls in
  s' = set_MonitoredItemsTriggered queue s
  /\ (queue ≠ [] ->
      exists r rest, fst (PopPublishResult now s') = [r]
                     /\ msg_Data (Message r) = DataChangeNotification queue :: rest).
Proof.
  intros s' queue.
  assert (Hs' : s' = set_MonitoredItemsTriggered queue s).
  { subst s' queue. revert s. induction calls as [|[m_id value] calls IH]; intros s.
    - simpl. rewrite app_nil_r. by destruct s.
    - cbn [foldl]. rewrite IH. cbn [fst snd]. rewrite DataChangeCallback_frame.
      unfold set_MonitoredItemsTriggered; simpl.
      destruct (callback_entry (MonitoredItemsMap s) (m_id, value)); simpl;
        by rewrite <- ?app_assoc. }
  split; [exact Hs'|]. intros Hne.
  destruct (PopPublishResult_drains now s') as (r & Hr & Hdata & _).
  exists r. rewrite Hs' in Hdata. simpl in Hdata.
  destruct queue; [contradiction|]. simpl in Hdata.
  eexists. split; [exact Hr | exact Hdata].
Qed.

(** ** Deleting monitored items *)

Lemma first_mention_cons {V : Type} (m : gmap Z V) (hd : Z) (rest : list Z)
  (i : nat) (id : Z) :
  first_mention (delete hd m) rest i id <-> first_mention m (hd :: rest) (S i) id.
Proof.
  unfold first_mention. cbn [take]. rewrite lookup_delete, elem_of_cons.
  destruct (decide (hd = id)) as [->|Hne].
  - split; [intros [[? [=]] _] | intros [_ Hn]; destruct Hn; by left].
  - split; intros [Hs Hn]; (split; [exact Hs|]); [intros [?|?]; congruence | tauto].
Qed.

Lemma omap_registered_handle_delete (items : gmap Z DataMonitoredItems)
  (hd : Z) (rest : list Z) :
  hd ∉ rest ->
  omap (registered_handle (delete hd items)) rest = omap (registered_handle items) rest.
Proof.
  induction rest as [|id rest IH]; intros Hnotin; [reflexivity|].
  apply not_elem_of_cons in Hnotin as [Hne Hnotin].
  assert (Hsame : registered_handle (delete hd items) id = registered_handle items id).
  { unfold registered_handle. by rewrite lookup_delete_ne. }
  csimpl. rewrite Hsame, (IH Hnotin). reflexivity.
Qed.

Section DeletingItems.

Context {A : Type} `{!AddressSpaceOps A}.

Lemma DeleteMonitoredItemsId_effect (s : InternalSubscription) (a : A) (handle : Z) :
  (DeleteMonitoredItemsId s a handle).1.1
  = (if decide (is_Some (MonitoredItemsMap s !! handle)) then Good
     else BadMonitoredItemIdInvalid)
  /\ MonitoredItemsMap (DeleteMonitoredItemsId s a handle).1.2
     = delete handle (MonitoredItemsMap s)
  /\ MonitoredEvents (DeleteMonitoredItemsId s a handle).1.2
     = erase_monitored_event handle (MonitoredEvents s)
  /\ set_MonitoredItemsMap (MonitoredItemsMap s)
       (set_MonitoredEvents (MonitoredEvents s) (DeleteMonitoredItemsId s a handle).1.2)
     = s
  /\ (DeleteMonitoredItemsId s a handle).2
     = foldl DeleteDataChangeCallback a
             (option_list (registered_handle (MonitoredItemsMap s) handle)).
Proof.
  unfold DeleteMonitoredItemsId, registered_handle. simpl.
  destruct (MonitoredItemsMap s !! handle) as [item|] eqn:Hitem; simpl.
  - repeat split; try by destruct s.
    by destruct (CallbackHandle item =? 0).
  - rewrite delete_id by assumption. repeat split; by destruct s.
Qed.

Lemma DeleteMonitoredItemsIds_effect (ids : list Z) :
  forall (s : InternalSubscription) (a : A),
    (forall (i : nat) (id : Z), ids !! i = Some id ->
        (DeleteMonitoredItemsIds s a ids).1.1 !! i
        = Some (if decide (first_mention (MonitoredItemsMap s) ids i id) then Good
                else BadMonitoredItemIdInvalid))
    /\ (forall id : Z,
          MonitoredItemsMap (DeleteMonitoredItemsIds s a ids).1.2 !! id
          = if decide (id ∈ ids) then None else MonitoredItemsMap s !! id)
    /\ set_MonitoredItemsMap (MonitoredItemsMap s)
         (set_MonitoredEvents (MonitoredEvents s) (DeleteMonitoredItemsIds s a ids).1.2)
       = s
    /\ (NoDup ids ->
        (DeleteMonitoredItemsIds s a ids).2
        = foldl DeleteDataChangeCallback a
                (omap (registered_handle (MonitoredItemsMap s)) ids)).
Proof.
  induction ids as [|hd rest IH]; intros s a.
  - simpl. split; [intros i id [=]|]. split; [reflexivity|].
    split; [by destruct s | reflexivity].
  - cbn [DeleteMonitoredItemsIds].
    destruct (DeleteMonitoredItemsId_effect s a hd) as (Hst & Hmap & _ & Hframe & Haddr).
    destruct (DeleteMonitoredItemsId s a hd) as [[st s1] a1]. simpl in Hst, Hmap, Hframe, Haddr.
    destruct (IH s1 a1) as (IHst & IHmap & IHframe & IHaddr).
    destruct (DeleteMonitoredItemsIds s1 a1 rest) as [[results s2] a2].
    simpl in *. split; [|split; [|split]].
    + intros [|i] id Hid; simpl in Hid.
      * injection Hid as ->. simpl. rewrite Hst. f_equal.
        unfold first_mention. cbn [take].
        destruct (decide (is_Some (MonitoredItemsMap s !! id))) as [Hs|Hs].
        -- rewrite decide_True; [reflexivity|]. split; [exact Hs | apply not_elem_of_nil].
        -- rewrite decide_False; [reflexivity | tauto].
      * change ((st :: results) !! S i) with (results !! i).
        rewrite (IHst i id Hid), Hmap. f_equal.
        destruct (decide (first_mention (delete hd (MonitoredItemsMap s)) rest i id)) as [Hf|Hf].
        -- rewrite decide_True; [reflexivity | by apply first_mention_cons].
        -- rewrite decide_False; [reflexivity|]. by rewrite <- first_mention_cons.
    + intros id. rewrite IHmap, Hmap, lookup_delete.
      destruct (decide (id ∈ rest)) as [Hin|Hin].
      * rewrite decide_True by (by right). reflexivity.
      * destruct (decide (hd = id)) as [->|Hne].
        -- rewrite decide_True by (by left). reflexivity.
        -- rewrite decide_False; [reflexivity|].
           intros [?|?]%elem_of_cons; congruence.
    + transitivity (set_MonitoredItemsMap (MonitoredItemsMap s)
                      (set_MonitoredEvents (MonitoredEvents s) s1)); [|exact Hframe].
      rewrite <- IHframe. reflexivity.
    + intros Hnodup. apply NoDup_cons in Hnodup as [Hnotin Hnodup].
      rewrite (IHaddr Hnodup), Haddr, Hmap.
      rewrite (omap_registered_handle_delete _ _ _ Hnotin).
      by destruct (registered_handle (MonitoredItemsMap s) hd).
Qed.

End DeletingItems.

Lemma keys_in_order_spec {V : Type} (m : gmap Z V) :
  NoDup (keys_in_order m)
  /\ Sorted Z.le (keys_in_order m)
  /\ forall k : Z, k ∈ keys_in_order m <-> is_Some (m !! k).
Proof.
  unfold keys_in_order. split; [|split].
  - rewrite merge_sort_Permutation. apply NoDup_fst_map_to_list.
  - apply Sorted_merge_sort. intros x y. lia.
  - intros k. rewrite merge_sort_Permutation.
    change (map fst (map_to_list m)) with ((map_to_list m).*1).
    rewrite list_elem_of_fmap. split.
    + intros ([k' v] & -> & Hin). apply elem_of_map_to_list in Hin. by exists v.
    + intros [v Hv]. exists (k, v). split; [reflexivity|]. by apply elem_of_map_to_list.
Qed.

Section DeletingItemsProperties.

Context {A : Type} `{!AddressSpaceOps A}.

(** X3.  [DeleteMonitoredItemsIds] answers the [i]-th id with [Good] when
    the id names a monitored item that no earlier id of the same list has
    already deleted, and with [BadMonitoredItemIdInvalid] otherwise (an
    unknown id, or an id repeated in the list).  Afterwards no id of the
    list is in [MonitoredItemsMap] and every other item is still there;
    apart from the two maps the subscription is as before: the id counter
    is not given back and entries already queued stay queued.  For a list
    without repetition the address space is handed, in list order, exactly
    the non-zero callback handles of the deleted items. *)
Theorem delete_monitored_items_ids_effect (s : InternalSubscription) (a : A)
  (ids : list Z) :
  (forall (i : nat) (id : Z), ids !! i = Some id ->
      (DeleteMonitoredItemsIds s a ids).1.1 !! i
      = Some (if decide (first_mention (MonitoredItemsMap s) ids i id) then Good
              else BadMonitoredItemIdInvalid))
  /\ (forall id : Z,
        MonitoredItemsMap (DeleteMonitoredItemsIds s a ids).1.2 !! id
        = if decide (id ∈ ids) then None else MonitoredItemsMap s !! id)
  /\ set_MonitoredItemsMap (MonitoredItemsMap s)
       (set_MonitoredEvents (MonitoredEvents s) (DeleteMonitoredItemsIds s a ids).1.2)
     = s
  /\ (NoDup ids ->
      (DeleteMonitoredItemsIds s a ids).2
      = foldl DeleteDataChangeCallback a
              (omap (registered_handle (MonitoredItemsMap s)) ids)).
Proof. apply DeleteMonitoredItemsIds_effect. Qed.

(** X4.  Once [DeleteMonitoredItemsIds] has run, a [DataChangeCallback]
    that still arrives for one of the ids is dropped: the subscription is
    left exactly as it is.  What the deleted items had queued before is
    not purged and is reported by the next emission. *)
Theorem callback_after_delete_is_dropped (s : InternalSubscription) (a : A)
  (ids : list Z) (id : Z) (value : DataValue) :
  id ∈ ids ->
  let s' := (DeleteMonitoredItemsIds s a ids).1.2 in
  DataChangeCallback s' id value = s'
  /\ MonitoredItemsTriggered s' = MonitoredItemsTriggered s
  /\ EventTriggered s' = EventTriggered s.
Proof.
  intros Hin s'.
  destruct (DeleteMonitoredItemsIds_effect ids s a) as (_ & Hmap & Hframe & _).
  fold s' in Hmap, Hframe. split.
  - unfold DataChangeCallback. rewrite Hmap. by rewrite decide_True.
  - pose proof (f_equal MonitoredItemsTriggered Hframe) as Hq.
    pose proof (f_equal EventTriggered Hframe) as He.
    by split.
Qed.

Lemma DeleteAllMonitoredItems_effect (s : InternalSubscription) (a : A) :
  MonitoredItemsMap (DeleteAllMonitoredItems s a).1 = ∅
  /\ (DeleteAllMonitoredItems s a).2
     = foldl DeleteDataChangeCallback a
             (omap (registered_handle (MonitoredItemsMap s))
                   (keys_in_order (MonitoredItemsMap s)))
  /\ set_MonitoredItemsMap (MonitoredItemsMap s)
       (set_MonitoredEvents (MonitoredEvents s) (DeleteAllMonitoredItems s a).1)
     = s
  /\ (InternalSubscription_destroy s a).2 = (DeleteAllMonitoredItems s a).2.
Proof.
  unfold InternalSubscription_destroy, DeleteAllMonitoredItems.
  destruct (keys_in_order_spec (MonitoredItemsMap s)) as (Hnodup & _ & Hkeys).
  destruct (DeleteMonitoredItemsIds_effect (keys_in_order (MonitoredItemsMap s)) s a)
    as (_ & Hmap & Hframe & Haddr).
  destruct (DeleteMonitoredItemsIds s a (keys_in_order (MonitoredItemsMap s)))
    as [[results s'] a'].
  simpl in *. split; [|split; [by apply Haddr|split; [exact Hframe | reflexivity]]].
  apply map_eq. intros id. rewrite Hmap, lookup_empty.
  destruct (decide (id ∈ keys_in_order (MonitoredItemsMap s))) as [|Hnotin]; [reflexivity|].
  rewrite Hkeys in Hnotin. by apply eq_None_not_Some.
Qed.

(** X5.  [DeleteAllMonitoredItems], the first half of the destructor,
    leaves [MonitoredItemsMap] empty and hands the address space every
    non-zero callback handle of the subscription, once each, in ascending
    order of the item ids; queues and counters are not touched. *)
Theorem delete_all_monitored_items_effect (s : InternalSubscription) (a : A) :
  MonitoredItemsMap (DeleteAllMonitoredItems s a).1 = ∅
  /\ (DeleteAllMonitoredItems s a).2
     = foldl DeleteDataChangeCallback a
             (omap (registered_handle (MonitoredItemsMap s))
                   (keys_in_order (MonitoredItemsMap s)))
  /\ set_MonitoredItemsMap (MonitoredItemsMap s)
       (set_MonitoredEvents (MonitoredEvents s) (DeleteAllMonitoredItems s a).1)
     = s
  /\ (InternalSubscription_destroy s a).2 = (DeleteAllMonitoredItems s a).2.
Proof. apply DeleteAllMonitoredItems_effect. Qed.

End DeletingItemsProperties.

(** ** Creating monitored items *)

Section CreatingItems.

Context {A : Type} `{!AddressSpaceOps A}.

Lemma CreateMonitoredItem_data_Some (s : InternalSubscription) (a : A)
  (request : MonitoredItemRequest) (v : DataValue) (vals : list DataValue) :
  let node := Node (ItemToMonitor request) in
  let attr := Attribute (ItemToMonitor request) in
  attr ≠ EVENT_NOTIFIER ->
  (AddDataChangeCallback a node attr).1 ≠ 0 ->
  Read (AddDataChangeCallback a node attr).2 [ItemToMonitor request] = v :: vals ->
  CreateMonitoredItem s a request
  = Some (dm_Parameters (stored_item s request (AddDataChangeCallback a node attr).1),
          set_MonitoredItemsTriggered
            (MonitoredItemsTriggered s
               ++ [mkMonitoredItems (mp_ClientHandle (req_Parameters request)) v])
            (set_MonitoredItemsMap
               (<[incr32 (LastMonitoredItemID s)
                  := stored_item s request (AddDataChangeCallback a node attr).1]>
                  (MonitoredItemsMap s))
               (set_LastMonitoredItemID (incr32 (LastMonitoredItemID s)) s)),
          (AddDataChangeCallback a node attr).2).
Proof.
  intros node attr Hattr Hh Hread. unfold CreateMonitoredItem. fold node attr.
  destruct (decide (attr = EVENT_NOTIFIER)) as [|_]; [contradiction|].
  destruct (AddDataChangeCallback a node attr) as [h a1]. simpl in *.
  destruct (Z.eqb_spec h 0) as [|_]; [contradiction|].
  unfold CreateMonitoredItem_register, TriggerDataChangeEvent. rewrite Hread.
  reflexivity.
Qed.

Lemma CreateMonitoredItem_event_Some (s : InternalSubscription) (a : A)
  (request : MonitoredItemRequest) (v : DataValue) (vals : list DataValue) :
  Attribute (ItemToMonitor request) = EVENT_NOTIFIER ->
  Read a [ItemToMonitor request] = v :: vals ->
  CreateMonitoredItem s a request
  = Some (dm_Parameters (stored_item s request 0),
          set_MonitoredItemsTriggered
            (MonitoredItemsTriggered s
               ++ [mkMonitoredItems (mp_ClientHandle (req_Parameters request)) v])
            (set_MonitoredItemsMap
               (<[incr32 (LastMonitoredItemID s) := stored_item s request 0]>
                  (MonitoredItemsMap s))
               (set_MonitoredEvents
                  (<[Node (ItemToMonitor request) := incr32 (LastMonitoredItemID s)]>
                     (MonitoredEvents s))
                  (set_LastMonitoredItemID (incr32 (LastMonitoredItemID s)) s))),
          a).
Proof.
  intros Hattr Hread. unfold CreateMonitoredItem.
  destruct (decide (Attribute (ItemToMonitor request) = EVENT_NOTIFIER)) as [_|];
    [|contradiction].
  unfold CreateMonitoredItem_register, TriggerDataChangeEvent. rewrite Hread.
  reflexivity.
Qed.

End CreatingItems.

Lemma erase_monitored_event_unique (handle : Z) (m : gmap NodeId Z) (node : NodeId) :
  m !! node = Some handle ->
  (forall k : NodeId, m !! k = Some handle -> k = node) ->
  erase_monitored_event handle m = delete node m.
Proof.
  intros Hnode Huniq. unfold erase_monitored_event.
  destruct (List.find _ (map_to_list m)) as [[k v]|] eqn:Hfind.
  - apply find_some in Hfind as [Hin Hv]. apply bool_decide_eq_true in Hv.
    apply list_elem_of_In, elem_of_map_to_list in Hin. simpl in *. subst v.
    by rewrite (Huniq k Hin).
  - pose proof (find_none _ _ Hfind (node, handle)) as Hnone.
    rewrite <- list_elem_of_In, elem_of_map_to_list in Hnone.
    specialize (Hnone Hnode). simpl in Hnone.
    by apply bool_decide_eq_false in Hnone.
Qed.

Lemma erase_monitored_event_absent (handle : Z) (m : gmap NodeId Z) :
  (forall k : NodeId, m !! k ≠ Some handle) ->
  erase_monitored_event handle m = m.
Proof.
  intros Habsent. unfold erase_monitored_event.
  destruct (List.find _ (map_to_list m)) as [[k v]|] eqn:Hfind; [|reflexivity].
  apply find_some in Hfind as [Hin Hv]. apply bool_decide_eq_true in Hv.
  apply list_elem_of_In, elem_of_map_to_list in Hin. simpl in *. subst v.
  by destruct (Habsent k).
Qed.

Section ItemLifecycles.

Context {A : Type} `{!AddressSpaceOps A}.

(** X6.  A request for a data attribute that the address space accepts
    (non-zero handle, non-empty read) gets status [Good], the next id of
    the counter, the publishing interval of the subscription as sampling
    interval and its own queue size back; the value read is queued under
    the client handle of the request.  From then on a [DataChangeCallback]
    for the id queues the value it is given under the same client handle.
    Deleting the id returns [Good], unregisters the handle the address
    space had returned, restores [MonitoredItemsMap] when the id was free
    before, and does not give the id back to the counter. *)
Theorem data_item_round_trip (s : InternalSubscription) (a : A)
  (request : MonitoredItemRequest) (v : DataValue) (vals : list DataValue) :
  let node := Node (ItemToMonitor request) in
  let attr := Attribute (ItemToMonitor request) in
  let h := (AddDataChangeCallback a node attr).1 in
  let a1 := (AddDataChangeCallback a node attr).2 in
  let id := incr32 (LastMonitoredItemID s) in
  let handle := mp_ClientHandle (req_Parameters request) in
  attr ≠ EVENT_NOTIFIER ->
  h ≠ 0 ->
  Read a1 [ItemToMonitor request] = v :: vals ->
  exists result s1,
    CreateMonitoredItem s a request = Some (result, s1, a1)
    /\ Status result = Good
    /\ MonitoredItemID result = id
    /\ RevisedSamplingInterval result = RevisedPublishingInterval (Data s)
    /\ RevizedQueueSize result = QueueSize (req_Parameters request)
    /\ MonitoredItemsTriggered s1
       = MonitoredItemsTriggered s ++ [mkMonitoredItems handle v]
    /\ MonitoredEvents s1 = MonitoredEvents s
    /\ (forall value : DataValue,
          DataChangeCallback s1 id value
          = set_MonitoredItemsTriggered
              (MonitoredItemsTriggered s1 ++ [mkMonitoredItems handle value]) s1)
    /\ (DeleteMonitoredItemsIds s1 a1 [id]).1.1 = [Good]
    /\ (DeleteMonitoredItemsIds s1 a1 [id]).2 = DeleteDataChangeCallback a1 h
    /\ LastMonitoredItemID (DeleteMonitoredItemsIds s1 a1 [id]).1.2 = id
    /\ (MonitoredItemsMap s !! id = None ->
        MonitoredItemsMap (DeleteMonitoredItemsIds s1 a1 [id]).1.2 = MonitoredItemsMap s).
Proof.
  intros node attr h a1 id handle Hattr Hh Hread.
  pose proof (CreateMonitoredItem_data_Some s a request v vals Hattr Hh Hread) as Hcreate.
  fold node attr h a1 id in Hcreate. fold handle in Hcreate.
  eexists _, _. split; [exact Hcreate|].
  do 6 (split; [reflexivity|]).
  split; [|split; [|split; [|split]]].
  - intros value. unfold DataChangeCallback. simpl. by rewrite lookup_insert_eq.
  - simpl. unfold DeleteMonitoredItemsId. simpl. by rewrite lookup_insert_eq.
  - simpl. unfold DeleteMonitoredItemsId. simpl. rewrite lookup_insert_eq. simpl.
    by destruct (Z.eqb_spec h 0).
  - simpl. unfold DeleteMonitoredItemsId. simpl. by rewrite lookup_insert_eq.
  - intros Hfree. simpl. unfold DeleteMonitoredItemsId. simpl.
    rewrite lookup_insert_eq. simpl. by rewrite delete_insert_id.
Qed.

(** X7.  A request for the event notifier gets status [Good] and the next
    id without any registration in the address space; the value read for
    the attribute is queued as a data change all the same.  An event then
    triggered on the node appends one field list to the event queue, with
    the client handle of the request and the fields its filter selects;
    events on other nodes are routed as before.  After the item is deleted
    (its id being the value of no other node), events on the node are
    dropped, and the address space is not called. *)
Theorem event_item_lifecycle (s : InternalSubscription) (a : A)
  (request : MonitoredItemRequest) (v : DataValue) (vals : list DataValue)
  (event : Event) :
  let node := Node (ItemToMonitor request) in
  let id := incr32 (LastMonitoredItemID s) in
  let handle := mp_ClientHandle (req_Parameters request) in
  Attribute (ItemToMonitor request) = EVENT_NOTIFIER ->
  Read a [ItemToMonitor request] = v :: vals ->
  (forall k : NodeId, MonitoredEvents s !! k ≠ Some id) ->
  exists result s1,
    CreateMonitoredItem s a request = Some (result, s1, a)
    /\ Status result = Good
    /\ MonitoredItemID result = id
    /\ MonitoredItemsTriggered s1
       = MonitoredItemsTriggered s ++ [mkMonitoredItems handle v]
    /\ Sub_TriggerEvent s1 node event
       = set_EventTriggered
           (EventTriggered s1
              ++ [mkEventFieldList handle
                    (GetEventFields (mf_Event (mp_Filter (req_Parameters request))) event)])
           s1
    /\ (forall other : NodeId, other ≠ node ->
          MonitoredEvents s1 !! other = MonitoredEvents s !! other)
    /\ (DeleteMonitoredItemsIds s1 a [id]).1.1 = [Good]
    /\ (DeleteMonitoredItemsIds s1 a [id]).2 = a
    /\ Sub_TriggerEvent (DeleteMonitoredItemsIds s1 a [id]).1.2 node event
       = (DeleteMonitoredItemsIds s1 a [id]).1.2.
Proof.
  intros node id handle Hattr Hread Hfresh.
  pose proof (CreateMonitoredItem_event_Some s a request v vals Hattr Hread) as Hcreate.
  fold node id in Hcreate. fold handle in Hcreate.
  eexists _, _. split; [exact Hcreate|].
  do 3 (split; [reflexivity|]).
  assert (Herase : erase_monitored_event id (<[node := id]> (MonitoredEvents s))
                   = delete node (MonitoredEvents s)).
  { rewrite (erase_monitored_event_unique id _ node).
    - by rewrite delete_insert_eq.
    - by rewrite lookup_insert_eq.
    - intros k. rewrite lookup_insert. destruct (decide (node = k)); [done|].
      intros Hk. by destruct (Hfresh k). }
  split; [|split; [|split; [|split]]].
  - unfold Sub_TriggerEvent, EnqueueEvent. simpl. by rewrite !lookup_insert_eq.
  - intros other Hne. simpl. by rewrite lookup_insert_ne.
  - simpl. unfold DeleteMonitoredItemsId. simpl. by rewrite lookup_insert_eq.
  - simpl. unfold DeleteMonitoredItemsId. simpl. by rewrite lookup_insert_eq.
  - simpl. unfold DeleteMonitoredItemsId. simpl. rewrite lookup_insert_eq. simpl.
    unfold Sub_TriggerEvent. simpl. rewrite Herase. by rewrite lookup_delete_eq.
Qed.

End ItemLifecycles.

Section ItemIdentities.

Context {A : Type} `{!AddressSpaceOps A}.

(** X8.  A second event item on a node takes the node over: after two
    accepted event-notifier requests for the same node, an event on the
    node is queued once, under the client handle and filter of the second
    request, although the first item is still in [MonitoredItemsMap].
    Deleting the second item then leaves the node without event
    subscription: events on it are dropped, and the first item, still
    registered, receives nothing. *)
Theorem later_event_item_takes_over (s : InternalSubscription) (a : A)
  (request1 request2 : MonitoredItemRequest) (v1 v2 : DataValue)
  (vals1 vals2 : list DataValue) (event : Event) :
  let node := Node (ItemToMonitor request1) in
  let id1 := incr32 (LastMonitoredItemID s) in
  let id2 := incr32 id1 in
  Attribute (ItemToMonitor request1) = EVENT_NOTIFIER ->
  Attribute (ItemToMonitor request2) = EVENT_NOTIFIER ->
  Node (ItemToMonitor request2) = node ->
  Read a [ItemToMonitor request1] = v1 :: vals1 ->
  Read a [ItemToMonitor request2] = v2 :: vals2 ->
  (forall k : NodeId, MonitoredEvents s !! k ≠ Some id2) ->
  exists r1 s1 r2 s2,
    CreateMonitoredItem s a request1 = Some (r1, s1, a)
    /\ CreateMonitoredItem s1 a request2 = Some (r2, s2, a)
    /\ MonitoredItemID r1 = id1 /\ MonitoredItemID r2 = id2
    /\ is_Some (MonitoredItemsMap s2 !! id1)
    /\ Sub_TriggerEvent s2 node event
       = set_EventTriggered
           (EventTriggered s2
              ++ [mkEventFieldList (mp_ClientHandle (req_Parameters request2))
                    (GetEventFields (mf_Event (mp_Filter (req_Parameters request2)))
                                    event)])
           s2
    /\ is_Some (MonitoredItemsMap (DeleteMonitoredItemsIds s2 a [id2]).1.2 !! id1)
    /\ Sub_TriggerEvent (DeleteMonitoredItemsIds s2 a [id2]).1.2 node event
       = (DeleteMonitoredItemsIds s2 a [id2]).1.2.
Proof.
  intros node id1 id2 Hattr1 Hattr2 Hnode Hread1 Hread2 Hfresh.
  pose proof (CreateMonitoredItem_event_Some s a request1 v1 vals1 Hattr1 Hread1) as Hc1.
  fold node id1 in Hc1.
  eexists _, _. 
  match type of Hc1 with _ = Some (_, ?s1, _) =>
    pose proof (CreateMonitoredItem_event_Some s1 a request2 v2 vals2 Hattr2 Hread2) as Hc2
  end.
  rewrite Hnode in Hc2. cbn [LastMonitoredItemID set_MonitoredItemsTriggered
    set_MonitoredItemsMap set_MonitoredEvents set_LastMonitoredItemID] in Hc2.
  fold id2 in Hc2.
  eexists _, _. split; [exact Hc1|]. split; [exact Hc2|].
  assert (Hne : id2 ≠ id1) by apply incr32_neq.
  assert (Herase : erase_monitored_event id2
                     (<[node := id2]> (<[node := id1]> (MonitoredEvents s)))
                   = delete node (MonitoredEvents s)).
  { rewrite (erase_monitored_event_unique id2 _ node).
    - by rewrite !delete_insert_eq.
    - by rewrite lookup_insert_eq.
    - intros k. rewrite lookup_insert. destruct (decide (node = k)); [done|].
      rewrite lookup_insert_ne by done. intros Hk. by destruct (Hfresh k). }
  split; [reflexivity|]. split; [reflexivity|].
  split; [|split; [|split]].
  - simpl. rewrite lookup_insert_ne by done. rewrite lookup_insert_eq. by eexists.
  - unfold Sub_TriggerEvent, EnqueueEvent. simpl. by rewrite !lookup_insert_eq.
  - simpl. unfold DeleteMonitoredItemsId. simpl. rewrite lookup_insert_eq. simpl.
    rewrite lookup_delete_ne by done. rewrite lookup_insert_ne by done.
    rewrite lookup_insert_eq. by eexists.
  - simpl. unfold DeleteMonitoredItemsId. simpl. rewrite lookup_insert_eq. simpl.
    unfold Sub_TriggerEvent. simpl. rewrite Herase. by rewrite lookup_delete_eq.
Qed.

(** X9.  In a batch, the id reported with a [BadNodeAttributesInvalid]
    result is handed out again: when the address space refuses the first
    item and accepts the second, both results of the loop of
    [CreateMonitoredItems] over the items to create carry the same
    [MonitoredItemID], the first with status [BadNodeAttributesInvalid]
    and the second with [Good]. *)
Theorem refused_item_id_is_reused (s : InternalSubscription) (a : A)
  (request1 request2 : MonitoredItemRequest) (v : DataValue) (vals : list DataValue) :
  let a1 := (AddDataChangeCallback a (Node (ItemToMonitor request1))
                                     (Attribute (ItemToMonitor request1))).2 in
  let reply2 := AddDataChangeCallback a1 (Node (ItemToMonitor request2))
                                         (Attribute (ItemToMonitor request2)) in
  Attribute (ItemToMonitor request1) ≠ EVENT_NOTIFIER ->
  Attribute (ItemToMonitor request2) ≠ EVENT_NOTIFIER ->
  (AddDataChangeCallback a (Node (ItemToMonitor request1))
                           (Attribute (ItemToMonitor request1))).1 = 0 ->
  reply2.1 ≠ 0 ->
  Read reply2.2 [ItemToMonitor request2] = v :: vals ->
  is_u32 (LastMonitoredItemID s) ->
  exists r1 r2 s2,
    CreateMonitoredItems_loop s a [request1; request2] = Some ([r1; r2], s2, reply2.2)
    /\ Status r1 = BadNodeAttributesInvalid
    /\ Status r2 = Good
    /\ MonitoredItemID r1 = incr32 (LastMonitoredItemID s)
    /\ MonitoredItemID r2 = incr32 (LastMonitoredItemID s)
    /\ is_Some (MonitoredItemsMap s2 !! incr32 (LastMonitoredItemID s)).
Proof.
  intros a1 reply2 Hattr1 Hattr2 Hzero Hh Hread Hu32.
  pose proof (CreateMonitoredItem_data_Some s a1 request2 v vals Hattr2 Hh Hread) as Hc2.
  assert (Hc1 : CreateMonitoredItem s a request1
                = Some (set_Status BadNodeAttributesInvalid
                          (set_MonitoredItemID (incr32 (LastMonitoredItemID s))
                             CreateMonitoredItemsResult_default), s, a1)).
  { unfold CreateMonitoredItem. subst a1.
    destruct (decide (Attribute (ItemToMonitor request1) = EVENT_NOTIFIER)) as [|_];
      [contradiction|].
    destruct (AddDataChangeCallback a _ _) as [h0 a0]. simpl in Hzero. subst h0. simpl.
    do 3 f_equal. unfold set_LastMonitoredItemID. simpl.
    rewrite decr32_incr32 by assumption. by destruct s. }
  cbn [CreateMonitoredItems_loop]. rewrite Hc1, Hc2.
  eexists _, _, _. split; [reflexivity|].
  do 4 (split; [reflexivity|]).
  simpl. rewrite lookup_insert_eq. by eexists.
Qed.

End ItemIdentities.

(** ** Publish requests *)

Lemma filter_always {X : Type} (l : list X) : filter (fun _ => True) l = l.
Proof.
  induction l as [|x l IH]; [reflexivity|].
  rewrite filter_cons_True by done. by rewrite IH.
Qed.

Lemma route_acknowledgements_effect (acks : list SubscriptionAcknowledgement) :
  forall (subs : gmap Z InternalSubscription) (subid : Z),
    foldl route_acknowledgement subs acks !! subid
    = without_acknowledged acks subid <$> subs !! subid.
Proof.
  induction acks as [|ack acks IH]; intros subs subid.
  - simpl. destruct (subs !! subid) as [sub|]; [|reflexivity]. simpl. f_equal.
    unfold without_acknowledged, acknowledged.
    rewrite (list_filter_iff _ (fun _ => True)).
    + rewrite filter_always. by destruct sub.
    + intros res. split; [done|]. intros _ Hex. by apply Exists_nil in Hex.
  - cbn [foldl]. rewrite IH. unfold route_acknowledgement.
    assert (Hstep : forall sub : InternalSubscription,
               without_acknowledged acks subid
                 (if decide (ack_SubscriptionId ack = subid)
                  then NewAcknowlegment sub ack else sub)
               = without_acknowledged (ack :: acks) subid sub).
    { intros sub. unfold without_acknowledged, acknowledged.
      destruct (decide (ack_SubscriptionId ack = subid)) as [Heq|Hne].
      - unfold NewAcknowlegment, set_NotAcknowledgedResults. simpl. f_equal.
        rewrite list_filter_filter. apply list_filter_iff. intros res.
        rewrite Exists_cons. split.
        + intros [Hrest Hhd] [[_ Hseq]|Hex]; [congruence | contradiction].
        + intros Hn. split; [tauto|]. intros Hseq. apply Hn. left. by split.
      - f_equal. apply list_filter_iff. intros res. rewrite Exists_cons. tauto. }
    destruct (subs !! ack_SubscriptionId ack) as [target|] eqn:Htarget.
    + destruct (decide (ack_SubscriptionId ack = subid)) as [Heq|Hne].
      * subst subid. rewrite lookup_insert_eq, Htarget. simpl. f_equal.
        specialize (Hstep target).
        try rewrite decide_True in Hstep by done. exact Hstep.
      * rewrite lookup_insert_ne by done.
        destruct (subs !! subid) as [sub|]; [|reflexivity]. simpl. f_equal.
        specialize (Hstep sub).
        try rewrite decide_False in Hstep by done. exact Hstep.
    + destruct (subs !! subid) as [sub|] eqn:Hsub; [|reflexivity]. simpl. f_equal.
      specialize (Hstep sub). rewrite decide_False in Hstep by congruence. exact Hstep.
Qed.

(** X10.  [Publish] routes the acknowledgements of the request: in every
    subscription of the registry the not-acknowledged results named by an
    acknowledgement (same subscription id, same sequence id) are removed,
    the others are kept in order, and nothing else of the subscription
    changes; acknowledgements for ids that are not in the registry are
    ignored, no subscription is added or removed, and a subscription no
    acknowledgement names keeps its list.  The id counter of the service
    is not touched. *)
Theorem publish_routes_acknowledgements (svc : SubscriptionServiceInternal)
  (request : PublishRequest) (subid : Z) :
  SubscriptionsMap (Publish svc request) !! subid
  = without_acknowledged (SubscriptionAcknowledgements request) subid
      <$> SubscriptionsMap svc !! subid
  /\ (Forall (fun ack => ack_SubscriptionId ack ≠ subid)
             (SubscriptionAcknowledgements request) ->
      SubscriptionsMap (Publish svc request) !! subid = SubscriptionsMap svc !! subid)
  /\ LastSubscriptionId (Publish svc request) = LastSubscriptionId svc.
Proof.
  assert (Hroute : SubscriptionsMap (Publish svc request) !! subid
                   = without_acknowledged (SubscriptionAcknowledgements request) subid
                       <$> SubscriptionsMap svc !! subid)
    by apply route_acknowledgements_effect.
  split; [exact Hroute|]. split; [|reflexivity].
  intros Hnone. rewrite Hroute.
  destruct (SubscriptionsMap svc !! subid) as [sub|]; [|reflexivity]. simpl. f_equal.
  unfold without_acknowledged, acknowledged.
  rewrite (list_filter_iff _ (fun _ => True)).
  - rewrite filter_always. by destruct sub.
  - intros res. split; [done|]. intros _ Hex.
    apply Exists_exists in Hex as (ack & Hin & Hid & _).
    rewrite Forall_forall in Hnone. by apply (Hnone ack).
Qed.

(** ** One run of the timer handler *)

Lemma HasPublishResult_snd (s : InternalSubscription) :
  snd (HasPublishResult s)
  = (if fst (HasPublishResult s) then s
     else set_KeepAliveCount (incr32 (KeepAliveCount s)) s)
  /\ (fst (HasPublishResult s) = false ->
      Startup s = false /\ MonitoredItemsTriggered s = [] /\ EventTriggered s = []
      /\ KeepAliveCount s <= RevizedMaxKeepAliveCount (Data s)).
Proof.
  unfold HasPublishResult.
  destruct (Startup s) eqn:Hs; [by split|].
  destruct (MonitoredItemsTriggered s) eqn:Hq; [|by split].
  destruct (EventTriggered s) eqn:He; [|by split]. simpl.
  destruct (Z.gtb_spec (KeepAliveCount s) (RevizedMaxKeepAliveCount (Data s)));
    simpl; [by split|].
  split; [reflexivity|]. intros _. repeat split. lia.
Qed.

(** What one run of the handler does, case by case. *)
Lemma PublishResults_cases (error : bool) (now : Z) (s : InternalSubscription)
  (svc : SubscriptionServiceInternal) :
  (* the error or expiry branch *)
  ((error = true \/ HasExpired s = true)
   /\ PublishResults error now s svc = (set_Timer TimerNoWait true s, svc, [], []))
  (* nothing to send: the tick is counted *)
  \/ (error = false /\ HasExpired s = false /\ fst (HasPublishResult s) = false
      /\ PublishResults error now s svc
         = (set_Timer TimerWaiting false
              (set_KeepAliveCount (incr32 (KeepAliveCount s)) s), svc, [], []))
  (* something to send, no publish request *)
  \/ (error = false /\ HasExpired s = false /\ fst (HasPublishResult s) = true
      /\ fst (PopPublishRequest svc (CurrentSession s)) = false
      /\ PublishResults error now s svc = (set_Timer TimerWaiting false s, svc, [], []))
  (* emission *)
  \/ (error = false /\ HasExpired s = false /\ fst (HasPublishResult s) = true
      /\ exists (c : Z) (r : PublishResult),
           PublishRequestQueues svc !! CurrentSession s = Some c /\ c ≠ 0
           /\ fst (PopPublishResult now s) = [r]
           /\ PublishResults error now s svc
              = (set_Timer TimerWaiting false (snd (PopPublishResult now s)),
                 set_PublishRequestQueues
                   (<[CurrentSession s := decr32 c]> (PublishRequestQueues svc)) svc,
                 [r], if Callback s then [r] else [])).
Proof.
  unfold PublishResults.
  destruct error; [left; split; [by left | reflexivity]|].
  destruct (HasExpired s) eqn:Hexp; [left; split; [by right | reflexivity]|].
  right. simpl.
  destruct (HasPublishResult_snd s) as [Hsnd _].
  destruct (HasPublishResult s) as [has s1]. simpl in Hsnd. subst s1.
  destruct has; [|left; by repeat split].
  right. unfold PopPublishRequest.
  destruct (PublishRequestQueues svc !! CurrentSession s) as [c|] eqn:Hc;
    [|left; by repeat split].
  destruct (Z.eqb_spec c 0) as [|Hne]; [left; by repeat split|].
  right. do 3 (split; [reflexivity|]).
  destruct (PopPublishResult_result now s) as (r & Hr & _).
  exists c, r. split; [reflexivity|]. split; [exact Hne|]. split; [exact Hr|].
  assert (Hcb : Callback (snd (PopPublishResult now s)) = Callback s).
  { unfold PopPublishResult, GetNotificationData.
    destruct (vec_empty (MonitoredItemsTriggered s)); simpl;
      destruct (vec_empty (EventTriggered s)); reflexivity. }
  destruct (PopPublishResult now s) as [results s2]. simpl in *. subst results.
  by rewrite Hcb.
Qed.

(** X11.  A run of the timer handler emits at most one result, and it
    emits one exactly when it takes one publish request of the session of
    the subscription: either it emits nothing, calls no callback and
    leaves the service as it is, or the session had a non-zero credit, the
    credit is decremented by one, one result is emitted and the callback,
    if there is one, is called with that result.  Credits of other
    sessions are never touched. *)
Theorem tick_takes_one_publish_request (error : bool) (now : Z)
  (s : InternalSubscription) (svc : SubscriptionServiceInternal) :
  ((PublishResults error now s svc).1.2 = []
   /\ (PublishResults error now s svc).2 = []
   /\ (PublishResults error now s svc).1.1.2 = svc)
  \/ (exists (c : Z) (r : PublishResult),
        PublishRequestQueues svc !! CurrentSession s = Some c /\ c ≠ 0
        /\ (PublishResults error now s svc).1.2 = [r]
        /\ (PublishResults error now s svc).2 = (if Callback s then [r] else [])
        /\ (PublishResults error now s svc).1.1.2
           = set_PublishRequestQueues
               (<[CurrentSession s := decr32 c]> (PublishRequestQueues svc)) svc
        /\ error = false /\ HasExpired s = false).
Proof.
  destruct (PublishResults_cases error now s svc)
    as [[_ ->] | [(_ & _ & _ & ->) | [(_ & _ & _ & _ & ->)
        | (He & Hx & _ & c & r & Hc & Hne & _ & ->)]]];
    [by left | by left | by left |].
  right. exists c, r. by repeat split.
Qed.

(** ** What a run does to the counters and to the not-acknowledged list *)

Lemma quiet_refl (s : InternalSubscription) : quiet s s.
Proof. by repeat split. Qed.

Lemma quiet_trans (s1 s2 s3 : InternalSubscription) :
  quiet s1 s2 -> quiet s2 s3 -> quiet s1 s3.
Proof.
  intros (Hd1 & Hl1 & Hk1 & Hn1) (Hd2 & Hl2 & Hk2 & Hn2).
  repeat split; try congruence. by etrans.
Qed.

Lemma quiet_same_but_items (s s' : InternalSubscription) :
  Data s' = Data s -> LifeTimeCount s' = LifeTimeCount s ->
  KeepAliveCount s' = KeepAliveCount s ->
  NotAcknowledgedResults s' = NotAcknowledgedResults s -> quiet s s'.
Proof. intros ? ? ? Hn. repeat split; try done. by rewrite Hn. Qed.

Lemma without_acknowledged_quiet acks subid (s : InternalSubscription) :
  quiet s (without_acknowledged acks subid s).
Proof. repeat split. apply sublist_filter. Qed.

Lemma Sub_TriggerEvent_quiet (s : InternalSubscription) (node : NodeId) (event : Event) :
  quiet s (Sub_TriggerEvent s node event).
Proof.
  unfold Sub_TriggerEvent, EnqueueEvent.
  destruct (MonitoredEvents s !! node) as [id|]; [|apply quiet_refl].
  destruct (MonitoredItemsMap s !! id); apply quiet_same_but_items; reflexivity.
Qed.

Lemma DataChangeCallback_quiet (s : InternalSubscription) (m_id : Z) (value : DataValue) :
  quiet s (DataChangeCallback s m_id value).
Proof.
  unfold DataChangeCallback.
  destruct (MonitoredItemsMap s !! m_id); apply quiet_same_but_items; reflexivity.
Qed.

Lemma Stop_quiet (s : InternalSubscription) : quiet s (Stop s).
Proof. unfold Stop. destruct (negb (TimerStopped s)); by repeat split. Qed.

Lemma PopPublishResult_frame (now : Z) (s : InternalSubscription) :
  Data (snd (PopPublishResult now s)) = Data s
  /\ LifeTimeCount (snd (PopPublishResult now s)) = LifeTimeCount s
  /\ KeepAliveCount (snd (PopPublishResult now s)) = 0
  /\ NotAcknowledgedResults (snd (PopPublishResult now s))
     = NotAcknowledgedResults s ++ fst (PopPublishResult now s).
Proof.
  unfold PopPublishResult, GetNotificationData.
  destruct (vec_empty (MonitoredItemsTriggered s)); simpl;
    destruct (vec_empty (EventTriggered s)); by repeat split.
Qed.

Lemma PublishResults_counts (error : bool) (now : Z) (s : InternalSubscription)
  (svc : SubscriptionServiceInternal) :
  let s' := (PublishResults error now s svc).1.1.1 in
  Data s' = Data s
  /\ LifeTimeCount s' = LifeTimeCount s
  /\ keep_alive_step s s'
  /\ NotAcknowledgedResults s'
     = NotAcknowledgedResults s ++ (PublishResults error now s svc).1.2.
Proof.
  unfold keep_alive_step.
  destruct (PublishResults_cases error now s svc)
    as [[_ ->] | [(_ & _ & Hhas & ->) | [(_ & _ & _ & _ & ->)
        | (_ & _ & _ & c & r & _ & _ & Hr & ->)]]]; simpl.
  - repeat split; [by right; left | by rewrite app_nil_r].
  - repeat split; [|by rewrite app_nil_r].
    right. right. split; [|reflexivity].
    by destruct (HasPublishResult_snd s) as [_ Hfalse]; apply Hfalse.
  - repeat split; [by right; left | by rewrite app_nil_r].
  - destruct (PopPublishResult_frame now s) as (Hd & Hl & Hk & Hn).
    rewrite Hr in Hn. repeat split; auto.
Qed.

Section RunCounts.

Context {A : Type} `{!AddressSpaceOps A}.

Lemma CreateMonitoredItem_quiet (s : InternalSubscription) (a : A)
  (request : MonitoredItemRequest) result s' a' :
  CreateMonitoredItem s a request = Some (result, s', a') -> quiet s s'.
Proof.
  assert (Hreg : forall s0 a0 r h result s' a',
             CreateMonitoredItem_register s0 a0 request r h = Some (result, s', a') ->
             quiet s0 s').
  { intros s0 a0 r h result0 s0' a0'. unfold CreateMonitoredItem_register.
    match goal with
    | |- context [TriggerDataChangeEvent ?s1 a0 ?m ?v] =>
        destruct (TriggerDataChangeEvent s1 a0 m v) as [s2|] eqn:Htrig
    end; [|discriminate].
    intros [= _ <- _]. unfold TriggerDataChangeEvent in Htrig.
    destruct (Read a0 [ItemToMonitor request]); [discriminate|].
    injection Htrig as <-. by apply quiet_same_but_items. }
  unfold CreateMonitoredItem.
  destruct (decide (Attribute (ItemToMonitor request) = EVENT_NOTIFIER)).
  - intros Hr. apply Hreg in Hr. exact Hr.
  - destruct (AddDataChangeCallback a _ _) as [h a1].
    destruct (h =? 0).
    + intros [= _ <- _]. by apply quiet_same_but_items.
    + intros Hr. apply Hreg in Hr. exact Hr.
Qed.

Lemma CreateMonitoredItems_loop_quiet (items : list MonitoredItemRequest) :
  forall (s : InternalSubscription) (a : A) data s' a',
    CreateMonitoredItems_loop s a items = Some (data, s', a') -> quiet s s'.
Proof.
  induction items as [|req rest IH]; intros s a data s' a'; simpl.
  - intros [= _ <- _]. apply quiet_refl.
  - destruct (CreateMonitoredItem s a req) as [[[result s1] a1]|] eqn:Hone; [|discriminate].
    destruct (CreateMonitoredItems_loop s1 a1 rest) as [[[data0 s2] a2]|] eqn:Hrest;
      [|discriminate].
    intros [= _ <- _]. apply IH in Hrest. apply CreateMonitoredItem_quiet in Hone.
    by eapply quiet_trans.
Qed.

Lemma DeleteMonitoredItemsIds_quiet (ids : list Z) (s : InternalSubscription) (a : A) :
  quiet s (DeleteMonitoredItemsIds s a ids).1.2.
Proof.
  destruct (DeleteMonitoredItemsIds_effect ids s a) as (_ & _ & Hframe & _).
  apply quiet_same_but_items.
  - exact (f_equal Data Hframe).
  - exact (f_equal LifeTimeCount Hframe).
  - exact (f_equal KeepAliveCount Hframe).
  - exact (f_equal NotAcknowledgedResults Hframe).
Qed.

Lemma step_quiet (op : Op) (svc : SubscriptionServiceInternal) (a : A)
  svc' a' out (subid : Z) (sub : InternalSubscription) :
  step op svc a = Some (svc', a', out) ->
  (forall now, op ≠ OpTimer subid now) ->
  SubscriptionsMap svc !! subid = Some sub ->
  exists sub', SubscriptionsMap svc' !! subid = Some sub' /\ quiet sub sub'.
Proof.
  intros Hstep Hop Hsub. destruct op; simpl in Hstep.
  - injection Hstep as <- <- <-. eexists. split.
    + unfold Publish. simpl. rewrite route_acknowledgements_effect, Hsub. reflexivity.
    + apply without_acknowledged_quiet.
  - unfold CreateMonitoredItems in Hstep.
    destruct (SubscriptionsMap svc !! mip_SubscriptionId params) as [target|] eqn:Htarget.
    + destruct (CreateMonitoredItems_loop target a (ItemsToCreate params))
        as [[[data target'] a1]|] eqn:Hloop; [|discriminate].
      injection Hstep as <- <- <-. apply CreateMonitoredItems_loop_quiet in Hloop. simpl.
      destruct (decide (mip_SubscriptionId params = subid)) as [Heq|Hne].
      * subst subid. rewrite Hsub in Htarget. injection Htarget as <-.
        exists target'. by rewrite lookup_insert_eq.
      * exists sub. rewrite lookup_insert_ne by assumption.
        split; [exact Hsub | apply quiet_refl].
    + injection Hstep as <- <- <-. exists sub. split; [exact Hsub | apply quiet_refl].
  - unfold DeleteMonitoredItems in Hstep.
    destruct (SubscriptionsMap svc !! dmp_SubscriptionId params) as [target|] eqn:Htarget.
    + pose proof (DeleteMonitoredItemsIds_quiet (MonitoredItemIds params) target a) as Hq.
      destruct (DeleteMonitoredItemsIds target a (MonitoredItemIds params))
        as [[results target'] a1].
      injection Hstep as <- <- <-. simpl in *.
      destruct (decide (dmp_SubscriptionId params = subid)) as [Heq|Hne].
      * subst subid. rewrite Hsub in Htarget. injection Htarget as <-.
        exists target'. by rewrite lookup_insert_eq.
      * exists sub. rewrite lookup_insert_ne by assumption.
        split; [exact Hsub | apply quiet_refl].
    + injection Hstep as <- <- <-. exists sub. split; [exact Hsub | apply quiet_refl].
  - injection Hstep as <- <- <-.
    exists (Sub_TriggerEvent sub node
              (if vec_empty (bs_Data (EventId event))
               then set_EventId (fst (GenerateEventId st)) event else event)).
    split; [|apply Sub_TriggerEvent_quiet].
    unfold TriggerEvent.
    destruct (vec_empty (bs_Data (EventId event)));
      [destruct (GenerateEventId st) as [id st']|]; simpl;
      by rewrite lookup_fmap, Hsub.
  - destruct (decide (subid0 = subid)) as [->|Hne]; [by destruct (Hop now)|].
    destruct (TimerHandler_other svc subid0 subid now Hne) as [Hlook _].
    destruct (TimerHandler svc subid0 now) as [svc1 out1].
    injection Hstep as <- <- <-. simpl in *.
    exists sub. split; [by rewrite Hlook | apply quiet_refl].
  - injection Hstep as <- <- <-.
    eexists. split; [by apply on_subscription_lookup|].
    destruct (decide (subid0 = subid)); [apply DataChangeCallback_quiet | apply quiet_refl].
  - injection Hstep as <- <- <-.
    eexists. split; [by apply on_subscription_lookup|].
    destruct (decide (subid0 = subid)); [apply Stop_quiet | apply quiet_refl].
  - injection Hstep as <- <- <-. exists sub. split; [exact Hsub | apply quiet_refl].
Qed.

(** One operation, followed on the counters of the subscription under
    [subid]. *)
Lemma step_counts (op : Op) (svc : SubscriptionServiceInternal) (a : A)
  svc' a' out (subid : Z) (sub : InternalSubscription) :
  step op svc a = Some (svc', a', out) ->
  SubscriptionsMap svc !! subid = Some sub ->
  exists sub', SubscriptionsMap svc' !! subid = Some sub'
    /\ Data sub' = Data sub
    /\ LifeTimeCount sub' = LifeTimeCount sub
    /\ keep_alive_step sub sub'
    /\ unacknowledged_ids sub'
       `sublist_of` unacknowledged_ids sub ++ emitted_ids subid out.
Proof.
  intros Hstep Hsub.
  assert (Hpassive : (forall now, op ≠ OpTimer subid now) ->
    exists sub', SubscriptionsMap svc' !! subid = Some sub'
      /\ Data sub' = Data sub
      /\ LifeTimeCount sub' = LifeTimeCount sub
      /\ keep_alive_step sub sub'
      /\ unacknowledged_ids sub'
         `sublist_of` unacknowledged_ids sub ++ emitted_ids subid out).
  { intros Hop.
    destruct (step_quiet op svc a svc' a' out subid sub Hstep Hop Hsub)
      as (sub' & Hlook & Hd & Hl & Hk & Hn).
    exists sub'. repeat split; auto; [by right; left|].
    apply sublist_inserts_r. unfold unacknowledged_ids. by apply fmap_sublist. }
  destruct op; try (apply Hpassive; discriminate).
  destruct (decide (subid0 = subid)) as [->|Hne]; [|apply Hpassive; congruence].
  simpl in Hstep. unfold TimerHandler in Hstep. rewrite Hsub in Hstep.
  assert (Hgen : forall error,
    (let '(sub', svc1, results, called) := PublishResults error now sub svc in
     (set_SubscriptionsMap (<[subid := sub']> (SubscriptionsMap svc1)) svc1,
      map (fun r => mkEmission subid r (negb (vec_empty called))) results))
    = (svc', out) ->
    exists sub', SubscriptionsMap svc' !! subid = Some sub'
      /\ Data sub' = Data sub
      /\ LifeTimeCount sub' = LifeTimeCount sub
      /\ keep_alive_step sub sub'
      /\ unacknowledged_ids sub'
         `sublist_of` unacknowledged_ids sub ++ emitted_ids subid out).
  { intros error.
    pose proof (PublishResults_counts error now sub svc) as (Hd & Hl & Hk & Hn).
    destruct (PublishResults error now sub svc) as [[[sub' svc1] results] called].
    simpl in *. intros [= <- <-]. exists sub'. simpl. rewrite lookup_insert_eq.
    repeat split; auto.
    unfold unacknowledged_ids, emitted_ids. rewrite Hn, map_app.
    apply sublist_app; [reflexivity|].
    clear. induction results as [|r results IH]; [reflexivity|].
    simpl. rewrite filter_cons_True by reflexivity. simpl. by apply sublist_skip. }
  destruct (Timer sub).
  - injection Hstep as <- <- <-. exists sub. split; [exact Hsub|].
    repeat split; [by right; left|]. simpl. by rewrite app_nil_r.
  - destruct (PublishResults false now sub svc) as [[[sub' svc1] results] called] eqn:Hp.
    injection Hstep as <- <- <-. apply (Hgen false). by rewrite Hp.
  - destruct (PublishResults true now sub svc) as [[[sub' svc1] results] called] eqn:Hp.
    injection Hstep as <- <- <-. apply (Hgen true). by rewrite Hp.
Qed.

End RunCounts.

Lemma keep_alive_step_bound (sub sub' : InternalSubscription) :
  Data sub' = Data sub ->
  keep_alive_step sub sub' ->
  0 <= KeepAliveCount sub <= RevizedMaxKeepAliveCount (Data sub) + 1 ->
  0 <= KeepAliveCount sub' <= RevizedMaxKeepAliveCount (Data sub') + 1.
Proof.
  intros -> [-> | [-> | [Hle ->]]] Hb; [lia | lia |].
  unfold incr32, wrap32, UINT32_MODULUS.
  pose proof (Z.mod_pos_bound (KeepAliveCount sub + 1) 4294967296 ltac:(lia)).
  pose proof (Z.mod_le (KeepAliveCount sub + 1) 4294967296 ltac:(lia) ltac:(lia)).
  lia.
Qed.

Lemma wrapped_ids_NoDup (n : nat) :
  Z.of_nat n <= UINT32_MODULUS ->
  NoDup (map (fun i => wrap32 (1 + Z.of_nat i)) (seq 0 n)).
Proof.
  intros Hn. apply (NoDup_fmap_2_strong (fun i => wrap32 (1 + Z.of_nat i))).
  - intros x y Hx Hy Heq. apply elem_of_seq in Hx, Hy.
    cbv beta in Heq. unfold wrap32, UINT32_MODULUS in *.
    Z.div_mod_to_equations. lia.
  - apply NoDup_seq.
Qed.

Section RunInvariants.

Context {A : Type} `{!AddressSpaceOps A}.

Lemma run_counts (ops : list Op) :
  forall (svc : SubscriptionServiceInternal) (a : A) (subid : Z)
         (sub : InternalSubscription) svc' a',
    SubscriptionsMap svc !! subid = Some sub ->
    (run ops svc a).2 = Some (svc', a') ->
    exists sub', SubscriptionsMap svc' !! subid = Some sub'
      /\ Data sub' = Data sub
      /\ LifeTimeCount sub' = LifeTimeCount sub
      /\ unacknowledged_ids sub'
         `sublist_of` unacknowledged_ids sub ++ emitted_ids subid (run ops svc a).1
      /\ (0 <= KeepAliveCount sub <= RevizedMaxKeepAliveCount (Data sub) + 1 ->
          0 <= KeepAliveCount sub' <= RevizedMaxKeepAliveCount (Data sub') + 1).
Proof.
  induction ops as [|op ops IH]; intros svc a subid sub svc' a' Hsub Hfinal.
  - simpl in *. injection Hfinal as <- <-. exists sub.
    split; [exact Hsub|]. do 2 (split; [reflexivity|]).
    split; [by rewrite app_nil_r | done].
  - simpl in *. destruct (step op svc a) as [[[svc1 a1] out]|] eqn:Hstep;
      [|discriminate].
    destruct (step_counts op svc a svc1 a1 out subid sub Hstep Hsub)
      as (sub1 & Hsub1 & Hd1 & Hl1 & Hk1 & Hn1).
    specialize (IH svc1 a1 subid sub1 svc' a' Hsub1).
    destruct (run ops svc1 a1) as [trace final]. simpl in *.
    destruct (IH Hfinal) as (sub' & Hsub' & Hd & Hl & Hn & Hk).
    exists sub'. split; [exact Hsub'|]. split; [congruence|]. split; [congruence|].
    split.
    + rewrite emitted_ids_app, app_assoc. etrans; [exact Hn|].
      by apply sublist_app.
    + intros Hb. apply Hk. by apply (keep_alive_step_bound sub sub1).
Qed.

(** X12.  [KeepAliveCount] never exceeds [RevizedMaxKeepAliveCount + 1]:
    the handler only counts a tick while the counter is at most the
    keep-alive count, and resets it when it emits.  So a subscription
    created with a lifetime count larger than its keep-alive count never
    expires, whatever the clients, the address space and the timer do:
    after every sequence of operations [HasExpired] is false. *)
Theorem subscription_never_expires (svc : SubscriptionServiceInternal) (a : A)
  (request : CreateSubscriptionRequest) (callback : bool) (ops : list Op)
  svc' a' :
  0 <= RequestedMaxKeepAliveCount request < RequestedLifetimeCount request ->
  (run ops (CreateSubscription svc request callback).2 a).2 = Some (svc', a') ->
  exists sub',
    SubscriptionsMap svc' !! ID (CreateSubscription svc request callback).1 = Some sub'
    /\ 0 <= KeepAliveCount sub' <= RequestedMaxKeepAliveCount request + 1
    /\ HasExpired sub' = false.
Proof.
  intros Hparams Hfinal.
  assert (Hfresh : SubscriptionsMap (CreateSubscription svc request callback).2
                     !! ID (CreateSubscription svc request callback).1
                   = Some (Start (InternalSubscription_new
                                    (CreateSubscription svc request callback).1
                                    (csr_SessionAuthenticationToken request) callback))).
  { simpl. by rewrite lookup_insert_eq. }
  destruct (run_counts ops _ a _ _ svc' a' Hfresh Hfinal)
    as (sub' & Hsub' & Hd & Hl & _ & Hk).
  exists sub'. split; [exact Hsub'|].
  rewrite Hd in Hk. simpl in Hk, Hl. specialize (Hk ltac:(lia)).
  split; [exact Hk|].
  unfold HasExpired. rewrite Hl, Z.gtb_ltb. apply Z.ltb_ge. lia.
Qed.

(** X13.  The results a subscription holds as not acknowledged are, in
    order, results it has emitted: after every sequence of operations on a
    subscription as [CreateSubscription] makes it, the sequence ids of
    [NotAcknowledgedResults] are a sublist of the sequence ids emitted so
    far.  While at most 2^32 results have been emitted, no two entries of
    the list share a sequence id. *)
Theorem not_acknowledged_ids_are_emitted (svc : SubscriptionServiceInternal) (a : A)
  (request : CreateSubscriptionRequest) (callback : bool) (ops : list Op)
  svc' a' :
  let subid := ID (CreateSubscription svc request callback).1 in
  let emitted := emitted_ids subid
                   (run ops (CreateSubscription svc request callback).2 a).1 in
  (run ops (CreateSubscription svc request callback).2 a).2 = Some (svc', a') ->
  exists sub',
    SubscriptionsMap svc' !! subid = Some sub'
    /\ unacknowledged_ids sub' `sublist_of` emitted
    /\ (Z.of_nat (length emitted) <= UINT32_MODULUS -> NoDup (unacknowledged_ids sub')).
Proof.
  intros subid emitted Hfinal.
  assert (Hfresh : SubscriptionsMap (CreateSubscription svc request callback).2 !! subid
                   = Some (Start (InternalSubscription_new
                                    (CreateSubscription svc request callback).1
                                    (csr_SessionAuthenticationToken request) callback))).
  { subst subid. simpl. by rewrite lookup_insert_eq. }
  destruct (run_counts ops _ a _ _ svc' a' Hfresh Hfinal)
    as (sub' & Hsub' & _ & _ & Hn & _).
  exists sub'. split; [exact Hsub'|]. split; [exact Hn|].
  intros Hlen. apply (sublist_NoDup _ emitted); [|exact Hn].
  destruct (run_tracked ops _ a _ _ Hfresh) as (Hids & _); [discriminate|].
  fold emitted in Hids. rewrite Hids.
  rewrite ids_from_closed by (unfold is_u32, UINT32_MODULUS; simpl; lia).
  by apply wrapped_ids_NoDup.
Qed.

End RunInvariants.

(** ** Keep-alive cadence *)

Lemma idle_tick (now : Z) (s : InternalSubscription)
  (svc : SubscriptionServiceInternal) (k : Z) :
  idle s ->
  0 <= k <= RevizedMaxKeepAliveCount (Data s) ->
  RevizedMaxKeepAliveCount (Data s) < UINT32_MAX ->
  RevizedMaxKeepAliveCount (Data s) < LifeTimeCount s ->
  PublishResults false now (set_KeepAliveCount k s) svc
  = (set_KeepAliveCount (k + 1) s, svc, [], []).
Proof.
  intros (Hs & Hq & He & Ht & Hst) Hk Hmax Hlife.
  unfold PublishResults, HasExpired, HasPublishResult. simpl.
  rewrite Hs, Hq, He. simpl.
  destruct (Z.gtb_spec k (LifeTimeCount s)); [lia|].
  destruct (Z.gtb_spec k (RevizedMaxKeepAliveCount (Data s))); [lia|].
  simpl. rewrite incr32_small by lia.
  do 3 f_equal. unfold set_Timer, set_KeepAliveCount. simpl.
  rewrite <- Ht, <- Hst. reflexivity.
Qed.

Lemma idle_ticks (now : Z) (s : InternalSubscription)
  (svc : SubscriptionServiceInternal) (k : nat) :
  idle s ->
  KeepAliveCount s = 0 ->
  RevizedMaxKeepAliveCount (Data s) < UINT32_MAX ->
  RevizedMaxKeepAliveCount (Data s) < LifeTimeCount s ->
  Z.of_nat k <= RevizedMaxKeepAliveCount (Data s) + 1 ->
  ticks k now s svc = (set_KeepAliveCount (Z.of_nat k) s, svc, []).
Proof.
  intros Hidle Hzero Hmax Hlife. induction k as [|k IH]; intros Hk.
  - cbn [ticks]. change (Z.of_nat 0) with 0. rewrite <- Hzero. by destruct s.
  - cbn [ticks]. rewrite IH by lia.
    rewrite (idle_tick now s svc (Z.of_nat k)) by (assumption || lia).
    simpl. do 3 f_equal. lia.
Qed.

(** X14.  From an idle subscription (nothing queued, not starting up,
    counter at 0) whose keep-alive count [m] is below its lifetime count,
    the first [m + 1] ticks emit nothing, take no publish request and
    bring [KeepAliveCount] to [m + 1].  With a publish request available
    the next tick, the [(m + 2)]-th, emits a keep-alive: one result
    without notification data, carrying the current sequence id, for one
    publish request, and the counter is back at 0.  Without one the
    counter stays at [m + 1] on every further tick. *)
Theorem keep_alive_cadence (now : Z) (s : InternalSubscription)
  (svc : SubscriptionServiceInternal) :
  let m := RevizedMaxKeepAliveCount (Data s) in
  idle s ->
  KeepAliveCount s = 0 ->
  0 <= m < UINT32_MAX ->
  m < LifeTimeCount s ->
  (forall k : nat, Z.of_nat k <= m + 1 ->
      ticks k now s svc = (set_KeepAliveCount (Z.of_nat k) s, svc, []))
  /\ (forall c : Z,
        PublishRequestQueues svc !! CurrentSession s = Some c -> c ≠ 0 ->
        exists (r : PublishResult) (s' : InternalSubscription),
          ticks (S (Z.to_nat (m + 1))) now s svc
          = (s',
             set_PublishRequestQueues
               (<[CurrentSession s := decr32 c]> (PublishRequestQueues svc)) svc,
             [r])
          /\ msg_Data (Message r) = [] /\ Statuses r = []
          /\ SequenceID (Message r) = NotificationSequence s
          /\ KeepAliveCount s' = 0)
  /\ (fst (PopPublishRequest svc (CurrentSession s)) = false ->
      forall k : nat, m + 1 <= Z.of_nat k ->
        ticks k now s svc = (set_KeepAliveCount (m + 1) s, svc, [])).
Proof.
  intros m Hidle Hzero Hm Hlife. fold m in Hlife.
  assert (Hidle' := Hidle). destruct Hidle' as (Hs & Hq & He & Ht & Hst).
  assert (Hticks : forall k : nat, Z.of_nat k <= m + 1 ->
             ticks k now s svc = (set_KeepAliveCount (Z.of_nat k) s, svc, [])).
  { intros k Hk. apply idle_ticks; (assumption || lia). }
  split; [exact Hticks|]. split.
  - intros c Hc Hne. cbn [ticks]. rewrite Hticks by lia.
    rewrite Z2Nat.id by lia.
    unfold PublishResults, HasExpired, HasPublishResult. simpl.
    rewrite Hs, Hq, He. simpl. fold m.
    destruct (Z.gtb_spec (m + 1) (LifeTimeCount s)); [lia|].
    destruct (Z.gtb_spec (m + 1) m); [|lia]. simpl.
    unfold PopPublishRequest. rewrite Hc.
    destruct (Z.eqb_spec c 0); [contradiction|].
    unfold PopPublishResult. simpl. rewrite ?Hq. simpl. rewrite ?He. simpl.
    eexists _, _. split; [reflexivity|]. by repeat split.
  - intros Hstarved k Hk.
    assert (Hstuck : PublishResults false now (set_KeepAliveCount (m + 1) s) svc
                     = (set_KeepAliveCount (m + 1) s, svc, [], [])).
    { unfold PublishResults, HasExpired, HasPublishResult. simpl.
      rewrite Hs, Hq, He. simpl. fold m.
      destruct (Z.gtb_spec (m + 1) (LifeTimeCount s)); [lia|].
      destruct (Z.gtb_spec (m + 1) m); [|lia]. simpl.
      pose proof (PopPublishRequest_false svc (CurrentSession s) Hstarved) as Hsvc.
      destruct (PopPublishRequest svc (CurrentSession s)) as [ok svc1].
      simpl in *. subst ok svc1.
      do 3 f_equal. unfold set_Timer, set_KeepAliveCount. simpl.
      rewrite <- Ht, <- Hst. reflexivity. }
    induction k as [|k IH].
    + assert (m + 1 = 0) as Hz by lia. rewrite (Hticks 0%nat) by lia. by rewrite Hz.
    + destruct (decide (Z.of_nat (S k) = m + 1)) as [Heq|Hneq].
      * rewrite Hticks by lia. by rewrite Heq.
      * cbn [ticks]. rewrite IH by lia. by rewrite Hstuck.
Qed.

(** ** Creating and deleting subscriptions *)

Section Subscriptions.

Context {A : Type} `{!AddressSpaceOps A}.

Lemma DeleteSubscription_effect (svc : SubscriptionServiceInternal) (a : A) (subid : Z) :
  (DeleteSubscription svc a subid).1.1
  = (if decide (is_Some (SubscriptionsMap svc !! subid)) then Good
     else BadSubscriptionIdInvalid)
  /\ (DeleteSubscription svc a subid).1.2
     = set_SubscriptionsMap (delete subid (SubscriptionsMap svc)) svc
  /\ (DeleteSubscription svc a subid).2
     = match SubscriptionsMap svc !! subid with
       | Some sub =>
           foldl DeleteDataChangeCallback a
                 (omap (registered_handle (MonitoredItemsMap sub))
                       (keys_in_order (MonitoredItemsMap sub)))
       | None => a
       end.
Proof.
  unfold DeleteSubscription.
  destruct (SubscriptionsMap svc !! subid) as [sub|] eqn:Hsub.
  - destruct (DeleteAllMonitoredItems_effect (Stop sub) a) as (_ & Haddr & _ & Hsame).
    assert (Hitems : MonitoredItemsMap (Stop sub) = MonitoredItemsMap sub)
      by (unfold Stop; by destruct (negb (TimerStopped sub))).
    rewrite Hitems in Haddr.
    destruct (InternalSubscription_destroy (Stop sub) a) as [s1 a1].
    simpl in *. rewrite ?decide_True by eauto. repeat split. by rewrite Hsame.
  - simpl. rewrite ?decide_False by (by intros [? ?]).
    repeat split. rewrite delete_id by assumption. by destruct svc.
Qed.

End Subscriptions.

Section SubscriptionLifecycle.

Context {A : Type} `{!AddressSpaceOps A}.

Lemma DeleteSubscriptions_effect (ids : list Z) :
  forall (svc : SubscriptionServiceInternal) (a : A),
    (forall (i : nat) (id : Z), ids !! i = Some id ->
        (DeleteSubscriptions svc a ids).1.1 !! i
        = Some (if decide (first_mention (SubscriptionsMap svc) ids i id) then Good
                else BadSubscriptionIdInvalid))
    /\ (forall id : Z,
          SubscriptionsMap (DeleteSubscriptions svc a ids).1.2 !! id
          = if decide (id ∈ ids) then None else SubscriptionsMap svc !! id)
    /\ PublishRequestQueues (DeleteSubscriptions svc a ids).1.2 = PublishRequestQueues svc
    /\ LastSubscriptionId (DeleteSubscriptions svc a ids).1.2 = LastSubscriptionId svc.
Proof.
  induction ids as [|hd rest IH]; intros svc a.
  - simpl. split; [intros i id [=]|]. by repeat split.
  - cbn [DeleteSubscriptions].
    destruct (DeleteSubscription_effect svc a hd) as (Hst & Hsvc & _).
    destruct (DeleteSubscription svc a hd) as [[st svc1] a1]. simpl in Hst, Hsvc.
    destruct (IH svc1 a1) as (IHst & IHmap & IHq & IHl).
    destruct (DeleteSubscriptions svc1 a1 rest) as [[results svc2] a2].
    simpl in *. subst svc1. simpl in *. split; [|split; [|by split]].
    + intros [|i] id Hid; simpl in Hid.
      * injection Hid as ->. simpl. rewrite Hst. f_equal.
        unfold first_mention. cbn [take].
        destruct (decide (is_Some (SubscriptionsMap svc !! id))) as [Hs|Hs].
        -- rewrite decide_True; [reflexivity|]. split; [exact Hs | apply not_elem_of_nil].
        -- rewrite decide_False; [reflexivity | tauto].
      * change ((st :: results) !! S i) with (results !! i).
        rewrite (IHst i id Hid). f_equal.
        destruct (decide (first_mention (delete hd (SubscriptionsMap svc)) rest i id))
          as [Hf|Hf].
        -- rewrite decide_True; [reflexivity | by apply first_mention_cons].
        -- rewrite decide_False; [reflexivity|]. by rewrite <- first_mention_cons.
    + intros id. rewrite IHmap, lookup_delete.
      destruct (decide (id ∈ rest)) as [Hin|Hin].
      * rewrite decide_True by (by right). reflexivity.
      * destruct (decide (hd = id)) as [->|Hne].
        -- rewrite decide_True by (by left). reflexivity.
        -- rewrite decide_False; [reflexivity|].
           intros [?|?]%elem_of_cons; congruence.
Qed.

(** X15.  [DeleteSubscriptions] answers the [i]-th id with [Good] when it
    names a subscription of the registry that no earlier id of the list
    has already deleted, and with [BadSubscriptionIdInvalid] otherwise (an
    unknown id, or the same id a second time).  Afterwards no id of the
    list is in the registry and every other subscription is there as
    before; the publish-request credits of the sessions and the id counter
    are not touched.  Deleting one subscription of the registry hands the
    address space the non-zero callback handles of its monitored items, in
    ascending order of the item ids. *)
Theorem delete_subscriptions_effect (svc : SubscriptionServiceInternal) (a : A)
  (ids : list Z) (subid : Z) (sub : InternalSubscription) :
  (forall (i : nat) (id : Z), ids !! i = Some id ->
      (DeleteSubscriptions svc a ids).1.1 !! i
      = Some (if decide (first_mention (SubscriptionsMap svc) ids i id) then Good
              else BadSubscriptionIdInvalid))
  /\ (forall id : Z,
        SubscriptionsMap (DeleteSubscriptions svc a ids).1.2 !! id
        = if decide (id ∈ ids) then None else SubscriptionsMap svc !! id)
  /\ PublishRequestQueues (DeleteSubscriptions svc a ids).1.2 = PublishRequestQueues svc
  /\ LastSubscriptionId (DeleteSubscriptions svc a ids).1.2 = LastSubscriptionId svc
  /\ (SubscriptionsMap svc !! subid = Some sub ->
      (DeleteSubscriptions svc a [subid]).2
      = foldl DeleteDataChangeCallback a
              (omap (registered_handle (MonitoredItemsMap sub))
                    (keys_in_order (MonitoredItemsMap sub)))).
Proof.
  destruct (DeleteSubscriptions_effect ids svc a) as (Hst & Hmap & Hq & Hl).
  do 4 (split; [assumption|]).
  intros Hsub. cbn [DeleteSubscriptions].
  destruct (DeleteSubscription_effect svc a subid) as (_ & _ & Haddr).
  rewrite Hsub in Haddr.
  destruct (DeleteSubscription svc a subid) as [[st svc1] a1]. exact Haddr.
Qed.

(** X16.  [DeleteAllSubscriptions] leaves the registry empty.  It does not
    reset the publish-request credits: every session keeps the credit it
    had; and it does not reset the id counter, so ids of deleted
    subscriptions are not handed out again by the next
    [CreateSubscription]. *)
Theorem delete_all_subscriptions_effect (svc : SubscriptionServiceInternal) (a : A)
  (request : CreateSubscriptionRequest) (callback : bool) :
  SubscriptionsMap (DeleteAllSubscriptions svc a).1 = ∅
  /\ PublishRequestQueues (DeleteAllSubscriptions svc a).1 = PublishRequestQueues svc
  /\ LastSubscriptionId (DeleteAllSubscriptions svc a).1 = LastSubscriptionId svc
  /\ ID (CreateSubscription (DeleteAllSubscriptions svc a).1 request callback).1
     = incr32 (LastSubscriptionId svc).
Proof.
  unfold DeleteAllSubscriptions.
  destruct (keys_in_order_spec (SubscriptionsMap svc)) as (_ & _ & Hkeys).
  destruct (DeleteSubscriptions_effect (keys_in_order (SubscriptionsMap svc)) svc a)
    as (_ & Hmap & Hq & Hl).
  destruct (DeleteSubscriptions svc a (keys_in_order (SubscriptionsMap svc)))
    as [[results svc'] a'].
  simpl in *. split; [|split; [exact Hq|split; [exact Hl | by rewrite Hl]]].
  apply map_eq. intros id. rewrite Hmap, lookup_empty.
  destruct (decide (id ∈ keys_in_order (SubscriptionsMap svc))) as [|Hnotin];
    [reflexivity|].
  rewrite Hkeys in Hnotin. by apply eq_None_not_Some.
Qed.

(** X17.  [CreateSubscription] hands out the next id of the counter and
    returns the requested publishing interval, lifetime count and
    keep-alive count unrevised.  The new subscription is stored under that
    id, constructed for the session of the request and started; every
    other subscription and all credits are as before.  Two consecutive
    creations get different ids.  Deleting the new id returns [Good] and,
    when the id was free before, restores the registry, but not the
    counter. *)
Theorem create_subscription_effect (svc : SubscriptionServiceInternal) (a : A)
  (request request' : CreateSubscriptionRequest) (callback callback' : bool) :
  let data := (CreateSubscription svc request callback).1 in
  let svc1 := (CreateSubscription svc request callback).2 in
  ID data = incr32 (LastSubscriptionId svc)
  /\ RevisedPublishingInterval data = RequestedPublishingInterval request
  /\ RevisedLifetimeCount data = RequestedLifetimeCount request
  /\ RevizedMaxKeepAliveCount data = RequestedMaxKeepAliveCount request
  /\ SubscriptionsMap svc1 !! ID data
     = Some (Start (InternalSubscription_new data
                      (csr_SessionAuthenticationToken request) callback))
  /\ (forall other : Z, other ≠ ID data ->
        SubscriptionsMap svc1 !! other = SubscriptionsMap svc !! other)
  /\ PublishRequestQueues svc1 = PublishRequestQueues svc
  /\ LastSubscriptionId svc1 = ID data
  /\ ID (CreateSubscription svc1 request' callback').1 ≠ ID data
  /\ (DeleteSubscriptions svc1 a [ID data]).1.1 = [Good]
  /\ LastSubscriptionId (DeleteSubscriptions svc1 a [ID data]).1.2 = ID data
  /\ (SubscriptionsMap svc !! ID data = None ->
      SubscriptionsMap (DeleteSubscriptions svc1 a [ID data]).1.2 = SubscriptionsMap svc).
Proof.
  intros data svc1. do 4 (split; [reflexivity|]).
  split; [subst svc1 data; simpl; by rewrite lookup_insert_eq|].
  split; [intros other Hne; subst svc1 data; simpl; by rewrite lookup_insert_ne|].
  do 2 (split; [reflexivity|]).
  split; [apply incr32_neq|].
  destruct (DeleteSubscriptions_effect [ID data] svc1 a) as (Hst & Hmap & _ & Hl).
  specialize (Hst 0%nat (ID data) eq_refl).
  assert (Hpresent : first_mention (SubscriptionsMap svc1) [ID data] 0 (ID data)).
  { split; [|apply not_elem_of_nil]. subst svc1 data. simpl.
    rewrite lookup_insert_eq. by eexists. }
  rewrite decide_True in Hst by assumption.
  split; [|split; [exact Hl|]].
  - destruct ((DeleteSubscriptions svc1 a [ID data]).1.1) as [|st [|st' l]] eqn:Hres;
      [discriminate Hst | by injection Hst as -> |].
    exfalso. cbn [DeleteSubscriptions] in Hres.
    destruct (DeleteSubscription svc1 a (ID data)) as [[x y] z]. discriminate Hres.
  - intros Hfree. apply map_eq. intros id. rewrite Hmap.
    destruct (decide (id = ID data)) as [->|Hne].
    + rewrite decide_True by (by left). by rewrite Hfree.
    + rewrite decide_False by (by intros ->%list_elem_of_singleton).
      subst svc1 data. simpl. by rewrite lookup_insert_ne.
Qed.

End SubscriptionLifecycle.

(** ** Events with an identifier of their own *)

Lemma Sub_TriggerEvent_frame (s : InternalSubscription) (node : NodeId) (event : Event) :
  MonitoredItemsTriggered (Sub_TriggerEvent s node event) = MonitoredItemsTriggered s
  /\ NotAcknowledgedResults (Sub_TriggerEvent s node event) = NotAcknowledgedResults s
  /\ MonitoredItemsMap (Sub_TriggerEvent s node event) = MonitoredItemsMap s
  /\ MonitoredEvents (Sub_TriggerEvent s node event) = MonitoredEvents s
  /\ (MonitoredEvents s !! node = None -> Sub_TriggerEvent s node event = s)
  /\ (exists fields : list EventFieldList,
        Sub_TriggerEvent s node event
        = set_EventTriggered (EventTriggered s ++ fields) s
        /\ EventTriggered (Sub_TriggerEvent s node event) = EventTriggered s ++ fields
        /\ (length fields <= 1)%nat).
Proof.
  assert (Hsame : s = set_EventTriggered (EventTriggered s ++ []) s).
  { rewrite app_nil_r. by destruct s. }
  unfold Sub_TriggerEvent, EnqueueEvent.
  destruct (MonitoredEvents s !! node) as [id|].
  - destruct (MonitoredItemsMap s !! id) as [item|]; simpl.
    + do 4 (split; [reflexivity|]). split; [discriminate|].
      eexists. split; [reflexivity|]. split; [reflexivity | simpl; lia].
    + do 4 (split; [reflexivity|]). split; [discriminate|].
      exists []. split; [exact Hsame|]. split; [by rewrite app_nil_r | simpl; lia].
  - do 5 (split; [reflexivity|]). exists [].
    split; [exact Hsame|]. split; [by rewrite app_nil_r | simpl; lia].
Qed.

(** X18.  [TriggerEvent] of the service draws from the process-wide
    generator only for an event without identifier, and then exactly 8
    times; an event that carries an identifier is handed to every
    subscription as it is, so a subscription with an event item on the
    node queues a field list in which every select clause for "EventID"
    yields the caller's identifier.  Whatever the event, the registry keeps its ids,
    the credits and the id counter are untouched, a subscription without
    an event item on the node is unchanged, and any other is afterwards
    the subscription it was with at most one field list appended to its
    event queue: no other member changes. *)
Theorem trigger_event_delivery (svc : SubscriptionServiceInternal)
  (st : RandState) (node : NodeId) (event : Event) :
  let svc' := (TriggerEvent svc st node event).1 in
  let st' := (TriggerEvent svc st node event).2 in
  (bs_Data (EventId event) = [] -> st' = fun k => st (8 + k)%nat)
  /\ (bs_Data (EventId event) ≠ [] ->
      st' = st
      /\ forall (subid : Z) (sub : InternalSubscription),
           SubscriptionsMap svc !! subid = Some sub ->
           SubscriptionsMap svc' !! subid = Some (Sub_TriggerEvent sub node event)
           /\ (forall attr : AttributeID,
                 GetEventField event
                   (mkSimpleAttributeOperand [mkQualifiedName "EventID" 0] attr)
                 = VByteString (EventId event))
           /\ forall (m_id : Z) (item : DataMonitoredItems),
                MonitoredEvents sub !! node = Some m_id ->
                MonitoredItemsMap sub !! m_id = Some item ->
                exists fields : list VariantValue,
                  SubscriptionsMap svc' !! subid
                  = Some (set_EventTriggered
                            (EventTriggered sub
                               ++ [{| efl_ClientHandle := dm_ClientHandle item;
                                      EventFields := fields |}])
                            sub)
                  /\ length fields
                     = length (SelectClauses (mf_Event (res_Filter (dm_Parameters item))))
                  /\ forall (i : nat) (clause : SimpleAttributeOperand),
                       SelectClauses (mf_Event (res_Filter (dm_Parameters item))) !! i
                       = Some clause ->
                       head (BrowsePath clause) = Some (mkQualifiedName "EventID" 0) ->
                       fields !! i = Some (VByteString (EventId event)))
  /\ PublishRequestQueues svc' = PublishRequestQueues svc
  /\ LastSubscriptionId svc' = LastSubscriptionId svc
  /\ (forall subid : Z,
        SubscriptionsMap svc' !! subid = None <-> SubscriptionsMap svc !! subid = None)
  /\ (forall (subid : Z) (sub sub' : InternalSubscription),
        SubscriptionsMap svc !! subid = Some sub ->
        SubscriptionsMap svc' !! subid = Some sub' ->
        MonitoredItemsTriggered sub' = MonitoredItemsTriggered sub
        /\ NotAcknowledgedResults sub' = NotAcknowledgedResults sub
        /\ MonitoredItemsMap sub' = MonitoredItemsMap sub
        /\ MonitoredEvents sub' = MonitoredEvents sub
        /\ (MonitoredEvents sub !! node = None -> sub' = sub)
        /\ exists fields : list EventFieldList,
             sub' = set_EventTriggered (EventTriggered sub ++ fields) sub
             /\ EventTriggered sub' = EventTriggered sub ++ fields
             /\ (length fields <= 1)%nat).
Proof.
  intros svc' st'. subst svc' st'. unfold TriggerEvent.
  destruct (bs_Data (EventId event)) as [|b data] eqn:Hdata; cbn [vec_empty].
  - unfold GenerateEventId. rewrite GenerateEventId_loop_spec. cbn [fst snd].
    split; [reflexivity|]. split; [done|]. do 2 (split; [reflexivity|]).
    split.
    + intros subid. simpl. rewrite lookup_fmap. apply fmap_None.
    + intros subid sub sub' Hsub. simpl. rewrite lookup_fmap, Hsub. simpl.
      intros [= <-]. apply Sub_TriggerEvent_frame.
  - cbn [fst snd]. split; [discriminate|]. split.
    + intros _. split; [reflexivity|]. intros subid sub Hsub.
      assert (Hlook : ((fun sub0 => Sub_TriggerEvent sub0 node event)
                         <$> SubscriptionsMap svc) !! subid
                      = Some (Sub_TriggerEvent sub node event)).
      { by rewrite lookup_fmap, Hsub. }
      split; [exact Hlook|]. split; [reflexivity|].
      intros m_id item Hev Hitem. simpl. rewrite Hlook.
      rewrite (Sub_TriggerEvent_delivers sub node event m_id item Hev Hitem).
      eexists. split; [reflexivity|].
      apply (GetEventFields_event_id (mf_Event (res_Filter (dm_Parameters item))) event).
    + do 2 (split; [reflexivity|]). split.
      * intros subid. simpl. rewrite lookup_fmap. apply fmap_None.
      * intros subid sub sub' Hsub. simpl. rewrite lookup_fmap, Hsub. simpl.
        intros [= <-]. apply Sub_TriggerEvent_frame.
Qed.

(** ** The properties on concrete inputs *)

(** A callback for item 1 after item 1 is deleted. *)
Lemma callback_after_delete_is_dropped_witness :
  DataChangeCallback
    (DeleteMonitoredItemsIds (sub_with_event_item 1 11) stub_space [1]).1.2 1 value42
  = (DeleteMonitoredItemsIds (sub_with_event_item 1 11) stub_space [1]).1.2.
Proof.
  refine (proj1 (callback_after_delete_is_dropped (sub_with_event_item 1 11) stub_space
                   [1] 1 value42 _)).
  by left.
Defined.

(** A data item on the address space that hands out handle 1 and reads 42. *)
Lemma data_item_round_trip_witness :
  exists result s1,
    CreateMonitoredItem sub_pending stub_space data_request = Some (result, s1, stub_space)
    /\ Status result = Good
    /\ MonitoredItemID result = 1
    /\ MonitoredItemsTriggered s1 = [mkMonitoredItems 5 value42; mkMonitoredItems 5 value42]
    /\ (DeleteMonitoredItemsIds s1 stub_space [1]).1.1 = [Good].
Proof.
  destruct (data_item_round_trip sub_pending stub_space data_request value42 [])
    as (result & s1 & Hc & Hst & Hid & _ & _ & Hq & _ & _ & Hdel & _).
  - discriminate.
  - discriminate.
  - reflexivity.
  - exists result, s1. repeat split; assumption.
Defined.

(** An event item on [nodeN]: the event is queued for it, and no longer
    once the item is deleted. *)
Lemma event_item_lifecycle_witness :
  exists result s1,
    CreateMonitoredItem sub_pending stub_space event_request = Some (result, s1, stub_space)
    /\ MonitoredItemID result = 1
    /\ EventTriggered (Sub_TriggerEvent s1 nodeN event_with_id)
       = EventTriggered s1
           ++ [mkEventFieldList 6 [VByteString (mkByteString [1; 2; 3])]]
    /\ Sub_TriggerEvent (DeleteMonitoredItemsIds s1 stub_space [1]).1.2 nodeN event_with_id
       = (DeleteMonitoredItemsIds s1 stub_space [1]).1.2.
Proof.
  destruct (event_item_lifecycle sub_pending stub_space event_request value42 []
              event_with_id)
    as (result & s1 & Hc & _ & Hid & _ & Hev & _ & _ & _ & Hgone).
  - reflexivity.
  - reflexivity.
  - intros k. discriminate.
  - exists result, s1. split; [exact Hc|]. split; [exact Hid|]. split; [|exact Hgone].
    exact (eq_trans (f_equal EventTriggered Hev) eq_refl).
Defined.

(** Two event items on [nodeN]: deleting the second leaves the first in
    the table and the node without events. *)
Lemma later_event_item_takes_over_witness :
  exists r1 s1 r2 s2,
    CreateMonitoredItem sub_pending stub_space event_request = Some (r1, s1, stub_space)
    /\ CreateMonitoredItem s1 stub_space event_request = Some (r2, s2, stub_space)
    /\ MonitoredItemID r1 = 1 /\ MonitoredItemID r2 = 2
    /\ is_Some (MonitoredItemsMap (DeleteMonitoredItemsIds s2 stub_space [2]).1.2 !! 1)
    /\ Sub_TriggerEvent (DeleteMonitoredItemsIds s2 stub_space [2]).1.2 nodeN event_with_id
       = (DeleteMonitoredItemsIds s2 stub_space [2]).1.2.
Proof.
  destruct (later_event_item_takes_over sub_pending stub_space event_request event_request
              value42 value42 [] [] event_with_id)
    as (r1 & s1 & r2 & s2 & H1 & H2 & Hid1 & Hid2 & _ & _ & Hkept & Hgone).
  - reflexivity.
  - reflexivity.
  - reflexivity.
  - reflexivity.
  - reflexivity.
  - intros k. discriminate.
  - exists r1, s1, r2, s2. repeat split; assumption.
Defined.

(** The address space refuses the first request and accepts the second:
    both results carry the id 1. *)
Lemma refused_item_id_is_reused_witness :
  exists r1 r2 s2 a2,
    CreateMonitoredItems_loop sub_pending counting_space [data_request; data_request]
    = Some ([r1; r2], s2, a2)
    /\ Status r1 = BadNodeAttributesInvalid /\ Status r2 = Good
    /\ MonitoredItemID r1 = 1 /\ MonitoredItemID r2 = 1.
Proof.
  destruct (refused_item_id_is_reused sub_pending counting_space data_request data_request
              value42 [])
    as (r1 & r2 & s2 & Hc & Hst1 & Hst2 & Hid1 & Hid2 & _).
  - discriminate.
  - discriminate.
  - reflexivity.
  - discriminate.
  - reflexivity.
  - unfold is_u32, UINT32_MODULUS. simpl. lia.
  - exists r1, r2, s2. eexists. repeat split; eassumption.
Defined.

(** Keep-alive count 0 and lifetime count 10, over a publish request, two
    emissions and a new monitored item. *)
Lemma subscription_never_expires_witness :
  exists svc' a' sub',
    (run ops_two_emissions fresh_service stub_space).2 = Some (svc', a')
    /\ SubscriptionsMap svc' !! 1 = Some sub'
    /\ HasExpired sub' = false.
Proof.
  destruct (run ops_two_emissions fresh_service stub_space).2 as [[svc' a']|] eqn:Hrun;
    [|vm_compute in Hrun; discriminate Hrun].
  destruct (subscription_never_expires SubscriptionServiceInternal_new stub_space
              every_other_tick_request true ops_two_emissions svc' a')
    as (sub' & Hsub & _ & Hexp).
  - simpl. lia.
  - exact Hrun.
  - exists svc', a', sub'. repeat split; assumption.
Defined.

(** The same run: the not-acknowledged ids are among the emitted ones. *)
Lemma not_acknowledged_ids_are_emitted_witness :
  exists svc' a' sub',
    (run ops_two_emissions fresh_service stub_space).2 = Some (svc', a')
    /\ SubscriptionsMap svc' !! 1 = Some sub'
    /\ unacknowledged_ids sub'
       `sublist_of` emitted_ids 1 (run ops_two_emissions fresh_service stub_space).1.
Proof.
  destruct (run ops_two_emissions fresh_service stub_space).2 as [[svc' a']|] eqn:Hrun;
    [|vm_compute in Hrun; discriminate Hrun].
  destruct (not_acknowledged_ids_are_emitted SubscriptionServiceInternal_new stub_space
              every_other_tick_request true ops_two_emissions svc' a')
    as (sub' & Hsub & Hsl & _).
  - exact Hrun.
  - exists svc', a', sub'. repeat split; assumption.
Defined.

(** Keep-alive count 3: four ticks count, the fifth emits the keep-alive
    that carries the sequence id 2. *)
Lemma keep_alive_cadence_witness :
  ticks 4 0 sub_idle service_idle = (set_KeepAliveCount 4 sub_idle, service_idle, [])
  /\ exists r s',
       ticks 5 0 sub_idle service_idle
       = (s',
          set_PublishRequestQueues
            (<[session1 := 1]> (PublishRequestQueues service_idle)) service_idle,
          [r])
       /\ msg_Data (Message r) = [] /\ SequenceID (Message r) = 2.
Proof.
  destruct (keep_alive_cadence 0 sub_idle service_idle) as (Hcount & Hemit & _).
  - by repeat split.
  - reflexivity.
  - simpl. unfold UINT32_MAX. lia.
  - simpl. lia.
  - split; [apply (Hcount 4%nat); simpl; lia|].
    destruct (Hemit 2) as (r & s' & Ht & Hd & _ & Hseq & _); [reflexivity | discriminate |].
    exists r, s'. repeat split; assumption.
Defined.

(** Two callbacks for item 1 and one for an unknown item: the next result
    reports the two values. *)
Lemma data_changes_reported_in_order_witness :
  exists r rest,
    fst (PopPublishResult 0
           (foldl (fun s0 c => DataChangeCallback s0 c.1 c.2) (sub_with_event_item 1 11)
                  [(1, value42); (9, value42); (1, value42)]))
    = [r]
    /\ msg_Data (Message r)
       = DataChangeNotification [mkMonitoredItems 11 value42; mkMonitoredItems 11 value42]
         :: rest.
Proof.
  destruct (data_changes_reported_in_order 0 (sub_with_event_item 1 11)
              [(1, value42); (9, value42); (1, value42)]) as [_ Hpop].
  destruct Hpop as (r & rest & Hr & Hd); [discriminate|].
  exists r, rest. split; [exact Hr | exact Hd].
Defined.

(** Deleting item 1 and an unknown item: the item has no callback handle,
    the address space is not called. *)
Lemma delete_monitored_items_ids_effect_witness :
  (DeleteMonitoredItemsIds (sub_with_event_item 1 11) counting_space [1; 7]).2
  = counting_space.
Proof.
  destruct (delete_monitored_items_ids_effect (sub_with_event_item 1 11) counting_space
              [1; 7]) as (_ & _ & _ & Haddr).
  refine (eq_trans (Haddr _) eq_refl).
  apply NoDup_cons. split; [|apply NoDup_singleton].
  intros Hin%list_elem_of_singleton. discriminate Hin.
Defined.

(** An acknowledgement for subscription 2 leaves subscription 1 alone. *)
Lemma publish_routes_acknowledgements_witness :
  SubscriptionsMap
    (Publish service_idle (mkPublishRequest session1 [mkSubscriptionAcknowledgement 2 5]))
    !! 1
  = Some sub_idle.
Proof.
  destruct (publish_routes_acknowledgements service_idle
              (mkPublishRequest session1 [mkSubscriptionAcknowledgement 2 5]) 1)
    as (_ & Hsame & _).
  refine (eq_trans (Hsame _) eq_refl).
  apply Forall_singleton. discriminate.
Defined.

(** Deleting subscription 1 of two. *)
Lemma delete_subscriptions_effect_witness :
  (DeleteSubscriptions service_two_subscriptions stub_space [1]).2 = stub_space.
Proof.
  destruct (delete_subscriptions_effect service_two_subscriptions stub_space [1] 1
              (sub_with_event_item 1 11)) as (_ & _ & _ & _ & Haddr).
  exact (eq_trans (Haddr eq_refl) eq_refl).
Defined.

(** The first subscription of a service, created and deleted. *)
Lemma create_subscription_effect_witness :
  SubscriptionsMap (DeleteSubscriptions fresh_service stub_space [1]).1.2 = ∅
  /\ LastSubscriptionId (DeleteSubscriptions fresh_service stub_space [1]).1.2 = 1.
Proof.
  destruct (create_subscription_effect SubscriptionServiceInternal_new stub_space
              every_other_tick_request every_other_tick_request true true)
    as (_ & _ & _ & _ & _ & _ & _ & _ & _ & _ & Hl & Hback).
  split; [exact (Hback eq_refl) | exact Hl].
Defined.

(** An event with an identifier does not advance the generator and is
    queued with that identifier; one without advances the generator by 8
    draws. *)
Lemma trigger_event_delivery_witness :
  (TriggerEvent service_two_subscriptions rand_stream nodeN event_with_id).2 = rand_stream
  /\ SubscriptionsMap
       (TriggerEvent service_two_subscriptions rand_stream nodeN event_with_id).1 !! 2
     = Some (set_EventTriggered
               [mkEventFieldList 22 [VByteString (mkByteString [1; 2; 3])]]
               (sub_with_event_item 2 22))
  /\ (TriggerEvent service_two_subscriptions rand_stream nodeN event_without_id).2
     = fun k => rand_stream (8 + k)%nat.
Proof.
  split; [|split].
  - destruct (trigger_event_delivery service_two_subscriptions rand_stream nodeN
                event_with_id) as (_ & Hid & _).
    destruct Hid as [Hst _]; [discriminate | exact Hst].
  - destruct (trigger_event_delivery service_two_subscriptions rand_stream nodeN
                event_with_id) as (_ & Hid & _).
    destruct Hid as [_ Hsubs]; [discriminate|].
    destruct (Hsubs 2 (sub_with_event_item 2 22) eq_refl) as (_ & _ & Hitem).
    destruct (Hitem 1 (mkDataMonitoredItems
                         (mkCreateMonitoredItemsResult Good 1 100 1 select_event_id)
                         Reporting 22 0) eq_refl eq_refl)
      as (fields & Hlook & Hlen & Hfield).
    specialize (Hfield 0%nat _ eq_refl eq_refl).
    destruct fields as [|f [|f' fields]]; [discriminate Hlen | | discriminate Hlen].
    injection Hfield as ->. exact Hlook.
  - destruct (trigger_event_delivery service_two_subscriptions rand_stream nodeN
                event_without_id) as (Hnone & _).
    exact (Hnone eq_refl).
Defined.
